(** * The tracking map of docs/map.js: a shallow embedding and its properties

    The page script loads station, satellite and orbit records from JSON
    documents, turns them into map features, moves the live markers on a
    timer, swaps the basemap and fills three detail panels on a click.

    The embedding follows the script function by function.  JavaScript values
    are the values [JSON.parse] can produce (plus [undefined]); numbers are
    IEEE-754 binary64, here Rocq's primitive floats; the mutable objects the
    script shares (features, the layer collection, the panel elements) live in
    an explicit state that every handler threads, together with the
    exceptions a handler can raise. *)

From Stdlib Require Import ZArith String Ascii List Bool Lia DecimalString.
From Stdlib Require Import PrimFloat SpecFloat FloatOps.
From stdpp Require Import base option list strings.

Set Default Proof Using "Type".
Local Open Scope string_scope.
Local Open Scope list_scope.

(* ================================================================== *)
(** ** JavaScript values *)
(* ================================================================== *)

Module Js.

(** What [JSON.parse] returns, and [undefined] for a missing property.  An
    object lists its own properties, each key once, in document order. *)
#[local] Unset Elimination Schemes.
Inductive JsVal : Type :=
| JUndefined
| JNull
| JBool (b : bool)
| JNum (x : float)
| JStr (s : string)
| JArr (items : list JsVal)
| JObj (fields : list (string * JsVal)).
#[local] Set Elimination Schemes.

Inductive JsType := TUndefined | TObject | TBoolean | TNumber | TString.

Definition typeof (v : JsVal) : JsType :=
  match v with
  | JUndefined => TUndefined
  | JNull | JArr _ | JObj _ => TObject
  | JBool _ => TBoolean
  | JNum _ => TNumber
  | JStr _ => TString
  end.

(** [typeof v === 'number']. *)
Definition is_number (v : JsVal) : bool :=
  match typeof v with TNumber => true | _ => false end.

Definition isArray (v : JsVal) : bool :=
  match v with JArr _ => true | _ => false end.

(** Exceptions the script can meet. *)
Inductive JsError :=
| TypeError (what : string)
| NetworkError
| HttpError (status : nat)
| SyntaxError
| ErrorOf (message : JsVal)
| AssertionError.

Inductive Result (A : Type) : Type :=
| Ok (a : A)
| Throw (e : JsError).
Arguments Ok {A} a.
Arguments Throw {A} e.

Definition rbind {A B} (r : Result A) (k : A -> Result B) : Result B :=
  match r with Ok a => k a | Throw e => Throw e end.

(** [ToBoolean]: the falsy values are [undefined], [null], [false], [0],
    [-0], [NaN] and the empty string. *)
Definition truthy (v : JsVal) : bool :=
  match v with
  | JUndefined | JNull => false
  | JBool b => b
  | JNum x => negb (is_zero x || is_nan x)
  | JStr s => negb (String.eqb s "")
  | JArr _ | JObj _ => true
  end.

(** [a || b] and [a ?? b], on values already computed (the script's operands
    are property reads, which have no effect). *)
Definition or_else (a b : JsVal) : JsVal := if truthy a then a else b.

Definition nullish (v : JsVal) : bool :=
  match v with JUndefined | JNull => true | _ => false end.

Definition coalesce (a b : JsVal) : JsVal := if nullish a then b else a.

Fixpoint lookup_field (k : string) (fs : list (string * JsVal)) : JsVal :=
  match fs with
  | [] => JUndefined
  | (k', v) :: rest => if String.eqb k k' then v else lookup_field k rest
  end.

Definition has_field (k : string) (fs : list (string * JsVal)) : bool :=
  existsb (fun kv => String.eqb k (fst kv)) fs.

(** [v.k] for the data keys the script reads; none of them is a property of
    a built-in prototype, so only an object's own fields answer. *)
Definition get (v : JsVal) (k : string) : Result JsVal :=
  match v with
  | JUndefined | JNull => Throw (TypeError ("Cannot read properties of null or undefined: " +:+ k))
  | JObj fs => Ok (lookup_field k fs)
  | _ => Ok JUndefined
  end.

Definition index_key (i : nat) : string :=
  NilEmpty.string_of_uint (Nat.to_uint i).

(** [v[i]]: an array element, a character of a string, the field named by
    the index of an object. *)
Definition get_index (v : JsVal) (i : nat) : Result JsVal :=
  match v with
  | JUndefined | JNull => Throw (TypeError "Cannot read properties of null or undefined")
  | JArr items => Ok (nth i items JUndefined)
  | JStr s => Ok (match String.get i s with Some c => JStr (String c "") | None => JUndefined end)
  | JObj fs => Ok (lookup_field (index_key i) fs)
  | _ => Ok JUndefined
  end.

(** *** Numbers from strings: [StringToNumber] *)

Definition nat_to_float (n : nat) : float :=
  SF2Prim (binary_normalize prec emax (Z.of_nat n) 0 false).

(** The Number nearest to [m * 10^e10] (ties to even), for [0 <= m]. *)
Definition decimal_to_float (neg : bool) (m e10 : Z) : float :=
  let magnitude :=
    if (m =? 0)%Z then S754_zero false
    else if (0 <=? e10)%Z then binary_normalize prec emax (m * 10 ^ e10) 0 false
    else
      let d := (10 ^ (- e10))%Z in
      let k := (Z.log2 d + 64)%Z in
      let q := (m * 2 ^ k / d)%Z in
      let sticky := if (m * 2 ^ k mod d =? 0)%Z then 0%Z else 1%Z in
      binary_normalize prec emax (2 * q + sticky) (- (k + 1)) false in
  SF2Prim (if neg then SFopp magnitude else magnitude).

Definition digit_value (base : Z) (c : ascii) : option Z :=
  let n := Z.of_N (N_of_ascii c) in
  let d :=
    if (48 <=? n)%Z && (n <=? 57)%Z then Some (n - 48)%Z
    else if (97 <=? n)%Z && (n <=? 102)%Z then Some (n - 87)%Z
    else if (65 <=? n)%Z && (n <=? 70)%Z then Some (n - 55)%Z
    else None in
  match d with
  | Some v => if (v <? base)%Z then Some v else None
  | None => None
  end.

(** Reads the longest run of digits: their value, their number, the rest. *)
Fixpoint read_digits (base : Z) (s : string) (acc : Z) (n : nat) : Z * nat * string :=
  match s with
  | EmptyString => (acc, n, s)
  | String c rest =>
      match digit_value base c with
      | Some d => read_digits base rest (acc * base + d)%Z (S n)
      | None => (acc, n, s)
      end
  end.

Definition read_sign (s : string) : bool * string :=
  match s with
  | String "-"%char rest => (true, rest)
  | String "+"%char rest => (false, rest)
  | _ => (false, s)
  end.

(** The white space [StringToNumber] trims, as UTF-8 byte sequences: TAB, LF,
    VT, FF, CR, SP, U+00A0, U+1680, U+2000..U+200A, U+2028, U+2029, U+202F,
    U+205F, U+3000 and U+FEFF. *)
Definition white_space : list (list nat) :=
  [[9]; [10]; [11]; [12]; [13]; [32]; [194; 160]; [225; 154; 128];
   [226; 128; 128]; [226; 128; 129]; [226; 128; 130]; [226; 128; 131];
   [226; 128; 132]; [226; 128; 133]; [226; 128; 134]; [226; 128; 135];
   [226; 128; 136]; [226; 128; 137]; [226; 128; 138]; [226; 128; 168];
   [226; 128; 169]; [226; 128; 175]; [226; 129; 159]; [227; 128; 128];
   [239; 187; 191]].

Fixpoint strip_bytes (w : list nat) (s : list ascii) : option (list ascii) :=
  match w, s with
  | [], _ => Some s
  | b :: w', c :: s' => if Nat.eqb b (nat_of_ascii c) then strip_bytes w' s' else None
  | _ :: _, [] => None
  end.

Fixpoint strip_any (ws : list (list nat)) (s : list ascii) : option (list ascii) :=
  match ws with
  | [] => None
  | w :: rest => match strip_bytes w s with Some s' => Some s' | None => strip_any rest s end
  end.

Fixpoint trim_start (ws : list (list nat)) (fuel : nat) (s : list ascii) : list ascii :=
  match fuel with
  | 0 => s
  | S fuel' => match strip_any ws s with Some s' => trim_start ws fuel' s' | None => s end
  end.

Definition trim (s : string) : string :=
  let l := trim_start white_space (String.length s) (list_ascii_of_string s) in
  let r := trim_start (map (@rev nat) white_space) (length l) (rev l) in
  string_of_list_ascii (rev r).

Definition is_exp_mark (c : ascii) : bool :=
  (Ascii.eqb c "e" || Ascii.eqb c "E")%char.

(** [StrUnsignedDecimalLiteral] after the sign: digits, an optional fraction,
    an optional exponent, and nothing after them. *)
Definition unsigned_decimal (neg : bool) (s : string) : float :=
  let '(ip, ni, r1) := read_digits 10 s 0 0 in
  let '(m, nf, r2) :=
    match r1 with
    | String "."%char r => read_digits 10 r ip 0
    | _ => (ip, 0, r1)
    end in
  if Nat.eqb (ni + nf) 0 then nan
  else
    match r2 with
    | EmptyString => decimal_to_float neg m (- Z.of_nat nf)
    | String c r3 =>
        if is_exp_mark c then
          let '(eneg, r4) := read_sign r3 in
          let '(ex, ne, r5) := read_digits 10 r4 0 0 in
          match ne, r5 with
          | S _, EmptyString =>
              decimal_to_float neg m ((if eneg then - ex else ex) - Z.of_nat nf)
          | _, _ => nan
          end
        else nan
    end.

Definition radix_literal (base : Z) (s : string) : float :=
  let '(v, n, r) := read_digits base s 0 0 in
  match n, r with
  | S _, EmptyString => decimal_to_float false v 0
  | _, _ => nan
  end.

Definition StringToNumber (s : string) : float :=
  let t := trim s in
  match t with
  | EmptyString => zero
  | String "0"%char (String c rest) =>
      if (Ascii.eqb c "x" || Ascii.eqb c "X")%char then radix_literal 16 rest
      else if (Ascii.eqb c "o" || Ascii.eqb c "O")%char then radix_literal 8 rest
      else if (Ascii.eqb c "b" || Ascii.eqb c "B")%char then radix_literal 2 rest
      else unsigned_decimal false t
  | _ =>
      let '(neg, u) := read_sign t in
      if String.eqb u "Infinity" then (if neg then neg_infinity else infinity)
      else unsigned_decimal neg u
  end.

(** *** [ToNumber], the function [Number(v)] calls *)

(** An object read from JSON converts to a primitive through
    [Object.prototype.toString] unless it has an own [toString] field, which
    no JSON value makes callable: then the conversion throws.  An array joins
    the conversions of its elements. *)
Fixpoint toString_throws (v : JsVal) : bool :=
  match v with
  | JObj fs => has_field "toString" fs
  | JArr items => existsb toString_throws items
  | _ => false
  end.

(** [Number(v)].  An array goes through its string: the empty array is the
    empty string, a one-element array is the string of its element (for a
    number [x] other than [-0] that string reads back as [x]; [-0] prints as
    "0"), and two or more elements put a comma in the string. *)
Fixpoint ToNumber_total (v : JsVal) : float :=
  match v with
  | JUndefined => nan
  | JNull => zero
  | JBool b => if b then one else zero
  | JNum x => x
  | JStr s => StringToNumber s
  | JObj _ => nan
  | JArr [] => zero
  | JArr [x] =>
      match x with
      | JUndefined | JNull => zero
      | JBool _ => nan
      | JNum n => if is_zero n then zero else n
      | _ => ToNumber_total x
      end
  | JArr _ => nan
  end.

Definition ToNumber (v : JsVal) : Result float :=
  if toString_throws v then Throw (TypeError "Cannot convert object to primitive value")
  else Ok (ToNumber_total v).

End Js.
Export Js.

(* ================================================================== *)
(** ** The mapping library's objects *)
(* ================================================================== *)

Module Ol.

(** [ol.proj.fromLonLat([lon, lat])]: the projected coordinate of a point
    given in degrees.  The projection is the library's; a coordinate records
    what was projected. *)
Record Coordinate := fromLonLat { coord_lon : float; coord_lat : float }.

Inductive Geometry :=
| Point (c : Coordinate)
| LineString (cs : list Coordinate).

Inductive LineDash := DashUnset | DashNull.

Record Stroke := mkStroke {
  stroke_color : string;
  stroke_width : float;
  stroke_lineDash : LineDash
}.

Inductive Image :=
| Circle (radius : float) (fill : string) (stroke : Stroke)
| Icon (src : string) (scale : float) (anchor : float * float) (crossOrigin : string).

Record Style := mkStyle {
  style_geometry : option Geometry;
  style_image : option Image;
  style_stroke : option Stroke
}.

(** A feature: its geometry, the rest of its property bag, its own style. *)
Record Feature := mkFeature {
  geometry : Geometry;
  properties : list (string * JsVal);
  style : option Style
}.

Definition getProperty (f : Feature) (k : string) : JsVal :=
  lookup_field k (properties f).

(** [feature.set(k, v)]: an existing key keeps its place. *)
Fixpoint set_field (k : string) (v : JsVal) (bag : list (string * JsVal))
  : list (string * JsVal) :=
  match bag with
  | [] => [(k, v)]
  | (k', v') :: rest =>
      if String.eqb k k' then (k, v) :: rest else (k', v') :: set_field k v rest
  end.

(** [feature.setProperties(values)] and [Object.assign({}, a, b)]. *)
Definition assign (bag values : list (string * JsVal)) : list (string * JsVal) :=
  fold_left (fun acc kv => set_field (fst kv) (snd kv) acc) values bag.

Definition setProperties (values : list (string * JsVal)) (f : Feature) : Feature :=
  {| geometry := geometry f; properties := assign (properties f) values; style := style f |}.

Definition setCoordinates (c : Coordinate) (f : Feature) : Feature :=
  {| geometry := Point c; properties := properties f; style := style f |}.

(** The colour a CSS colour string denotes, for hexadecimal notation and for
    the colour names the script uses. *)
Definition hex_pair (a b : ascii) : option Z :=
  match digit_value 16 a, digit_value 16 b with
  | Some x, Some y => Some (16 * x + y)%Z
  | _, _ => None
  end.

Definition cssColor (s : string) : option (Z * Z * Z) :=
  match s with
  | String "#"%char (String r (String g (String b EmptyString))) =>
      match hex_pair r r, hex_pair g g, hex_pair b b with
      | Some x, Some y, Some z => Some (x, y, z)
      | _, _, _ => None
      end
  | String "#"%char (String r1 (String r2 (String g1 (String g2 (String b1 (String b2 EmptyString)))))) =>
      match hex_pair r1 r2, hex_pair g1 g2, hex_pair b1 b2 with
      | Some x, Some y, Some z => Some (x, y, z)
      | _, _, _ => None
      end
  | _ =>
      if String.eqb s "orange" then Some (255, 165, 0)%Z
      else if String.eqb s "green" then Some (0, 128, 0)%Z
      else if String.eqb s "gray" then Some (128, 128, 128)%Z
      else if String.eqb s "blue" then Some (0, 0, 255)%Z
      else if String.eqb s "red" then Some (255, 0, 0)%Z
      else None
  end.

End Ol.
Export Ol.

(* ================================================================== *)
(** ** Styles and the feature factory *)
(* ================================================================== *)

Local Open Scope float_scope.
Local Open Scope list_scope.

Definition ICONS_station : string := "assets/antenna.png".
Definition ICONS_satellite : string := "assets/satellite.png".

Definition str_is (v : JsVal) (s : string) : bool :=
  match v with JStr t => String.eqb t s | _ => false end.

(** [props.type || (geometry is a line ? 'orbit' : props.name === 'Observer'
    ? 'observer' : 'unknown')], the expression [makeFeatureStyle] and the
    click handler share. *)
Definition featureType (f : Feature) : JsVal :=
  or_else (getProperty f "type")
    (match geometry f with
     | LineString _ => JStr "orbit"
     | Point _ => if str_is (getProperty f "name") "Observer"
                  then JStr "observer" else JStr "unknown"
     end).

(** [v.k] where [v] is known not to be [null] or [undefined]. *)
Definition field (v : JsVal) (k : string) : JsVal :=
  match v with JObj fs => lookup_field k fs | _ => JUndefined end.

(** [Array.isArray(raw.track) ? raw.track : Array.isArray(props.track) ?
    props.track : []]. *)
Definition trackOf (raw : JsVal) (props : list (string * JsVal)) : list JsVal :=
  match field raw "track" with
  | JArr t => t
  | _ => match lookup_field "track" props with JArr t => t | _ => [] end
  end.

Definition hoverMul (hover : bool) : float := if hover then 1.4 else 1.0.

Inductive StyleLike :=
| OneStyle (s : Style)
| StyleArray (ss : list Style).

Definition imageStyle (i : Image) : Style :=
  {| style_geometry := None; style_image := Some i; style_stroke := None |}.

Definition whiteStroke : Stroke := mkStroke "#fff" 1 DashUnset.

Definition makeFeatureStyle (feature : Feature) (hover : bool) : StyleLike :=
  let props := properties feature in
  let type := featureType feature in
  let hoverMul := hoverMul hover in
  if str_is type "observer" then
    OneStyle (imageStyle (Circle (7 * hoverMul) "green" whiteStroke))
  else if str_is type "station" then
    OneStyle (imageStyle (Icon ICONS_station (0.08 * hoverMul) (0.5, 1) "anonymous"))
  else if str_is type "satellite" then
    OneStyle (imageStyle (Icon ICONS_satellite (0.06 * hoverMul) (0.5, 0.5) "anonymous"))
  else if str_is type "orbit" then
    let raw := or_else (lookup_field "raw" props) (JObj []) in
    let track := trackOf raw props in
    let coords :=
      match track with
      | JArr (JNum lat :: JNum lon :: _) :: _ => Some (fromLonLat lon lat)
      | _ => None
      end in
    let line :=
      {| style_geometry := None; style_image := None;
         style_stroke := Some (mkStroke (if hover then "#ffa500" else "orange")
                                        (if hover then 4 else 2) DashNull) |} in
    match coords with
    | Some c =>
        StyleArray [line;
                    {| style_geometry := Some (Point c);
                       style_image := Some (Icon ICONS_satellite (0.06 * hoverMul)
                                                 (0.5, 0.5) "anonymous");
                       style_stroke := None |}]
    | None => StyleArray [line]
    end
  else
    OneStyle (imageStyle (Circle (6 * hoverMul) "gray" whiteStroke)).

(** [createMarker(lon, lat, color, label, props)]; [None] is [null]. *)
Definition createMarker (lon lat : JsVal) (color : string) (label : JsVal)
    (props : list (string * JsVal)) : option Feature :=
  (* if (typeof lon !== 'number' || typeof lat !== 'number') return null *)
  match lon, lat with
  | JNum x, JNum y =>
      Some {| geometry := Point (fromLonLat x y);
              properties := assign [("name", label)]
                              (assign (assign [] props) [("name", label)]);
              style := Some (imageStyle (Circle 6 color whiteStroke)) |}
  | _, _ => None
  end.

(** One turn of the loop of [createLine]: [coords] after looking at [pt]. *)
Definition createLine_visit (coords : list Coordinate) (pt : JsVal) : list Coordinate :=
  if negb (isArray pt) then coords
  else
    match pt with
    | JArr items =>
        let lat := nth 0 items JUndefined in
        let lon := nth 1 items JUndefined in
        match lat, lon with
        | JNum la, JNum lo => coords ++ [fromLonLat lo la]
        | _, _ => coords
        end
    | _ => coords
    end.

(** What [for (const pt of (track || []))] runs over: nothing for a falsy
    track, the elements of an array, the characters of a string; any other
    value is not iterable. *)
Definition iterate (track : JsVal) : Result (list JsVal) :=
  if negb (truthy track) then Ok []
  else
    match track with
    | JArr items => Ok items
    | JStr s => Ok (map (fun c => JStr (String c "")) (list_ascii_of_string s))
    | _ => Throw (TypeError "track is not iterable")
    end.

Definition lineStyle (color : string) : Style :=
  {| style_geometry := None; style_image := None;
     style_stroke := Some (mkStroke color 2 DashUnset) |}.

(** [createLine(track, color, props)]; [Ok None] is [null]. *)
Definition createLine (track : JsVal) (color : string) (props : list (string * JsVal))
  : Result (option Feature) :=
  rbind (iterate track) (fun pts =>
    let coords := fold_left createLine_visit pts [] in
    match coords with
    | [] => Ok None
    | _ :: _ =>
        Ok (Some {| geometry := LineString coords;
                    properties := assign [] props;
                    style := Some (lineStyle color) |})
    end).

(* ================================================================== *)
(** ** Strings, escaping and the panels' markup *)
(* ================================================================== *)

Infix "|||" := or_else (at level 50, left associativity).
Infix "???" := coalesce (at level 50, left associativity).

(** [s.replace(/c/g, by)] for a one-character pattern. *)
Fixpoint replace_all (c : ascii) (by_ : string) (s : string) : string :=
  match s with
  | EmptyString => EmptyString
  | String a rest =>
      if Ascii.eqb a c then by_ +:+ replace_all c by_ rest
      else String a (replace_all c by_ rest)
  end.

(** The three passes of [escapeHtml] on the string [String(str)]. *)
Definition escapeHtml_string (s : string) : string :=
  replace_all ">" "&gt;" (replace_all "<" "&lt;" (replace_all "&" "&amp;" s)).

(** A string that cannot open or close a tag: no [<], no [>], and every [&]
    starts one of the entities [&amp;], [&lt;], [&gt;]. *)
Fixpoint html_safe (s : string) : bool :=
  match s with
  | EmptyString => true
  | String c rest =>
      if (Ascii.eqb c "<" || Ascii.eqb c ">")%char then false
      else if Ascii.eqb c "&" then
        (String.prefix "amp;" rest || String.prefix "lt;" rest || String.prefix "gt;" rest)
        && html_safe rest
      else html_safe rest
  end.

(** What a template literal puts into [innerHTML], piece by piece. *)
Inductive Piece :=
| Markup (s : string)            (** text written in the script *)
| Text (s : string)              (** a string value spliced by [${...}] *)
| Fixed (x : float) (dp : nat)   (** [x.toFixed(dp)] *)
| Plain (x : float)              (** a number spliced as it is *)
| UriPair (lat lon : float).     (** [encodeURIComponent(lat + ',' + lon)] *)

Definition Html := list Piece.

Definition dq : string := String (ascii_of_nat 34) EmptyString.

Definition attr (name value : string) : string :=
  " " +:+ name +:+ "=" +:+ dq +:+ value +:+ dq.

Definition preStyle (maxh : string) : string :=
  "white-space:pre-wrap; color:#ddd; background:#111; padding:6px; border-radius:4px;"
  +:+ maxh.

(** Math.min and Math.max of a spread array: NaN wins, then the order of the
    numbers, with [-0] below [+0]. *)
Definition js_min (a b : float) : float :=
  if is_nan a || is_nan b then nan
  else if b <? a then b
  else if a <? b then a
  else if get_sign b then b else a.

Definition js_max (a b : float) : float :=
  if is_nan a || is_nan b then nan
  else if a <? b then b
  else if b <? a then a
  else if get_sign b then a else b.

Definition Math_min (xs : list float) : float := fold_left js_min xs infinity.
Definition Math_max (xs : list float) : float := fold_left js_max xs neg_infinity.

Definition numbers_of (vs : list JsVal) : list float :=
  omap (fun v => match v with JNum x => Some x | _ => None end) vs.

Fixpoint mapM {A B} (f : A -> Result B) (l : list A) : Result (list B) :=
  match l with
  | [] => Ok []
  | a :: rest => rbind (f a) (fun b => rbind (mapM f rest) (fun bs => Ok (b :: bs)))
  end.

(** [readLatLon(props)]: the first candidate that is a number, else [null]
    (here [None]). *)
Definition readLatLon (props : list (string * JsVal)) : option float * option float :=
  let raw := lookup_field "raw" props ||| JObj [] in
  let P k := lookup_field k props in
  let latCandidates :=
    [field raw "latitude"; field raw "latitude_deg"; field raw "lat"; field raw "lat_deg";
     P "latitude"; P "latitude_deg"; P "lat"; P "lat_deg"] in
  let lonCandidates :=
    [field raw "longitude"; field raw "longitude_deg"; field raw "lon"; field raw "lon_deg";
     field raw "lng"; field raw "lng_deg";
     P "longitude"; P "longitude_deg"; P "lon"; P "lon_deg"; P "lng"] in
  (head (numbers_of latCandidates), head (numbers_of lonCandidates)).

Section Platform.

(** The engine's printing of numbers and of JSON, as the page finds them:
    [Number::toString], [JSON.stringify(v, null, 2)] on a JSON value, and the
    same on a feature's whole property bag (which holds the library's
    geometry object as well). *)
Variable Number_toString : float -> string.
Variable JSON_stringify : JsVal -> string.
Variable JSON_stringify_properties : Geometry -> list (string * JsVal) -> string.

(** [String(v)] where the conversion does not throw. *)
Fixpoint ToString_total (v : JsVal) : string :=
  match v with
  | JUndefined => "undefined"
  | JNull => "null"
  | JBool b => if b then "true" else "false"
  | JNum x => Number_toString x
  | JStr s => s
  | JObj _ => "[object Object]"
  | JArr items =>
      (fix join (l : list JsVal) : string :=
         match l with
         | [] => ""
         | x :: rest =>
             let sx := match x with JUndefined | JNull => "" | _ => ToString_total x end in
             match rest with [] => sx | _ :: _ => sx +:+ "," +:+ join rest end
         end) items
  end.

Definition ToString (v : JsVal) : Result string :=
  if toString_throws v then Throw (TypeError "Cannot convert object to primitive value")
  else Ok (ToString_total v).

Definition escapeHtml (str : JsVal) : Result string :=
  rbind (ToString str) (fun s => Ok (escapeHtml_string s)).

(** [formatNum(v, dp)]. *)
Definition formatNum (v : JsVal) (dp : nat) : Result Html :=
  match v with
  | JNum x => Ok [Fixed x dp]
  | JNull | JUndefined => Ok [Markup "—"]
  | _ => rbind (ToString v) (fun s => Ok [Text s])
  end.

(** [smallTableRow(k, v)]: the key is escaped, the value is spliced as the
    caller built it. *)
Definition smallTableRow (k : string) (v : Html) : Html :=
  [Markup ("<tr><td" +:+ attr "style" "vertical-align:top; padding:4px 8px; font-weight:600; color:#cfcfcf" +:+ ">");
   Text (escapeHtml_string k);
   Markup ("</td><td" +:+ attr "style" "padding:4px 8px; color:#ddd" +:+ ">")]
  ++ v ++ [Markup "</td></tr>"].

(** [(typeof x === 'number') ? num(x) : escapeHtml(String(x))]. *)
Definition numberOrEscaped (num : float -> Piece) (x : JsVal) : Result Html :=
  match x with
  | JNum n => Ok [num n]
  | _ => rbind (ToString x) (fun s => Ok [Text (escapeHtml_string s)])
  end.

Definition escaped (v : JsVal) : Result Html :=
  rbind (escapeHtml v) (fun s => Ok [Text s]).

Definition rawDetails (maxh : string) (raw : JsVal) : Html :=
  [Markup ("<details" +:+ attr "style" "color:#ddd; margin-top:8px;"
           +:+ "><summary>Raw data (JSON)</summary><pre" +:+ attr "style" (preStyle maxh) +:+ ">");
   Text (escapeHtml_string (JSON_stringify raw));
   Markup "</pre></details>"].

(** The markup [showSatelliteInfo(props)] assigns to [innerHTML]. *)
Definition satelliteHtml (props : list (string * JsVal)) : Result Html :=
  let P k := lookup_field k props in
  let raw := P "raw" ||| JObj [] in
  let R k := field raw k in
  let id := P "id" ||| R "id" ||| R "norad_cat_id" ||| R "sat_id" ||| JStr "—" in
  let name := P "name" ||| R "name" ||| R "satname" ||| JStr "Unknown" in
  let '(lat, lon) := readLatLon props in
  let altitude := P "altitude_km" ??? R "altitude_km" ??? R "height_km"
                  ??? R "elevation_km" ??? R "distance_km" ??? JStr "—" in
  let tle1 := P "tle_line1" ||| R "tle_line1" ||| R "tle1" ||| R "line1" ||| JStr "" in
  let tle2 := P "tle_line2" ||| R "tle_line2" ||| R "tle2" ||| R "line2" ||| JStr "" in
  rbind (match lat, lon with
         | Some la, Some lo =>
             rbind (formatNum (JNum la) 4) (fun a =>
             rbind (formatNum (JNum lo) 4) (fun b =>
             Ok (a ++ [Markup "°, "] ++ b ++ [Markup "°"])))
         | _, _ => Ok [Markup "—"]
         end) (fun coordsHtml =>
  rbind (escaped name) (fun nameHtml =>
  rbind (escaped id) (fun idHtml =>
  rbind (numberOrEscaped (fun n => Fixed n 2) altitude) (fun altHtml =>
  rbind (if truthy tle1
         then rbind (ToString tle1) (fun l1 =>
              rbind (ToString (tle2 ||| JStr "")) (fun l2 =>
              Ok (JStr (l1 +:+ String (ascii_of_nat 10) "" +:+ l2))))
         else Ok (R "tle" ||| JStr "N/A")) (fun tle =>
  rbind (escaped tle) (fun tleHtml =>
  Ok ([Markup ("<h4>Satellite Information</h4><table"
               +:+ attr "style" "width:100%; border-collapse:collapse;" +:+ ">")]
      ++ smallTableRow "Name" nameHtml
      ++ smallTableRow "ID / NORAD" idHtml
      ++ smallTableRow "Coordinates" coordsHtml
      ++ smallTableRow "Altitude (km)" altHtml
      ++ [Markup ("</table><h5" +:+ attr "style" "margin:6px 0 4px 0;"
                  +:+ ">TLE / Orbit lines</h5><pre"
                  +:+ attr "style" (preStyle " max-height:160px; overflow:auto;") +:+ ">")]
      ++ tleHtml ++ [Markup "</pre>"]
      ++ rawDetails " max-height:300px; overflow:auto;" raw))))))).

(** The markup [showStationInfo(props)] assigns. *)
Definition stationHtml (props : list (string * JsVal)) : Result Html :=
  let P k := lookup_field k props in
  let raw := P "raw" ||| JObj [] in
  let R k := field raw k in
  let name := P "name" ||| R "name" ||| R "callsign" ||| JStr "Ground Station" in
  let id := P "id" ||| R "id" ||| R "station_id" ||| R "callsign" ||| JStr "—" in
  let country := P "country" ||| R "country" ||| R "cc" ||| JStr "—" in
  let elevation := P "elevation_m" ??? R "elevation_m" ??? R "elevation" ??? JStr "—" in
  let '(lat, lon) := readLatLon props in
  rbind (match lat, lon with
         | Some la, Some lo =>
             rbind (formatNum (JNum la) 4) (fun a =>
             rbind (formatNum (JNum lo) 4) (fun b =>
             Ok (a ++ [Markup "°, "] ++ b
                 ++ [Markup ("° <a" +:+ attr "style" "color:#6fb3ff; margin-left:6px;"
                             +:+ " href=" +:+ dq
                             +:+ "https://www.google.com/maps/search/?api=1&query=");
                     UriPair la lo;
                     Markup (dq +:+ attr "target" "_blank" +:+ attr "rel" "noreferrer"
                             +:+ ">view</a>")])))
         | _, _ => Ok [Markup "—"]
         end) (fun coordsHtml =>
  rbind (escaped name) (fun nameHtml =>
  rbind (escaped id) (fun idHtml =>
  rbind (escaped country) (fun countryHtml =>
  rbind (numberOrEscaped Plain elevation) (fun elevHtml =>
  Ok ([Markup ("<h4>Ground Station Information</h4><table"
               +:+ attr "style" "width:100%; border-collapse:collapse; color:#ddd;" +:+ ">")]
      ++ smallTableRow "Name" nameHtml
      ++ smallTableRow "Station ID" idHtml
      ++ smallTableRow "Country" countryHtml
      ++ smallTableRow "Coordinates" coordsHtml
      ++ smallTableRow "Elevation (m)" elevHtml
      ++ [Markup "</table>"]
      ++ rawDetails " max-height:300px; overflow:auto;" raw)))))).

(** The markup [showOrbitInfo(props)] assigns. *)
Definition orbitHtml (props : list (string * JsVal)) : Result Html :=
  let P k := lookup_field k props in
  let raw := P "raw" ||| JObj [] in
  let R k := field raw k in
  let name := P "name" ||| R "name" ||| JStr "Orbit" in
  let period := P "period_min" ??? R "period_min" ??? R "period" ??? JStr "—" in
  let track := trackOf raw props in
  let pts := length track in
  rbind (if Nat.ltb 0 pts then
           rbind (mapM (fun pt => get_index pt 0) track) (fun firsts =>
           rbind (mapM (fun pt => get_index pt 1) track) (fun seconds =>
           let lats := numbers_of firsts in
           let lons := numbers_of seconds in
           match lats, lons with
           | _ :: _, _ :: _ =>
               rbind (formatNum (JNum (Math_min lats)) 3) (fun a =>
               rbind (formatNum (JNum (Math_min lons)) 3) (fun b =>
               rbind (formatNum (JNum (Math_max lats)) 3) (fun c =>
               rbind (formatNum (JNum (Math_max lons)) 3) (fun d =>
               Ok (a ++ [Markup "°, "] ++ b ++ [Markup "° → "] ++ c ++ [Markup "°, "]
                   ++ d ++ [Markup "°"])))))
           | _, _ => Ok [Markup "—"]
           end))
         else Ok [Markup "—"]) (fun bbox =>
  rbind (escaped name) (fun nameHtml =>
  rbind (numberOrEscaped Plain period) (fun periodHtml =>
  Ok ([Markup ("<h4>Orbit Information</h4><table"
               +:+ attr "style" "width:100%; border-collapse:collapse; color:#ddd;" +:+ ">")]
      ++ smallTableRow "Name" nameHtml
      ++ smallTableRow "Approx. Period (min)" periodHtml
      ++ smallTableRow "Track Points" [Plain (nat_to_float pts)]
      ++ smallTableRow "Bounding Box" bbox
      ++ [Markup "</table>"]
      ++ rawDetails " max-height:400px; overflow:auto;" raw)))).

Definition observerLocation : float * float := (107.6, -6.9).

(** The two branches the click handler writes itself. *)
Definition observerHtml (props : list (string * JsVal)) : Result Html :=
  rbind (escaped (lookup_field "description" props ||| JStr "Observer location")) (fun d =>
  rbind (formatNum (JNum (snd observerLocation)) 4) (fun a =>
  rbind (formatNum (JNum (fst observerLocation)) 4) (fun b =>
  Ok ([Markup "<h4>Observer</h4><p>"] ++ d ++ [Markup "</p><p><b>Coordinates:</b> "]
      ++ a ++ [Markup ", "] ++ b ++ [Markup "</p>"])))).

Definition unknownHtml (f : Feature) : Result Html :=
  Ok [Markup ("<h4>Feature</h4><pre" +:+ attr "style" (preStyle "") +:+ ">");
      Text (escapeHtml_string (JSON_stringify_properties (geometry f) (properties f)));
      Markup "</pre>"].

End Platform.

(* ================================================================== *)
(** ** The page's state and its handlers *)
(* ================================================================== *)

Inductive Basemap := osm | sat | dark.

Definition Basemap_eqb (a b : Basemap) : bool :=
  match a, b with
  | osm, osm | sat, sat | dark, dark => true
  | _, _ => false
  end.

(** The names [baseLayers], an object literal, inherits from
    [Object.prototype]. *)
Definition Object_prototype : list string :=
  ["constructor"; "__defineGetter__"; "__defineSetter__"; "hasOwnProperty";
   "__lookupGetter__"; "__lookupSetter__"; "isPrototypeOf";
   "propertyIsEnumerable"; "toString"; "valueOf"; "__proto__"; "toLocaleString"].

Definition inherited (name : string) : bool :=
  existsb (String.eqb name) Object_prototype.

(** What [baseLayers[key]] is when it is not [undefined]: one of the three
    tile layers of the table, or the member of that name the table inherits
    from [Object.prototype] (a function, or the prototype itself for
    [__proto__]): truthy, and not a layer. *)
Inductive BaseValue :=
| Tile (b : Basemap)
| Member (name : string).

(** [baseLayers[value]]; [None] is [undefined]. *)
Definition baseLayers (value : string) : option BaseValue :=
  if String.eqb value "osm" then Some (Tile osm)
  else if String.eqb value "sat" then Some (Tile sat)
  else if String.eqb value "dark" then Some (Tile dark)
  else if inherited value then Some (Member value)
  else None.

(** An element of the map's layer collection.  The three tile layers are the
    objects of [baseLayers]; a vector or image layer is a fresh object, known
    by the number it was created with.  A vector layer's source holds
    references to features.  The collection takes any value: [NotALayer] is a
    member of [Object.prototype] that was inserted as if it were a layer. *)
Inductive Layer :=
| TileLayer (b : Basemap)
| VectorLayer (uid : nat) (source : list nat) (visible : bool)
| ImageLayer (uid : nat) (url : JsVal)
| NotALayer (name : string).

Definition is_tile (l : Layer) : bool :=
  match l with TileLayer _ => true | _ => false end.

(** [l === v]. *)
Definition is_base (v : BaseValue) (l : Layer) : bool :=
  match v, l with
  | Tile b, TileLayer b' => Basemap_eqb b b'
  | Member n, NotALayer n' => String.eqb n n'
  | _, _ => false
  end.

Definition has_uid (u : nat) (l : Layer) : bool :=
  match l with
  | VectorLayer u' _ _ | ImageLayer u' _ => Nat.eqb u u'
  | TileLayer _ | NotALayer _ => false
  end.

(** [collection.remove(elem)]: the first element that is [elem] goes. *)
Fixpoint collection_remove (same : Layer -> bool) (l : list Layer) : list Layer :=
  match l with
  | [] => []
  | x :: rest => if same x then rest else x :: collection_remove same rest
  end.

Inductive PanelId := SatelliteInfo | GroundStationInfo | OrbitInfo.

#[global] Instance PanelId_eq_dec : EqDecision PanelId.
Proof. solve_decision. Defined.

Record Element := mkElement { display : string; innerHTML : Html }.

Inductive Dataset := Stations | Satellites | Orbits.

Definition Dataset_eqb (a b : Dataset) : bool :=
  match a, b with
  | Stations, Stations | Satellites, Satellites | Orbits, Orbits => true
  | _, _ => false
  end.

(** The elements of the page the map's handlers look up: the three panels
    ([None] when the page has no such element) and the three check boxes
    [toggle-stations], [toggle-satellites], [toggle-orbits] ([false] when the
    page has no such element). *)
Record Dom := mkDom {
  satellite_info : option Element;
  ground_station_info : option Element;
  orbit_info : option Element;
  toggle_stations : bool;
  toggle_satellites : bool;
  toggle_orbits : bool
}.

Definition has_box (d : Dom) (k : Dataset) : bool :=
  match k with
  | Stations => toggle_stations d
  | Satellites => toggle_satellites d
  | Orbits => toggle_orbits d
  end.

Definition getElementById (d : Dom) (p : PanelId) : option Element :=
  match p with
  | SatelliteInfo => satellite_info d
  | GroundStationInfo => ground_station_info d
  | OrbitInfo => orbit_info d
  end.

Definition setElement (p : PanelId) (e : Element) (d : Dom) : Dom :=
  match p with
  | SatelliteInfo =>
      mkDom (Some e) (ground_station_info d) (orbit_info d)
        (toggle_stations d) (toggle_satellites d) (toggle_orbits d)
  | GroundStationInfo =>
      mkDom (satellite_info d) (Some e) (orbit_info d)
        (toggle_stations d) (toggle_satellites d) (toggle_orbits d)
  | OrbitInfo =>
      mkDom (satellite_info d) (ground_station_info d) (Some e)
        (toggle_stations d) (toggle_satellites d) (toggle_orbits d)
  end.

Inductive LogEntry :=
| LogInfo (msg : string)
| LogLayersLoaded (stations sats orbits : nat)
| LogWarn (tag : string) (e : JsError)
| LogError (tag : string) (e : JsError).

Record State := mkState {
  heap : list Feature;             (** the feature objects, by reference *)
  layers : list Layer;             (** [map.getLayers()], bottom first *)
  currentBaseLayer : BaseValue;
  orbitLayer : option nat;
  stationLayer : option nat;
  satelliteLayer : option nat;
  liveSatLayer : option nat;
  liveSatFeatures : list nat;
  ndviLayer : option nat;
  next_uid : nat;
  dom : Dom;
  console : list LogEntry;
  toggleListeners : list Dataset   (** the [change] listeners of the check
                                       boxes, in the order they were added *)
}.

Definition with_heap (h : list Feature) (s : State) : State :=
  mkState h (layers s) (currentBaseLayer s) (orbitLayer s) (stationLayer s)
    (satelliteLayer s) (liveSatLayer s) (liveSatFeatures s) (ndviLayer s)
    (next_uid s) (dom s) (console s) (toggleListeners s).

Definition with_layers (l : list Layer) (s : State) : State :=
  mkState (heap s) l (currentBaseLayer s) (orbitLayer s) (stationLayer s)
    (satelliteLayer s) (liveSatLayer s) (liveSatFeatures s) (ndviLayer s)
    (next_uid s) (dom s) (console s) (toggleListeners s).

Definition with_currentBaseLayer (b : BaseValue) (s : State) : State :=
  mkState (heap s) (layers s) b (orbitLayer s) (stationLayer s)
    (satelliteLayer s) (liveSatLayer s) (liveSatFeatures s) (ndviLayer s)
    (next_uid s) (dom s) (console s) (toggleListeners s).

Definition with_datasetLayers (o st sa : option nat) (s : State) : State :=
  mkState (heap s) (layers s) (currentBaseLayer s) o st sa
    (liveSatLayer s) (liveSatFeatures s) (ndviLayer s)
    (next_uid s) (dom s) (console s) (toggleListeners s).

Definition with_liveSatLayer (l : option nat) (s : State) : State :=
  mkState (heap s) (layers s) (currentBaseLayer s) (orbitLayer s) (stationLayer s)
    (satelliteLayer s) l (liveSatFeatures s) (ndviLayer s)
    (next_uid s) (dom s) (console s) (toggleListeners s).

Definition with_liveSatFeatures (fs : list nat) (s : State) : State :=
  mkState (heap s) (layers s) (currentBaseLayer s) (orbitLayer s) (stationLayer s)
    (satelliteLayer s) (liveSatLayer s) fs (ndviLayer s)
    (next_uid s) (dom s) (console s) (toggleListeners s).

Definition with_ndviLayer (l : option nat) (s : State) : State :=
  mkState (heap s) (layers s) (currentBaseLayer s) (orbitLayer s) (stationLayer s)
    (satelliteLayer s) (liveSatLayer s) (liveSatFeatures s) l
    (next_uid s) (dom s) (console s) (toggleListeners s).

Definition with_next_uid (n : nat) (s : State) : State :=
  mkState (heap s) (layers s) (currentBaseLayer s) (orbitLayer s) (stationLayer s)
    (satelliteLayer s) (liveSatLayer s) (liveSatFeatures s) (ndviLayer s)
    n (dom s) (console s) (toggleListeners s).

Definition with_dom (d : Dom) (s : State) : State :=
  mkState (heap s) (layers s) (currentBaseLayer s) (orbitLayer s) (stationLayer s)
    (satelliteLayer s) (liveSatLayer s) (liveSatFeatures s) (ndviLayer s)
    (next_uid s) d (console s) (toggleListeners s).

Definition with_console (c : list LogEntry) (s : State) : State :=
  mkState (heap s) (layers s) (currentBaseLayer s) (orbitLayer s) (stationLayer s)
    (satelliteLayer s) (liveSatLayer s) (liveSatFeatures s) (ndviLayer s)
    (next_uid s) (dom s) c (toggleListeners s).

Definition with_toggleListeners (l : list Dataset) (s : State) : State :=
  mkState (heap s) (layers s) (currentBaseLayer s) (orbitLayer s) (stationLayer s)
    (satelliteLayer s) (liveSatLayer s) (liveSatFeatures s) (ndviLayer s)
    (next_uid s) (dom s) (console s) l.

(** The layer variable of a dataset. *)
Definition datasetLayer (d : Dataset) (s : State) : option nat :=
  match d with
  | Stations => stationLayer s
  | Satellites => satelliteLayer s
  | Orbits => orbitLayer s
  end.

(** *** Handlers: state and exceptions *)

(** A piece of a handler: from the state, a value or an exception, and the
    state it leaves (what was written before an exception stays written). *)
Definition M (A : Type) : Type := State -> Result A * State.

Definition ret {A} (a : A) : M A := fun s => (Ok a, s).

Definition bind {A B} (m : M A) (k : A -> M B) : M B :=
  fun s => match m s with
           | (Ok a, s') => k a s'
           | (Throw e, s') => (Throw e, s')
           end.

Definition lift {A} (r : Result A) : M A := fun s => (r, s).

Definition gets {A} (f : State -> A) : M A := fun s => (Ok (f s), s).

Definition modify (f : State -> State) : M unit := fun s => (Ok tt, f s).

(** [try { body } catch (err) { handler(err) }]. *)
Definition try_catch (body : M unit) (handler : JsError -> M unit) : M unit :=
  fun s => match body s with
           | (Ok tt, s') => (Ok tt, s')
           | (Throw e, s') => handler e s'
           end.

Declare Scope handler_scope.
Delimit Scope handler_scope with handler.
Notation "x <- c ;; k" := (bind c (fun x => k))
  (at level 90, c at level 80, right associativity) : handler_scope.
Notation "c ;;; k" := (bind c (fun _ => k))
  (at level 90, right associativity) : handler_scope.
Local Open Scope handler_scope.

Definition console_push (e : LogEntry) : M unit :=
  modify (fun s => with_console (console s ++ [e]) s).

(** A new feature object: its reference is the next free cell. *)
Definition alloc (f : Feature) : M nat :=
  fun s => (Ok (length (heap s)), with_heap (heap s ++ [f]) s).

Fixpoint alloc_all (fs : list Feature) : M (list nat) :=
  match fs with
  | [] => ret []
  | f :: rest => r <- alloc f ;; rs <- alloc_all rest ;; ret (r :: rs)
  end.

(** [filter(Boolean)] on an array of features and [null]s. *)
Definition filter_Boolean (l : list (option Feature)) : list Feature :=
  omap id l.

(** [addLayerFromFeatures(features)], on an array that holds no [null]. *)
Definition addLayerFromFeatures (features : list nat) : M nat :=
  fun s =>
    let uid := next_uid s in
    (Ok uid,
     with_next_uid (S uid) (with_layers (layers s ++ [VectorLayer uid features true]) s)).

(** *** Loading *)

Inductive FetchOutcome :=
| FetchRejected
| Response (ok : bool) (status : nat) (body : option JsVal).

Definition Network := string -> FetchOutcome.

(** [loadJSON(url)]: the request fails, the status is not a success, or the
    body is not JSON ([None]): an exception each. *)
Definition loadJSON (net : Network) (url : string) : Result JsVal :=
  match net url with
  | FetchRejected => Throw NetworkError
  | Response ok status body =>
      if negb ok then Throw (HttpError status)
      else match body with Some v => Ok v | None => Throw SyntaxError end
  end.

(** [p.catch(() => fallback)]. *)
Definition catch_default (r : Result JsVal) (fallback : JsVal) : JsVal :=
  match r with Ok v => v | Throw _ => fallback end.

(** [Number(v)], as a value. *)
Definition Number (v : JsVal) : Result JsVal :=
  rbind (ToNumber v) (fun x => Ok (JNum x)).

(** [a.map(f)] and what [a.forEach] runs over: only an array has them. *)
Definition array_items (a : JsVal) : Result (list JsVal) :=
  match a with
  | JNull | JUndefined => Throw (TypeError "Cannot read properties of null or undefined")
  | JArr items => Ok items
  | _ => Throw (TypeError "is not a function")
  end.

Definition array_map {B} (f : JsVal -> Result B) (a : JsVal) : Result (list B) :=
  rbind (array_items a) (mapM f).

(** [s.k1 ?? s.k2 ?? ...] and [s.k1 || s.k2 || ...]: reading a property of
    [null] or [undefined] throws, whichever key is read first. *)
Fixpoint chain (op : JsVal -> JsVal -> JsVal) (vs : list JsVal) : JsVal :=
  match vs with
  | [] => JUndefined
  | [v] => v
  | v :: rest => op v (chain op rest)
  end.

Definition get_coalesce (s : JsVal) (keys : list string) : Result JsVal :=
  rbind (mapM (get s) keys) (fun vs => Ok (chain coalesce vs)).

Definition get_or (s : JsVal) (keys : list string) : Result JsVal :=
  rbind (mapM (get s) keys) (fun vs => Ok (chain or_else vs)).

Notation "x <~ c ;; k" := (rbind c (fun x => k))
  (at level 90, c at level 80, right associativity) : handler_scope.

(** *** The records of the three datasets *)

(** The callback of [(satnogs.stations || []).map(...)]. *)
Definition stationFeature (s : JsVal) : Result (option Feature) :=
  lonv <~ get_coalesce s ["lon"; "lng"] ;;
  lon <~ Number lonv ;;
  latv <~ get s "lat" ;;
  lat <~ Number latv ;;
  label <~ get_or s ["name"; "callsign"] ;;
  id <~ get_coalesce s ["id"; "station_id"] ;;
  country <~ get_coalesce s ["country"; "cc"] ;;
  elevation <~ get_coalesce s ["elevation_m"; "elevation"] ;;
  Ok (createMarker lon lat "blue" (label ||| JStr "Station")
        [("type", JStr "station");
         ("id", id ??? JNull);
         ("country", country ??? JNull);
         ("elevation_m", elevation ??? JNull);
         ("raw", s)]).

(** The callback of [(sats || []).map(...)]. *)
Definition satFeature (s : JsVal) : Result (option Feature) :=
  lonv <~ get_coalesce s ["longitude_deg"; "lon"; "lng"; "longitude"] ;;
  lon <~ Number lonv ;;
  latv <~ get_coalesce s ["latitude_deg"; "lat"; "latitude"] ;;
  lat <~ Number latv ;;
  label <~ get_or s ["name"; "satname"] ;;
  id <~ get_coalesce s ["id"; "sat_id"; "norad_cat_id"] ;;
  altitude <~ get_coalesce s ["altitude_km"; "height_km"; "elevation_km"] ;;
  tle1 <~ get_coalesce s ["tle_line1"; "tle1"] ;;
  tle2 <~ get_coalesce s ["tle_line2"; "tle2"] ;;
  Ok (createMarker lon lat "red" (label ||| JStr "Satellite")
        [("type", JStr "satellite");
         ("id", id ??? JNull);
         ("altitude_km", altitude ??? JNull);
         ("tle_line1", tle1 ??? JNull);
         ("tle_line2", tle2 ??? JNull);
         ("raw", s)]).

(** The callback of [(orbits || []).map(...)]. *)
Definition orbitFeature (o : JsVal) : Result (option Feature) :=
  track <~ get_or o ["track"; "path"] ;;
  name <~ get_or o ["name"; "id"] ;;
  period <~ get_coalesce o ["period_min"; "period"] ;;
  createLine (track ||| JArr []) "orange"
    [("type", JStr "orbit");
     ("name", name ||| JStr "Orbit");
     ("period_min", period ??? JNull);
     ("raw", o)].

(** The callback of the first load of the live feed. *)
Definition liveMarker (s : JsVal) : Result (option Feature) :=
  lonv <~ get_coalesce s ["longitude"; "lon"; "lng"] ;;
  lon <~ Number lonv ;;
  latv <~ get_coalesce s ["latitude"; "lat"] ;;
  lat <~ Number latv ;;
  name <~ get s "name" ;;
  id <~ get_coalesce s ["id"; "name"] ;;
  Ok (createMarker lon lat "red" (name ||| JStr "LiveSat")
        [("type", JStr "satellite"); ("raw", s); ("id", id)]).

(** [if (box && layer) box.addEventListener('change', ...)] for the check box
    and the layer variable of the dataset [d]. *)
Definition addToggleListener (d : Dataset) : M unit :=
  box <- gets (fun s => has_box (dom s) d) ;;
  layer <- gets (datasetLayer d) ;;
  match box, layer with
  | true, Some _ =>
      modify (fun s => with_toggleListeners (toggleListeners s ++ [d]) s)
  | _, _ => ret tt
  end.

(** [initMapLayers()], once its three documents have arrived.  The view is
    not part of the state; [fits] says whether the library's [view.fit]
    accepts the extent of the station and satellite markers (it is asked only
    when there is one, and refuses by throwing).  The listeners of the check
    boxes are added after the fit, and only then. *)
Definition initMapLayers (net : Network) (fits : bool) : M unit :=
  try_catch
    (let satnogs := catch_default (loadJSON net "data/satnogs_results.json")
                      (JObj [("stations", JArr [])]) in
     let sats := catch_default (loadJSON net "data/tle_visible.json") (JArr []) in
     let orbits := catch_default (loadJSON net "data/tle_orbits.json") (JArr []) in
     stations <- lift (get satnogs "stations") ;;
     stationMade <- lift (array_map stationFeature (stations ||| JArr [])) ;;
     stationFeatures <- alloc_all (filter_Boolean stationMade) ;;
     satMade <- lift (array_map satFeature (sats ||| JArr [])) ;;
     satFeatures <- alloc_all (filter_Boolean satMade) ;;
     orbitMade <- lift (array_map orbitFeature (orbits ||| JArr [])) ;;
     orbitFeatures <- alloc_all (filter_Boolean orbitMade) ;;
     o <- addLayerFromFeatures orbitFeatures ;;
     st <- addLayerFromFeatures stationFeatures ;;
     sa <- addLayerFromFeatures satFeatures ;;
     modify (with_datasetLayers (Some o) (Some st) (Some sa)) ;;;
     lift (match stationFeatures ++ satFeatures with
           | [] => Ok tt
           | _ :: _ => if fits then Ok tt else Throw AssertionError
           end) ;;;
     addToggleListener Stations ;;;
     addToggleListener Satellites ;;;
     addToggleListener Orbits ;;;
     console_push (LogLayersLoaded (length stationFeatures) (length satFeatures)
                     (length orbitFeatures)))
    (fun err => console_push (LogError "[ERROR] initMapLayers:" err)).

(** *** The live updater *)

(** [a.forEach((x, i) => f(x, i))], from index [i]. *)
Fixpoint forEach (f : JsVal -> nat -> M unit) (items : list JsVal) (i : nat) : M unit :=
  match items with
  | [] => ret tt
  | x :: rest => f x i ;;; forEach f rest (S i)
  end.

Definition update_feature (r : nat) (f : Feature -> Feature) : M unit :=
  modify (fun s => with_heap (alter f r (heap s)) s).

(** The callback of [data.forEach] in [animateLiveSatellites]. *)
Definition moveLiveSatellite (sat : JsVal) (i : nat) : M unit :=
  refs <- gets liveSatFeatures ;;
  match refs !! i with
  | None => ret tt
  | Some r =>
      lonv <- lift (get_coalesce sat ["longitude"; "lon"; "lng"]) ;;
      lon <- lift (Number lonv) ;;
      latv <- lift (get_coalesce sat ["latitude"; "lat"]) ;;
      lat <- lift (Number latv) ;;
      (* if (typeof lon === 'number' && typeof lat === 'number') *)
      match lon, lat with
      | JNum x, JNum y => update_feature r (setCoordinates (fromLonLat x y))
      | _, _ => ret tt
      end ;;;
      update_feature r
        (fun f => setProperties (assign (assign [] (properties f)) [("raw", sat)]) f)
  end.

Definition live_url : string := "data/tle_live.json".

(** [animateLiveSatellites()], once the feed has answered. *)
Definition animateLiveSatellites (net : Network) : M unit :=
  try_catch
    (data <- lift (loadJSON net live_url) ;;
     if negb (truthy data) then ret tt
     else
       layer <- gets liveSatLayer ;;
       match layer with
       | None =>
           made <- lift (array_map liveMarker data) ;;
           refs <- alloc_all (filter_Boolean made) ;;
           modify (with_liveSatFeatures refs) ;;;
           uid <- addLayerFromFeatures refs ;;
           modify (with_liveSatLayer (Some uid))
       | Some _ =>
           items <- lift (array_items data) ;;
           forEach moveLiveSatellite items 0
       end)
    (fun err => console_push (LogWarn "[LIVE SATS] fetch failed:" err)).

(** *** The basemap switcher, the layer toggles, the NDVI overlay *)

(** [map.removeLayer(v)]: the collection drops the first element that is
    [v], if there is one.  The layer group then releases the listeners it
    holds on the element; it holds none on a value that is no layer, and
    throws. *)
Definition removeLayer (v : BaseValue) : M unit :=
  found <- gets (fun s => existsb (is_base v) (layers s)) ;;
  modify (fun s => with_layers (collection_remove (is_base v) (layers s)) s) ;;;
  match v with
  | Tile _ => ret tt
  | Member _ =>
      if found
      then lift (Throw (TypeError "Cannot read properties of undefined (reading 'forEach')"))
      else ret tt
  end.

(** [map.getLayers().insertAt(0, v)]: the collection takes the value at index
    0.  The layer group then listens to the new element, and throws on a
    value that is no layer. *)
Definition insertAt0 (v : BaseValue) : M unit :=
  match v with
  | Tile b => modify (fun s => with_layers (TileLayer b :: layers s) s)
  | Member n =>
      modify (fun s => with_layers (NotALayer n :: layers s) s) ;;;
      lift (Throw (TypeError "target.addEventListener is not a function"))
  end.

(** The listener of the selector's [change] event; [value] is
    [e.target.value]. *)
Definition basemapChange (value : string) : M unit :=
  cur <- gets currentBaseLayer ;;
  removeLayer cur ;;;
  let next := match baseLayers value with Some v => v | None => Tile osm end in
  modify (with_currentBaseLayer next) ;;;
  insertAt0 next.

Definition setVisible (u : nat) (b : bool) (l : Layer) : Layer :=
  match l with
  | VectorLayer u' src v => if Nat.eqb u u' then VectorLayer u' src b else l
  | _ => l
  end.

(** The listener [e => layer.setVisible(e.target.checked)] of the check box
    of the dataset [d]; [layer] is the dataset's variable, read when the
    event arrives. *)
Definition onToggle (d : Dataset) (checked : bool) : M unit :=
  layer <- gets (datasetLayer d) ;;
  match layer with
  | Some u => modify (fun s => with_layers (map (setVisible u checked) (layers s)) s)
  | None =>
      lift (Throw (TypeError "Cannot read properties of undefined (reading 'setVisible')"))
  end.

(** A [change] event on the check box of [d] runs the listeners that were
    added to it, in their order; an exception of one is reported and does not
    stop the next. *)
Fixpoint dispatchChange (listeners : list Dataset) (d : Dataset) (checked : bool)
  : M unit :=
  match listeners with
  | [] => ret tt
  | d' :: rest =>
      (if Dataset_eqb d' d
       then try_catch (onToggle d checked) (fun _ => ret tt)
       else ret tt) ;;;
      dispatchChange rest d checked
  end.

(** The user ticks or clears the check box of [d]. *)
Definition toggleLayer (d : Dataset) (checked : bool) : M unit :=
  listeners <- gets toggleListeners ;;
  dispatchChange listeners d checked.

(** [triggerNDVIGeneration()] up to its first [await]: the line of the log is
    written and the request leaves. *)
Definition triggerNDVIGeneration_request : M unit :=
  console_push (LogInfo "[NDVI] Refreshing...").

(** [triggerNDVIGeneration()] from its first [await] on, when the endpoint
    has answered or the request has failed. *)
Definition triggerNDVIGeneration_answer (answer : FetchOutcome) : M unit :=
  try_catch
    (data <- lift (match answer with
                   | FetchRejected => Throw NetworkError
                   | Response _ _ (Some v) => Ok v
                   | Response _ _ None => Throw SyntaxError
                   end) ;;
     err <- lift (get data "error") ;;
     if truthy err then
       lift (if toString_throws err
             then Throw (TypeError "Cannot convert object to primitive value")
             else Throw (ErrorOf err))
     else
       old <- gets ndviLayer ;;
       match old with
       | Some u => modify (fun s => with_layers (collection_remove (has_uid u) (layers s)) s)
       | None => ret tt
       end ;;;
       url <- lift (get data "ndvi_url") ;;
       uid <- gets next_uid ;;
       modify (fun s => with_next_uid (S uid) (with_ndviLayer (Some uid) s)) ;;;
       modify (fun s => with_layers (layers s ++ [ImageLayer uid url]) s) ;;;
       console_push (LogInfo "[NDVI] Layer added"))
    (fun err => console_push (LogError "[NDVI] failed:" err)).

(** A whole call of [triggerNDVIGeneration()], when nothing else happens
    between the request and its answer. *)
Definition triggerNDVIGeneration (answer : FetchOutcome) : M unit :=
  triggerNDVIGeneration_request ;;;
  triggerNDVIGeneration_answer answer.

(** *** The detail panels and the click handler *)

(** [el.style.setProperty('display', v)] and [el.innerHTML = h] on the panel
    [p], when the page has it. *)
Definition set_display (p : PanelId) (v : string) (d : Dom) : Dom :=
  match getElementById d p with
  | Some el => setElement p (mkElement v (innerHTML el)) d
  | None => d
  end.

Definition set_innerHTML (p : PanelId) (h : Html) (d : Dom) : Dom :=
  match getElementById d p with
  | Some el => setElement p (mkElement (display el) h) d
  | None => d
  end.

(** [clearViewerPanels()]. *)
Definition clearViewerPanels : M unit :=
  modify (fun s => with_dom (set_display SatelliteInfo "none" (dom s)) s) ;;;
  modify (fun s => with_dom (set_display GroundStationInfo "none" (dom s)) s) ;;;
  modify (fun s => with_dom (set_display OrbitInfo "none" (dom s)) s).

(** The common shape of the panel writers: find the element, return if it is
    missing, show it, build the markup, assign it. *)
Definition showPanel (p : PanelId) (html : Result Html) : M unit :=
  el <- gets (fun s => getElementById (dom s) p) ;;
  match el with
  | None => ret tt
  | Some _ =>
      modify (fun s => with_dom (set_display p "block" (dom s)) s) ;;;
      h <- lift html ;;
      modify (fun s => with_dom (set_innerHTML p h (dom s)) s)
  end.

Definition visible (s : State) (p : PanelId) : bool :=
  match getElementById (dom s) p with
  | Some el => negb (String.eqb (display el) "none")
  | None => false
  end.

Definition present (s : State) (p : PanelId) : bool :=
  match getElementById (dom s) p with Some _ => true | None => false end.

Section Page.

Variable Number_toString : float -> string.
Variable JSON_stringify : JsVal -> string.
Variable JSON_stringify_properties : Geometry -> list (string * JsVal) -> string.

Definition showSatelliteInfo (props : list (string * JsVal)) : M unit :=
  showPanel SatelliteInfo (satelliteHtml Number_toString JSON_stringify props).

Definition showStationInfo (props : list (string * JsVal)) : M unit :=
  showPanel GroundStationInfo (stationHtml Number_toString JSON_stringify props).

Definition showOrbitInfo (props : list (string * JsVal)) : M unit :=
  showPanel OrbitInfo (orbitHtml Number_toString JSON_stringify props).

(** The [singleclick] listener; [hit] is what the library's hit test found at
    the pixel. *)
Definition singleclick (hit : option Feature) : M unit :=
  match hit with
  | None => clearViewerPanels
  | Some feature =>
      let props := properties feature in
      let type := featureType feature in
      clearViewerPanels ;;;
      if str_is type "satellite" then showSatelliteInfo props
      else if str_is type "station" || str_is type "ground_station" then showStationInfo props
      else if str_is type "orbit" then showOrbitInfo props
      else if str_is type "observer" then
        showPanel SatelliteInfo (observerHtml Number_toString props)
      else
        showPanel SatelliteInfo (unknownHtml JSON_stringify_properties feature)
  end.

(** *** The page as a transition system *)

(** What can happen after the script has run: the three documents have
    arrived, the live feed has answered (or failed), the user has chosen a
    basemap, ticked a box, asked for the NDVI overlay or clicked the map, the
    NDVI endpoint has answered (or failed). *)

Inductive Event :=
| LayersLoaded (net : Network) (fits : bool)
| LiveTick (net : Network)
| BasemapChanged (value : string)
| LayerToggled (d : Dataset) (checked : bool)
| NdviRequested
| NdviAnswered (answer : FetchOutcome)
| MapClicked (hit : option Feature).

Definition handler (e : Event) : M unit :=
  match e with
  | LayersLoaded net fits => initMapLayers net fits
  | LiveTick net => animateLiveSatellites net
  | BasemapChanged value => basemapChange value
  | LayerToggled d checked => toggleLayer d checked
  | NdviRequested => triggerNDVIGeneration_request
  | NdviAnswered answer => triggerNDVIGeneration_answer answer
  | MapClicked hit => singleclick hit
  end.

Definition handle (e : Event) (s : State) : State := snd (handler e s).

Definition observerFeature : option Feature :=
  createMarker (JNum (fst observerLocation)) (JNum (snd observerLocation)) "green"
    (JStr "Observer")
    [("type", JStr "observer"); ("description", JStr "Observer location")].

(** The state the script leaves when it has run to its end, on the page
    [page]: the map with the [osm] basemap, the observer's layer, the first
    NDVI request on its way, the panels hidden.  ([initMapLayers()] and
    [animateLiveSatellites()] are called too, and write nothing before their
    documents arrive.) *)
Definition startup (page : Dom) : State :=
  let blank :=
    mkState [] [TileLayer osm] (Tile osm) None None None None [] None 0 page
      [LogInfo "[AE2] map.js running"] [] in
  snd ((match observerFeature with
        | Some f => r <- alloc f ;; u <- addLayerFromFeatures [r] ;; ret tt
        | None => ret tt
        end ;;;
        triggerNDVIGeneration_request ;;;
        clearViewerPanels ;;;
        modify (fun s => with_dom (set_display SatelliteInfo "none" (dom s)) s)) blank).

Inductive reachable (page : Dom) : State -> Prop :=
| reach_startup : reachable page (startup page)
| reach_step s e : reachable page s -> reachable page (handle e s).

End Page.

(* ================================================================== *)
(** ** The vocabulary of the properties *)
(* ================================================================== *)

Local Close Scope float_scope.

(** An entry that is an array whose first two elements are numbers. *)
Definition well_formed_pair (pt : JsVal) : bool :=
  match pt with
  | JArr (JNum _ :: JNum _ :: _) => true
  | _ => false
  end.

(** The projection of a [lat, lon] entry, when it is well formed. *)
Definition projected_pair (pt : JsVal) : option Coordinate :=
  match pt with
  | JArr (JNum lat :: JNum lon :: _) => Some (fromLonLat lon lat)
  | _ => None
  end.

(** The projected valid pairs of a track, in the order of the track. *)
Definition projected_valid_pairs (track : list JsVal) : list Coordinate :=
  omap projected_pair track.


(** The hover variant of a style: every image 1.4 times its size, every
    stroke in the hover colour and width. *)
Definition emphasize (i : Image) : Image :=
  match i with
  | Circle r f s => Circle (r * 1.4)%float f s
  | Icon src sc a c => Icon src (sc * 1.4)%float a c
  end.

Definition hover_stroke (s : Stroke) : Stroke :=
  mkStroke "#ffa500" 4 (stroke_lineDash s).

Definition hover_style (s : Style) : Style :=
  {| style_geometry := style_geometry s;
     style_image := option_map emphasize (style_image s);
     style_stroke := option_map hover_stroke (style_stroke s) |}.

Definition hover_variant (s : StyleLike) : StyleLike :=
  match s with
  | OneStyle s => OneStyle (hover_style s)
  | StyleArray ss => StyleArray (map hover_style ss)
  end.

(** The style [makeFeatureStyle] gives without hover, by resolved type. *)
Definition base_style (type : JsVal) (orbit : StyleLike) : StyleLike :=
  if str_is type "observer" then OneStyle (imageStyle (Circle 7 "green" whiteStroke))
  else if str_is type "station" then
    OneStyle (imageStyle (Icon ICONS_station 0.08 (0.5, 1)%float "anonymous"))
  else if str_is type "satellite" then
    OneStyle (imageStyle (Icon ICONS_satellite 0.06 (0.5, 0.5)%float "anonymous"))
  else if str_is type "orbit" then orbit
  else OneStyle (imageStyle (Circle 6 "gray" whiteStroke)).

(** Sample records. *)
Definition record_X : JsVal :=
  JObj [("name", JStr "X"); ("lat", JNum 10); ("lon", JNum 20)].

Definition record_Y : JsVal :=
  JObj [("name", JStr "Y"); ("lat", JStr "bad"); ("lon", JNum 20)].

Definition sample_orbit : Feature :=
  {| geometry := LineString [fromLonLat 20 10; fromLonLat 21 11];
     properties :=
       [("type", JStr "orbit"); ("name", JStr "ISS"); ("period_min", JNum 92);
        ("raw", JObj [("name", JStr "ISS"); ("period_min", JNum 92);
                      ("track", JArr [JArr [JNum 10; JNum 20]; JArr [JNum 11; JNum 21]])])];
     style := Some (lineStyle "orange") |}.



(** What the three passes of [escapeHtml] do to one character. *)
Definition escape_char (c : ascii) : string :=
  if Ascii.eqb c "&" then "&amp;"
  else if Ascii.eqb c "<" then "&lt;"
  else if Ascii.eqb c ">" then "&gt;"
  else String c EmptyString.

(** The panels after [clearViewerPanels]. *)
Definition hidden (d : Dom) : Dom :=
  set_display OrbitInfo "none"
    (set_display GroundStationInfo "none" (set_display SatelliteInfo "none" d)).

Definition visible_count (s : State) : nat :=
  Nat.b2n (visible s SatelliteInfo) + Nat.b2n (visible s GroundStationInfo)
  + Nat.b2n (visible s OrbitInfo).

(** A vector or image layer. *)
Definition is_overlay (l : Layer) : bool :=
  match l with
  | VectorLayer _ _ _ | ImageLayer _ _ => true
  | TileLayer _ | NotALayer _ => false
  end.

(** The layers above the basemap. *)
Definition overlays (s : State) : list Layer :=
  List.filter is_overlay (layers s).

(** The current base layer is a tile layer, it is the bottom element of the
    stack, and the elements above it are vector and image layers. *)
Definition base_at_bottom (s : State) : bool :=
  match layers s with
  | l :: rest => is_tile l && is_base (currentBaseLayer s) l && forallb is_overlay rest
  | [] => false
  end.

(** The basemap the selector's handler picks for a value that names no
    inherited member: the table's layer of that key, [osm] for any other
    value. *)
Definition chosen (value : string) : Basemap :=
  match baseLayers value with
  | Some (Tile b) => b
  | _ => osm
  end.

(** The live markers are distinct feature objects. *)
Definition live_markers_distinct (s : State) : Prop :=
  NoDup (liveSatFeatures s) /\ Forall (fun r => r < length (heap s)) (liveSatFeatures s).

(** The coordinates of an entry of the live feed whose aliases resolve to
    numbers. *)
Definition liveCoords (sat : JsVal) : option (float * float) :=
  match get_coalesce sat ["longitude"; "lon"; "lng"],
        get_coalesce sat ["latitude"; "lat"] with
  | Ok (JNum x), Ok (JNum y) => Some (x, y)
  | _, _ => None
  end.

(** What the updater does to a live feature for the entry [sat] at [x], [y]. *)
Definition moved (sat : JsVal) (x y : float) (f : Feature) : Feature :=
  setProperties (assign (assign [] (properties f)) [("raw", sat)])
    (setCoordinates (fromLonLat x y) f).

(** A page whose engine prints nothing, to run the handlers on samples whose
    panels' text does not matter. *)
Definition silent_Number_toString (x : float) : string := "".
Definition silent_JSON_stringify (v : JsVal) : string := "".
Definition silent_JSON_stringify_properties (g : Geometry) (b : list (string * JsVal))
  : string := "".

Definition no_panels : Dom := mkDom None None None false false false.

Definition three_panels : Dom :=
  mkDom (Some (mkElement "" [])) (Some (mkElement "" [])) (Some (mkElement "" []))
    false false false.

(** A page with the three panels and the three check boxes. *)
Definition full_page : Dom :=
  mkDom (Some (mkElement "" [])) (Some (mkElement "" [])) (Some (mkElement "" []))
    true true true.

(** A feed that answers every request with the document [v]. *)
Definition answering (v : JsVal) : Network := fun _ => Response true 200 (Some v).

Definition offline : Network := fun _ => FetchRejected.

Definition live_A (lat : JsVal) : JsVal :=
  JArr [JObj [("name", JStr "A"); ("lat", lat); ("lon", JNum 20)]].

(** A handler keeps a property of the state, however it ends. *)
Definition preserves {A} (P : State -> Prop) (m : M A) : Prop :=
  forall s, P s -> P (snd (m s)).

(** The live array is [L] and the heap has at least [n] cells. *)
Definition live_frame (L : list nat) (n : nat) (s : State) : Prop :=
  liveSatFeatures s = L /\ n <= length (heap s).

(* ================================================================== *)
(** ** Further vocabulary: the rest of the script *)
(* ================================================================== *)

(** The coordinates the station callback hands to [createMarker]. *)
Definition stationLon (s : JsVal) : float :=
  ToNumber_total (field s "lon" ??? field s "lng").

Definition stationLat (s : JsVal) : float :=
  ToNumber_total (field s "lat").

(** Some character of the string is one [escapeHtml] rewrites. *)
Fixpoint has_special (s : string) : bool :=
  match s with
  | EmptyString => false
  | String c rest =>
      Ascii.eqb c "&" || Ascii.eqb c "<" || Ascii.eqb c ">" || has_special rest
  end.

(** A short run of the page: the feed answers, the user picks the dark
    basemap and clicks the empty map. *)
Definition sample_run : State :=
  handle silent_Number_toString silent_JSON_stringify silent_JSON_stringify_properties
    (MapClicked None)
    (handle silent_Number_toString silent_JSON_stringify silent_JSON_stringify_properties
       (BasemapChanged "dark")
       (handle silent_Number_toString silent_JSON_stringify silent_JSON_stringify_properties
          (LiveTick (answering (live_A (JNum 10))))
          (startup three_panels))).

(** An event whose basemap value, if it has one, is a key of the table or
    names nothing at all: not a member the table inherits. *)
Definition own_value (e : Event) : bool :=
  match e with
  | BasemapChanged value => negb (inherited value)
  | _ => true
  end.

Section Restricted.

Variable Number_toString : float -> string.
Variable JSON_stringify : JsVal -> string.
Variable JSON_stringify_properties : Geometry -> list (string * JsVal) -> string.

(** The states the page reaches through events that satisfy [ok]. *)
Inductive reachable_by (ok : Event -> bool) (page : Dom) : State -> Prop :=
| reach_by_startup : reachable_by ok page (startup page)
| reach_by_step s e :
    reachable_by ok page s -> ok e = true ->
    reachable_by ok page
      (handle Number_toString JSON_stringify JSON_stringify_properties e s).

End Restricted.

(** The network in which every document that [loadJSON] fails on is replaced
    by the empty document of its kind: [{stations: []}] for the stations,
    [[]] for the others. *)
Definition with_empty_fallbacks (net : Network) : Network :=
  fun url =>
    match loadJSON net url with
    | Ok _ => net url
    | Throw _ =>
        Response true 200
          (Some (if String.eqb url "data/satnogs_results.json"
                 then JObj [("stations", JArr [])]
                 else JArr []))
    end.

(** The panel a click shows is [p], and only [p]. *)
Definition shows_only (p : PanelId) (before after : State) : Prop :=
  forall q, visible after q = if decide (p = q) then present before p else false.

(** An orbit record whose track has a [null] between two points. *)
Definition orbit_with_null_point : JsVal :=
  JObj [("name", JStr "ISS");
        ("track", JArr [JArr [JNum 10; JNum 20]; JNull; JArr [JNum 11; JNum 21]])].

(** The last value [values] gives the key [k], or [d] when it gives none. *)
Fixpoint lookup_last (k : string) (values : list (string * JsVal)) (d : JsVal) : JsVal :=
  match values with
  | [] => d
  | (k', v) :: rest => lookup_last k rest (if String.eqb k k' then v else d)
  end.

(** The keys of a property bag are distinct. *)
Definition distinct_keys (bag : list (string * JsVal)) : Prop :=
  NoDup (map fst bag).

(** The number a vector or image layer was created with. *)
Definition layer_uid (l : Layer) : option nat :=
  match l with
  | VectorLayer u _ _ | ImageLayer u _ => Some u
  | TileLayer _ | NotALayer _ => None
  end.

Definition layer_uids (ls : list Layer) : list nat := omap layer_uid ls.

Definition is_image (l : Layer) : bool :=
  match l with ImageLayer _ _ => true | _ => false end.

Definition image_uids (ls : list Layer) : list nat :=
  omap (fun l => match l with ImageLayer u _ => Some u | _ => None end) ls.

(** The layers of the map are distinct objects, each created before the
    counter reached its value, and the only image layer, if there is one, is
    the layer [window.ndviLayer] names. *)
Definition layers_wf (s : State) : Prop :=
  NoDup (layer_uids (layers s)) /\
  Forall (fun u => u < next_uid s) (layer_uids (layers s)) /\
  image_uids (layers s) = match ndviLayer s with Some u => [u] | None => [] end.

(** The image URL of an answer of the NDVI endpoint that the handler
    accepts: a JSON body that is not [null] and has no truthy [error]. *)
Definition ndvi_url_of (answer : FetchOutcome) : option JsVal :=
  match answer with
  | Response _ _ (Some data) =>
      match get data "error" with
      | Ok err => if truthy err then None else Some (field data "ndvi_url")
      | Throw _ => None
      end
  | _ => None
  end.

(** The change listener of the check box of [d] has been added. *)
Definition listens (d : Dataset) (s : State) : bool :=
  existsb (fun d' => Dataset_eqb d' d) (toggleListeners s).

(** A network on which only the stations document arrives, with the one
    station [record_X]. *)
Definition stations_only : Network :=
  fun url =>
    if String.eqb url "data/satnogs_results.json"
    then Response true 200 (Some (JObj [("stations", JArr [record_X])]))
    else FetchRejected.

(* ================================================================== *)
(** ** The sidebar toggle *)
(* ================================================================== *)

Module Sidebar.

(** The part of the page the toggle's listener reads and writes: elements in
    document order, each with its id, its class list, its inline style and
    its content.  The elements are not nested in one another. *)
Record Node := mkNode {
  node_id : string;
  classList : list string;
  node_style : list (string * string);
  node_innerHTML : string
}.

Abbreviation Document := (list Node) (only parsing).

Fixpoint find_index {A} (p : A -> bool) (l : list A) : option nat :=
  match l with
  | [] => None
  | a :: rest => if p a then Some 0 else option_map S (find_index p rest)
  end.

Definition has_class (c : string) (n : Node) : bool :=
  existsb (String.eqb c) (classList n).

(** [document.getElementById(id)] and [document.querySelector('.c1.c2')]:
    the first element in document order, by position. *)
Definition getElementById (id : string) (doc : Document) : option nat :=
  find_index (fun n => String.eqb (node_id n) id) doc.

Definition querySelector (classes : list string) (doc : Document) : option nat :=
  find_index (fun n => forallb (fun c => has_class c n) classes) doc.

(** [el.classList.toggle(c)]. *)
Definition toggle_class (c : string) (n : Node) : Node :=
  mkNode (node_id n)
    (if has_class c n
     then List.filter (fun x => negb (String.eqb c x)) (classList n)
     else classList n ++ [c])
    (node_style n) (node_innerHTML n).

Fixpoint set_property (name value : string) (style : list (string * string))
  : list (string * string) :=
  match style with
  | [] => [(name, value)]
  | (k, v) :: rest =>
      if String.eqb name k then (k, value) :: rest
      else (k, v) :: set_property name value rest
  end.

Fixpoint get_property (name : string) (style : list (string * string)) : option string :=
  match style with
  | [] => None
  | (k, v) :: rest => if String.eqb name k then Some v else get_property name rest
  end.

(** [el.style.setProperty(name, value)]; [el.style.zIndex = v] is
    [setProperty('z-index', v)]. *)
Definition setProperty (name value : string) (n : Node) : Node :=
  mkNode (node_id n) (classList n) (set_property name value (node_style n))
    (node_innerHTML n).

Definition set_content (h : string) (n : Node) : Node :=
  mkNode (node_id n) (classList n) (node_style n) h.

Definition style_of (name : string) (n : Node) : option string :=
  get_property name (node_style n).

Definition glyph (isCollapsed : bool) : string := if isCollapsed then "➤" else "⮜".
Definition zIndex (isCollapsed : bool) : string := if isCollapsed then "1000" else "2000".
Definition transform (isCollapsed : bool) : string :=
  if isCollapsed then "translateX(0%)" else "translateX(40%)".
Definition width (isCollapsed : bool) : string :=
  if isCollapsed then "100%" else "calc(100% - 300px)".

(** [document.querySelector('.viewer-sidebar.collapsed')?.style.setProperty(name, value)]. *)
Definition restyle_collapsed (name value : string) (doc : Document) : Document :=
  match querySelector ["viewer-sidebar"; "collapsed"] doc with
  | Some q => alter (setProperty name value) q doc
  | None => doc
  end.

(** The [click] listener of the element [#toggle-sidebar]; a page without
    that element has no listener. *)
Definition onToggleClick (doc : Document) : Result unit * Document :=
  match getElementById "toggle-sidebar" doc with
  | None => (Ok tt, doc)
  | Some sidebarToggle =>
      match getElementById "viewer-sidebar" doc with
      | None => (Ok tt, doc)
      | Some sidebar =>
          let doc := alter (toggle_class "collapsed") sidebar doc in
          let isCollapsed :=
            match doc !! sidebar with
            | Some n => has_class "collapsed" n
            | None => false
            end in
          let doc := alter (set_content (glyph isCollapsed)) sidebarToggle doc in
          let doc := alter (setProperty "z-index" (zIndex isCollapsed)) sidebar doc in
          let doc := alter (setProperty "transform" (transform isCollapsed)) sidebar doc in
          match getElementById "map" doc with
          | None => (Throw (TypeError "Cannot read properties of null (reading 'style')"), doc)
          | Some map1 =>
              let doc := alter (setProperty "width" (width isCollapsed)) map1 doc in
              match getElementById "map" doc with
              | None =>
                  (Throw (TypeError "Cannot read properties of null (reading 'style')"), doc)
              | Some map2 =>
                  let doc := alter (setProperty "transition" "width 0.3s ease") map2 doc in
                  let doc := restyle_collapsed "transform" (transform isCollapsed) doc in
                  let doc := restyle_collapsed "z-index" (zIndex isCollapsed) doc in
                  (Ok tt, doc)
              end
          end
      end
  end.

(** The element at position [k] has the property [P]. *)
Definition node_at (P : Node -> Prop) (k : nat) (doc : Document) : Prop :=
  exists n, doc !! k = Some n /\ P n.

(** A page with the button, an expanded sidebar and the map. *)
Definition sample_page : Document :=
  [mkNode "toggle-sidebar" [] [] "⮜";
   mkNode "viewer-sidebar" ["viewer-sidebar"] [] "";
   mkNode "map" [] [] ""].

(** The same page without the map element. *)
Definition page_without_map : Document :=
  [mkNode "toggle-sidebar" [] [] "⮜";
   mkNode "viewer-sidebar" ["viewer-sidebar"] [] ""].

(** The sidebar's state agrees with the flag [c]: class, stacking order and
    offset of the sidebar, width of the map, glyph of the button. *)
Definition settled (c : bool) (b sb m : nat) (doc : Document) : Prop :=
  node_at (fun n => has_class "collapsed" n = c /\
                    style_of "z-index" n = Some (zIndex c) /\
                    style_of "transform" n = Some (transform c)) sb doc /\
  node_at (fun n => style_of "width" n = Some (width c) /\
                    style_of "transition" n = Some "width 0.3s ease") m doc /\
  node_at (fun n => node_innerHTML n = glyph c) b doc.

End Sidebar.

(* ================================================================== *)
(** ** [Number] on sample values *)
(* ================================================================== *)

Example Number_of_number : Number (JNum 10) = Ok (JNum 10).
Proof. reflexivity. Qed.

Example Number_of_bad : Number (JStr "bad") = Ok (JNum nan).
Proof. vm_compute. reflexivity. Qed.

Example Number_of_numeric_string : Number (JStr " 12.5e1 ") = Ok (JNum 125).
Proof. vm_compute. reflexivity. Qed.

Example Number_of_undefined : Number JUndefined = Ok (JNum nan).
Proof. reflexivity. Qed.

Example Number_of_null : Number JNull = Ok (JNum 0).
Proof. reflexivity. Qed.

Example Number_of_array : Number (JArr [JStr "0x1F"]) = Ok (JNum 31).
Proof. vm_compute. reflexivity. Qed.

Example Number_of_object : Number (JObj [("lat", JNum 1)]) = Ok (JNum nan).
Proof. reflexivity. Qed.

Example typeof_nan : is_number (JNum nan) = true.
Proof. reflexivity. Qed.

(* ================================================================== *)
(** ** Orbit lines: [createLine] *)
(* ================================================================== *)

Lemma projected_pair_well_formed pt :
  well_formed_pair pt = true <-> is_Some (projected_pair pt).
Proof.
  destruct pt as [| | | | |items|]; simpl;
    try (split; [discriminate | intros [? ?]; discriminate]).
  destruct items as [|[] [|[] ?]]; simpl;
    try (split; [discriminate | intros [? ?]; discriminate]).
  split; eauto.
Qed.

Lemma createLine_visit_push coords pt :
  createLine_visit coords pt =
  coords ++ match projected_pair pt with Some c => [c] | None => [] end.
Proof.
  unfold createLine_visit.
  destruct pt as [| | | | |items|]; simpl; rewrite ?app_nil_r; try reflexivity.
  destruct items as [|[] [|[] ?]]; simpl; rewrite ?app_nil_r; reflexivity.
Qed.

Lemma createLine_loop pts : forall coords,
  fold_left createLine_visit pts coords = coords ++ projected_valid_pairs pts.
Proof.
  induction pts as [|pt pts IH]; intros coords; simpl.
  - now rewrite app_nil_r.
  - rewrite IH, createLine_visit_push. unfold projected_valid_pairs. simpl.
    destruct (projected_pair pt); simpl.
    + now rewrite <- app_assoc.
    + now rewrite app_nil_r.
Qed.

Lemma projected_valid_pairs_nil track :
  projected_valid_pairs track = [] <-> existsb well_formed_pair track = false.
Proof.
  induction track as [|pt track IH]; simpl; [tauto|].
  unfold projected_valid_pairs in *. simpl.
  destruct (well_formed_pair pt) eqn:W; simpl.
  - apply projected_pair_well_formed in W as [c ->]. split; discriminate.
  - destruct (projected_pair pt) eqn:P.
    + assert (well_formed_pair pt = true) by (apply projected_pair_well_formed; rewrite P; eauto).
      congruence.
    + exact IH.
Qed.

(** C4.  For a track that is an array, [createLine] returns a line feature
    exactly when some entry is an array whose first two elements are numbers;
    the line's geometry is then the list of the projected valid pairs in the
    order of the track, the other entries being skipped; a track with no such
    entry gives [null]. *)
Theorem createLine_valid_pairs (track : list JsVal) (color : string)
    (props : list (string * JsVal)) :
  createLine (JArr track) color props =
  if existsb well_formed_pair track
  then Ok (Some {| geometry := LineString (projected_valid_pairs track);
                   properties := assign [] props;
                   style := Some (lineStyle color) |})
  else Ok None.
Proof.
  unfold createLine, iterate. simpl.
  rewrite createLine_loop. simpl.
  destruct (existsb well_formed_pair track) eqn:E.
  - destruct (projected_valid_pairs track) eqn:V; [|reflexivity].
    apply projected_valid_pairs_nil in V. congruence.
  - apply projected_valid_pairs_nil in E. now rewrite E.
Qed.

(* ================================================================== *)
(** ** Styles: [makeFeatureStyle] *)
(* ================================================================== *)

(** X2.  For every feature, the style with hover is the hover variant of the
    style without: the same list of styles and geometries, every icon scale
    and circle radius multiplied by 1.4, every stroke set to [#ffa500] and
    width 4, fill, inner stroke, icon source and anchor unchanged. *)
Lemma makeFeatureStyle_hover (f : Feature) :
  makeFeatureStyle f true = hover_variant (makeFeatureStyle f false).
Proof.
  unfold makeFeatureStyle.
  destruct (str_is (featureType f) "observer"); [reflexivity|].
  destruct (str_is (featureType f) "station"); [reflexivity|].
  destruct (str_is (featureType f) "satellite"); [reflexivity|].
  destruct (str_is (featureType f) "orbit"); [|reflexivity].
  destruct (trackOf _ _) as [|[| | | | |[|[] [|[] ?]]|] ?]; reflexivity.
Qed.

(** Without hover the sizes are 7, 0.08, 0.06 and 6; an orbit has a stroke of
    width 2 in the colour [orange]. *)
Lemma makeFeatureStyle_base (f : Feature) :
  exists orbit,
    makeFeatureStyle f false = base_style (featureType f) (StyleArray orbit) /\
    hd_error orbit =
      Some {| style_geometry := None; style_image := None;
              style_stroke := Some (mkStroke "orange" 2 DashNull) |}.
Proof.
  unfold makeFeatureStyle, base_style.
  destruct (trackOf _ _) as [|[| | | | |[|[] [|[] ?]]|] ?];
    eexists; (split; [reflexivity|reflexivity]).
Qed.

(** C9, on the code.  The orbit [sample_orbit] is drawn without hover with a
    stroke [orange] of width 2 and an icon of scale 0.06, and with hover with
    a stroke [#ffa500] of width 4 and the icon 1.4 times larger; [#ffa500] is
    the colour [orange], so the hover stroke is wider and not brighter. *)
Theorem orbit_hover_colour_is_orange :
  makeFeatureStyle sample_orbit false =
    StyleArray [{| style_geometry := None; style_image := None;
                   style_stroke := Some (mkStroke "orange" 2 DashNull) |};
                {| style_geometry := Some (Point (fromLonLat 20 10));
                   style_image := Some (Icon ICONS_satellite 0.06 (0.5, 0.5)%float "anonymous");
                   style_stroke := None |}] /\
  makeFeatureStyle sample_orbit true =
    StyleArray [{| style_geometry := None; style_image := None;
                   style_stroke := Some (mkStroke "#ffa500" 4 DashNull) |};
                {| style_geometry := Some (Point (fromLonLat 20 10));
                   style_image := Some (Icon ICONS_satellite (0.06 * 1.4)%float (0.5, 0.5)%float "anonymous");
                   style_stroke := None |}] /\
  cssColor "#ffa500" = cssColor "orange" /\
  cssColor "orange" = Some (255, 165, 0)%Z.
Proof. repeat split; reflexivity. Qed.

(* ================================================================== *)
(** ** Markers: [createMarker] behind [Number] *)
(* ================================================================== *)

Lemma Number_is_number v w : Number v = Ok w -> is_number w = true.
Proof.
  unfold Number. destruct (ToNumber v); simpl; [|discriminate].
  now intros [= <-].
Qed.

(** A marker is refused only for an argument that is not a number. *)
Lemma createMarker_number lon lat color label props :
  is_number lon = true -> is_number lat = true ->
  is_Some (createMarker lon lat color label props).
Proof.
  destruct lon; try discriminate. destruct lat; try discriminate.
  intros _ _. simpl. eauto.
Qed.

Ltac step_rbind :=
  match goal with
  | |- context [rbind ?r _] =>
      let E := fresh "E" in destruct r eqn:E; simpl; [|discriminate]
  end.

Ltac never_null :=
  repeat step_rbind;
  repeat match goal with H : Number _ = Ok _ |- _ => apply Number_is_number in H end;
  match goal with |- Ok (createMarker ?a ?b ?c ?d ?e) <> _ =>
    let f := fresh "f" in
    destruct (createMarker_number a b c d e) as [f ->]; [assumption..|discriminate]
  end.

(** No record of the three feeds is ever dropped by its factory: what
    [Number] returns is a number, [NaN] included. *)
Lemma stationFeature_never_null s : stationFeature s <> Ok None.
Proof.
  unfold stationFeature. never_null.
Qed.

Lemma satFeature_never_null s : satFeature s <> Ok None.
Proof.
  unfold satFeature. never_null.
Qed.

Lemma liveMarker_never_null s : liveMarker s <> Ok None.
Proof.
  unfold liveMarker. never_null.
Qed.

(** C1, on the code.  The station record [{name:"X", lat:10, lon:20}] gives a
    marker at the projection of (20°E, 10°N).  The record [{name:"Y",
    lat:"bad", lon:20}] is not dropped: [Number("bad")] is [NaN], a number,
    and the factory returns a marker at the projection of (20, NaN). *)
Theorem station_record_bad_latitude :
  (exists f, stationFeature record_X = Ok (Some f) /\
             geometry f = Point (fromLonLat 20 10)) /\
  (exists f, stationFeature record_Y = Ok (Some f) /\
             geometry f = Point (fromLonLat 20 nan) /\
             getProperty f "name" = JStr "Y" /\
             getProperty f "raw" = record_Y).
Proof.
  split; eexists; (split; [vm_compute; reflexivity|]); repeat split; reflexivity.
Qed.

(* ================================================================== *)
(** ** Escaping: [escapeHtml] and the panel writers *)
(* ================================================================== *)

(** The three passes together rewrite each character on its own. *)
Lemma escapeHtml_string_cons (c : ascii) (s : string) :
  escapeHtml_string (String c s) = escape_char c +:+ escapeHtml_string s.
Proof.
  unfold escapeHtml_string, escape_char. simpl.
  destruct (Ascii.eqb c "&") eqn:Eamp; simpl.
  - reflexivity.
  - destruct (Ascii.eqb c "<") eqn:Elt; simpl.
    + reflexivity.
    + destruct (Ascii.eqb c ">") eqn:Egt; simpl; reflexivity.
Qed.



Lemma html_safe_no_angle (s : string) (c : ascii) :
  html_safe s = true -> In c (list_ascii_of_string s) -> c <> "<"%char /\ c <> ">"%char.
Proof.
  induction s as [|a s IH]; simpl; [tauto|].
  destruct (Ascii.eqb a "<") eqn:Elt; simpl; [discriminate|].
  destruct (Ascii.eqb a ">") eqn:Egt; simpl; [discriminate|].
  intros Hs [->|Hin].
  - apply Ascii.eqb_neq in Elt, Egt. tauto.
  - apply IH; [|exact Hin].
    destruct (Ascii.eqb a "&"); [|exact Hs].
    now apply andb_true_iff in Hs.
Qed.

Section Escaped.

Variable Number_toString : float -> string.
Variable JSON_stringify : JsVal -> string.
Variable JSON_stringify_properties : Geometry -> list (string * JsVal) -> string.















End Escaped.

(* ================================================================== *)
(** ** The detail panels: the click handler *)
(* ================================================================== *)

Lemma getElementById_set_display_eq p v d :
  getElementById (set_display p v d) p =
  option_map (fun el => mkElement v (innerHTML el)) (getElementById d p).
Proof. unfold set_display. destruct p, d as [[] [] []]; reflexivity. Qed.

Lemma getElementById_set_display_ne p q v d :
  p <> q -> getElementById (set_display p v d) q = getElementById d q.
Proof. unfold set_display. destruct p, q, d as [[] [] []]; intros; congruence || reflexivity. Qed.

Lemma getElementById_set_innerHTML_eq p h d :
  getElementById (set_innerHTML p h d) p =
  option_map (fun el => mkElement (display el) h) (getElementById d p).
Proof. unfold set_innerHTML. destruct p, d as [[] [] []]; reflexivity. Qed.

Lemma getElementById_set_innerHTML_ne p q h d :
  p <> q -> getElementById (set_innerHTML p h d) q = getElementById d q.
Proof. unfold set_innerHTML. destruct p, q, d as [[] [] []]; intros; congruence || reflexivity. Qed.

Lemma clearViewerPanels_hidden s :
  clearViewerPanels s = (Ok tt, with_dom (hidden (dom s)) s).
Proof. reflexivity. Qed.

Lemma hidden_element d p :
  getElementById (hidden d) p =
  option_map (fun el => mkElement "none" (innerHTML el)) (getElementById d p).
Proof. destruct p, d as [[] [] []]; reflexivity. Qed.

Lemma visible_hidden s p : visible (with_dom (hidden (dom s)) s) p = false.
Proof.
  unfold visible. simpl. rewrite hidden_element.
  destruct (getElementById (dom s) p); reflexivity.
Qed.

(** After [showPanel p] on hidden panels, [p] is shown if the page has it and
    the other panels stay hidden, whether or not the markup could be built. *)
Lemma showPanel_visible p html s q :
  visible (snd (showPanel p html (with_dom (hidden (dom s)) s))) q =
  if decide (p = q) then present s p else false.
Proof.
  unfold showPanel, bind, gets, modify, lift, visible, present. simpl.
  rewrite hidden_element.
  destruct (getElementById (dom s) p) as [el|] eqn:Hp; simpl.
  - destruct html as [h|e]; simpl.
    + destruct (decide (p = q)) as [<-|Hne].
      * rewrite getElementById_set_innerHTML_eq, getElementById_set_display_eq,
          hidden_element, Hp. reflexivity.
      * rewrite getElementById_set_innerHTML_ne, getElementById_set_display_ne,
          hidden_element by exact Hne.
        destruct (getElementById (dom s) q); reflexivity.
    + destruct (decide (p = q)) as [<-|Hne].
      * rewrite getElementById_set_display_eq, hidden_element, Hp. reflexivity.
      * rewrite getElementById_set_display_ne, hidden_element by exact Hne.
        destruct (getElementById (dom s) q); reflexivity.
  - rewrite hidden_element.
    destruct (decide (p = q)) as [<-|Hne]; [now rewrite Hp|].
    destruct (getElementById (dom s) q); reflexivity.
Qed.

Lemma showPanel_count p html s :
  visible_count (snd (showPanel p html (with_dom (hidden (dom s)) s))) <= 1.
Proof.
  unfold visible_count. rewrite !showPanel_visible.
  destruct p; simpl; destruct (present s _); simpl; lia.
Qed.

Section Click.

Variable Number_toString : float -> string.
Variable JSON_stringify : JsVal -> string.
Variable JSON_stringify_properties : Geometry -> list (string * JsVal) -> string.

Local Abbreviation click :=
  (singleclick Number_toString JSON_stringify JSON_stringify_properties).

(** C10.  A click where the hit test finds no feature hides the three panels
    and changes nothing else: the handler returns the state it got with the
    display of each existing panel set to [none], the panels' contents and
    the rest of the state as they were. *)
Theorem click_on_empty_map_hides_panels (s : State) :
  click None s = (Ok tt, with_dom (hidden (dom s)) s) /\
  (forall p, visible (snd (click None s)) p = false) /\
  (forall p, getElementById (dom (snd (click None s))) p =
             option_map (fun el => mkElement "none" (innerHTML el))
               (getElementById (dom s) p)).
Proof.
  replace (click None s) with (Ok tt, with_dom (hidden (dom s)) s) by reflexivity.
  split; [reflexivity|]. split; intros p.
  - apply visible_hidden.
  - apply hidden_element.
Qed.

(** A click on a feature clears the panels and then writes one panel. *)
Lemma click_on_feature f s :
  exists p html,
    click (Some f) s = showPanel p html (with_dom (hidden (dom s)) s).
Proof.
  unfold click, singleclick, bind. rewrite clearViewerPanels_hidden.
  unfold showSatelliteInfo, showStationInfo, showOrbitInfo.
  destruct (str_is (featureType f) "satellite"); [eauto|].
  destruct (str_is (featureType f) "station" || str_is (featureType f) "ground_station");
    [eauto|].
  destruct (str_is (featureType f) "orbit"); [eauto|].
  destruct (str_is (featureType f) "observer"); eauto.
Qed.

(** C6.  A click that resolves to a feature of type [station] or
    [ground_station] runs [clearViewerPanels] and then [showStationInfo]:
    afterwards the satellite and orbit panels are hidden and the station
    panel is shown (when the page has one).  Whatever the click resolves to,
    at most one panel is visible after the handler. *)
Theorem click_shows_one_panel (hit : option Feature) (s : State) :
  (forall f, hit = Some f ->
     str_is (featureType f) "station" || str_is (featureType f) "ground_station" = true ->
     click hit s =
       showStationInfo Number_toString JSON_stringify (properties f)
         (snd (clearViewerPanels s)) /\
     visible (snd (click hit s)) SatelliteInfo = false /\
     visible (snd (click hit s)) OrbitInfo = false /\
     visible (snd (click hit s)) GroundStationInfo = present s GroundStationInfo) /\
  visible_count (snd (click hit s)) <= 1.
Proof.
  split.
  - intros f -> Hty.
    assert (click (Some f) s =
            showStationInfo Number_toString JSON_stringify (properties f)
              (snd (clearViewerPanels s))) as ->.
    { unfold click, singleclick, bind. rewrite clearViewerPanels_hidden. simpl.
      destruct (str_is (featureType f) "satellite") eqn:Hsat.
      - destruct (featureType f) as [| | | |t| |]; try discriminate.
        simpl in Hsat, Hty. apply String.eqb_eq in Hsat. subst t. discriminate.
      - now rewrite Hty. }
    rewrite clearViewerPanels_hidden. unfold showStationInfo. simpl.
    rewrite !showPanel_visible. repeat split.
  - destruct hit as [f|].
    + destruct (click_on_feature f s) as (p & html & ->). apply showPanel_count.
    + replace (click None s) with (Ok tt, with_dom (hidden (dom s)) s) by reflexivity.
      unfold visible_count. cbn [snd]. rewrite !visible_hidden. simpl. lia.
Qed.

End Click.

(** C6, on a sample: a click on the marker of the station [record_X], on a
    page with the three panels. *)
Lemma click_shows_one_panel_sample :
  exists f,
    stationFeature record_X = Ok (Some f) /\
    let s' := snd (singleclick silent_Number_toString silent_JSON_stringify
                     silent_JSON_stringify_properties (Some f) (startup three_panels)) in
    visible s' SatelliteInfo = false /\
    visible s' OrbitInfo = false /\
    visible s' GroundStationInfo = true.
Proof.
  destruct (stationFeature record_X) as [[f|]|] eqn:E; try discriminate.
  exists f. split; [reflexivity|].
  destruct (click_shows_one_panel silent_Number_toString silent_JSON_stringify
              silent_JSON_stringify_properties (Some f) (startup three_panels))
    as [H _].
  destruct (H f eq_refl) as (_ & H1 & H2 & H3).
  - vm_compute in E. injection E as <-. reflexivity.
  - cbv zeta. rewrite H1, H2, H3. repeat split; reflexivity.
Defined.

(* ================================================================== *)
(** ** Handlers that keep a property *)
(* ================================================================== *)

Section Preserves.

Context (P : State -> Prop).

Lemma preserves_ret {A} (a : A) : preserves P (ret a).
Proof. intros s Hs. exact Hs. Qed.

Lemma preserves_lift {A} (r : Result A) : preserves P (lift r).
Proof. intros s Hs. exact Hs. Qed.

Lemma preserves_gets {A} (f : State -> A) : preserves P (gets f).
Proof. intros s Hs. exact Hs. Qed.

Lemma preserves_modify (f : State -> State) :
  (forall s, P s -> P (f s)) -> preserves P (modify f).
Proof. intros Hf s Hs. apply Hf, Hs. Qed.

Lemma preserves_bind {A B} (m : M A) (k : A -> M B) :
  preserves P m -> (forall a, preserves P (k a)) -> preserves P (bind m k).
Proof.
  intros Hm Hk s Hs. unfold bind. specialize (Hm s Hs).
  destruct (m s) as [[a|e] s']; simpl in *; [apply Hk, Hm|exact Hm].
Qed.

Lemma preserves_try_catch (body : M unit) (h : JsError -> M unit) :
  preserves P body -> (forall e, preserves P (h e)) -> preserves P (try_catch body h).
Proof.
  intros Hb Hh s Hs. unfold try_catch. specialize (Hb s Hs).
  destruct (body s) as [[[]|e] s']; simpl in *; [exact Hb|apply Hh, Hb].
Qed.

Lemma preserves_forEach (f : JsVal -> nat -> M unit) (items : list JsVal) :
  (forall x j, preserves P (f x j)) -> forall i, preserves P (forEach f items i).
Proof.
  intros Hf. induction items as [|x items IH]; intros i; simpl.
  - apply preserves_ret.
  - apply preserves_bind; [apply Hf|intros _; apply IH].
Qed.

Lemma preserves_alloc_all (fs : list Feature) :
  (forall f, preserves P (alloc f)) -> preserves P (alloc_all fs).
Proof.
  intros Ha. induction fs as [|f fs IH]; simpl.
  - apply preserves_ret.
  - apply preserves_bind; [apply Ha|intros r].
    apply preserves_bind; [apply IH|intros rs]. apply preserves_ret.
Qed.

Lemma preserves_dispatchChange (ls : list Dataset) (d : Dataset) (checked : bool) :
  preserves P (onToggle d checked) -> preserves P (dispatchChange ls d checked).
Proof.
  intros Ht. induction ls as [|d' ls IH]; simpl.
  - apply preserves_ret.
  - apply preserves_bind; [|intros _; exact IH].
    destruct (Dataset_eqb d' d); [|apply preserves_ret].
    apply preserves_try_catch; [exact Ht|intros _; apply preserves_ret].
Qed.

End Preserves.

(** Takes a handler apart down to its writes. *)
Ltac preserve_step :=
  first
    [ apply preserves_ret
    | apply preserves_lift
    | apply preserves_gets
    | apply preserves_bind; [|intros ?]
    | apply preserves_try_catch; [|intros ?]
    | apply preserves_forEach; intros ? ?
    | apply preserves_alloc_all; intros ?
    | apply preserves_dispatchChange
    | match goal with
      | |- preserves _ (match ?x with _ => _ end) => destruct x
      end ].

Ltac preserve_handler :=
  unfold initMapLayers, addToggleListener, animateLiveSatellites, moveLiveSatellite,
    toggleLayer, onToggle, triggerNDVIGeneration, triggerNDVIGeneration_request,
    triggerNDVIGeneration_answer, basemapChange, removeLayer, insertAt0, singleclick,
    showSatelliteInfo, showStationInfo, showOrbitInfo, showPanel, clearViewerPanels,
    console_push, update_feature;
  cbv zeta; repeat preserve_step.

(* ================================================================== *)
(** ** The basemap switcher *)
(* ================================================================== *)

Lemma Basemap_eqb_eq a b : Basemap_eqb a b = true <-> a = b.
Proof. destruct a, b; simpl; split; congruence. Qed.

Lemma filter_overlays rest :
  forallb is_overlay rest = true -> List.filter is_overlay rest = rest.
Proof.
  induction rest as [|l rest IH]; simpl; [reflexivity|].
  destruct (is_overlay l); simpl; [|discriminate].
  intros H. now rewrite IH.
Qed.

Lemma base_at_bottom_inv s :
  base_at_bottom s = true ->
  exists b rest, currentBaseLayer s = Tile b /\ layers s = TileLayer b :: rest /\
                 forallb is_overlay rest = true.
Proof.
  unfold base_at_bottom. destruct (layers s) as [|[b| | |] rest]; try discriminate.
  destruct (currentBaseLayer s) as [c|n]; simpl; [|discriminate].
  intros [Hb Hr]%andb_true_iff. apply Basemap_eqb_eq in Hb as ->. eauto.
Qed.

Lemma base_at_bottom_intro s b rest :
  currentBaseLayer s = Tile b -> layers s = TileLayer b :: rest ->
  forallb is_overlay rest = true -> base_at_bottom s = true.
Proof.
  intros Hc Hl Hr. unfold base_at_bottom. rewrite Hl, Hc. simpl.
  apply andb_true_iff. split; [now apply Basemap_eqb_eq|exact Hr].
Qed.

Lemma baseLayers_own value :
  inherited value = false ->
  match baseLayers value with Some v => v | None => Tile osm end = Tile (chosen value).
Proof.
  intros H. unfold chosen, baseLayers. rewrite H.
  repeat match goal with |- context [String.eqb ?a ?b] => destruct (String.eqb a b) end;
    reflexivity.
Qed.

(** The handler on a stack whose bottom layer is the current base layer, for
    a value that names no inherited member. *)
Lemma basemapChange_layers (value : string) (s : State) (b : Basemap) (rest : list Layer) :
  inherited value = false ->
  currentBaseLayer s = Tile b ->
  layers s = TileLayer b :: rest ->
  fst (basemapChange value s) = Ok tt /\
  layers (snd (basemapChange value s)) = TileLayer (chosen value) :: rest /\
  currentBaseLayer (snd (basemapChange value s)) = Tile (chosen value).
Proof.
  intros Hv Hc Hl. unfold basemapChange. rewrite (baseLayers_own value Hv).
  unfold removeLayer, insertAt0, bind, gets, modify, ret. simpl. rewrite Hc, Hl. simpl.
  assert (Basemap_eqb b b = true) as -> by now apply Basemap_eqb_eq.
  repeat split.
Qed.

Lemma basemapChange_base_at_bottom (value : string) (s : State) :
  inherited value = false ->
  base_at_bottom s = true -> base_at_bottom (snd (basemapChange value s)) = true.
Proof.
  intros Hv H. destruct (base_at_bottom_inv s H) as (b & rest & Hc & Hl & Hrest).
  destruct (basemapChange_layers value s b rest Hv Hc Hl) as (_ & Hl' & Hc').
  now apply (base_at_bottom_intro _ (chosen value) rest).
Qed.

(** C7.  The handler on the page as the script leaves it, for the value
    [toString]: [baseLayers['toString']] is the function the table inherits,
    which is truthy, so the fallback to [osm] is not taken.  The base layer is
    removed, the function is inserted at index 0 in its place, and the
    handler throws: the map has no tile layer any more. *)
Theorem basemap_change_inherited_member (page : Dom) :
  let s := startup page in
  let r := basemapChange "toString" s in
  base_at_bottom s = true /\
  (exists msg, fst r = Throw (TypeError msg)) /\
  layers (snd r) = NotALayer "toString" :: overlays s /\
  existsb is_tile (layers (snd r)) = false /\
  base_at_bottom (snd r) = false.
Proof.
  cbv zeta. split; [reflexivity|]. split; [eexists; reflexivity|].
  split; [reflexivity|]. split; reflexivity.
Qed.

Lemma base_at_bottom_append s l :
  is_overlay l = true -> base_at_bottom s = true ->
  base_at_bottom (with_layers (layers s ++ [l]) s) = true.
Proof.
  intros Hl H. destruct (base_at_bottom_inv s H) as (b & rest & Hc & Hs & Hrest).
  apply (base_at_bottom_intro _ b (rest ++ [l])); simpl; [exact Hc|now rewrite Hs|].
  rewrite forallb_app, Hrest. simpl. now rewrite Hl.
Qed.

Lemma base_at_bottom_remove s u :
  base_at_bottom s = true ->
  base_at_bottom (with_layers (collection_remove (has_uid u) (layers s)) s) = true.
Proof.
  intros H. destruct (base_at_bottom_inv s H) as (b & rest & Hc & Hs & Hrest).
  apply (base_at_bottom_intro _ b (collection_remove (has_uid u) rest)); simpl;
    [exact Hc|now rewrite Hs|].
  clear Hs H. induction rest as [|l rest IH]; simpl; [reflexivity|].
  simpl in Hrest. apply andb_true_iff in Hrest as [Hl Hr].
  destruct (has_uid u l); [exact Hr|]. simpl. now rewrite Hl, IH.
Qed.

Lemma base_at_bottom_setVisible s u v :
  base_at_bottom s = true ->
  base_at_bottom (with_layers (map (setVisible u v) (layers s)) s) = true.
Proof.
  intros H. destruct (base_at_bottom_inv s H) as (b & rest & Hc & Hs & Hrest).
  apply (base_at_bottom_intro _ b (map (setVisible u v) rest)); simpl;
    [exact Hc|now rewrite Hs|].
  clear Hs H. induction rest as [|l rest IH]; simpl; [reflexivity|].
  simpl in Hrest. apply andb_true_iff in Hrest as [Hl Hr].
  rewrite IH by exact Hr.
  destruct l as [| u' ? ?| |]; simpl in *; try discriminate; try reflexivity.
  now destruct (Nat.eqb u u').
Qed.

Ltac base_leaf :=
  first
    [ apply preserves_modify; intros ? ?;
      first [ assumption
            | apply base_at_bottom_setVisible; assumption
            | apply base_at_bottom_remove; assumption
            | apply base_at_bottom_append; [reflexivity|assumption] ]
    | intros ? ?; first [assumption | apply base_at_bottom_append; [reflexivity|assumption]] ].

Section Reachable.

Variable Number_toString : float -> string.
Variable JSON_stringify : JsVal -> string.
Variable JSON_stringify_properties : Geometry -> list (string * JsVal) -> string.

Local Abbreviation handler :=
  (handler Number_toString JSON_stringify JSON_stringify_properties).
Local Abbreviation reachable :=
  (reachable Number_toString JSON_stringify JSON_stringify_properties).
Local Abbreviation reachable_by :=
  (reachable_by Number_toString JSON_stringify JSON_stringify_properties).

Lemma reachable_by_reachable ok page s : reachable_by ok page s -> reachable page s.
Proof. induction 1; [constructor|now constructor]. Qed.

Lemma handler_base_at_bottom e :
  own_value e = true -> preserves (fun s => base_at_bottom s = true) (handler e).
Proof.
  destruct e as [net fits|net|value|d checked| |answer|hit]; unfold handler; simpl; intros He.
  - preserve_handler; base_leaf.
  - preserve_handler; base_leaf.
  - intros s H. apply basemapChange_base_at_bottom; [|exact H].
    now destruct (inherited value).
  - preserve_handler; base_leaf.
  - preserve_handler; base_leaf.
  - preserve_handler; base_leaf.
  - preserve_handler; base_leaf.
Qed.

(** X3.  In every state the page reaches through events whose basemap value
    is a key of the table or names nothing at all (not a member the table
    inherits from [Object.prototype]), the current base layer is a tile
    layer, it is the bottom element of the stack, and every element above it
    is a vector or image layer. *)
Lemma reachable_base_at_bottom page s :
  reachable_by own_value page s -> base_at_bottom s = true.
Proof.
  induction 1 as [|s e _ IH He]; [reflexivity|].
  apply (handler_base_at_bottom e He s IH).
Qed.

End Reachable.

(* ================================================================== *)
(** ** The live updater *)
(* ================================================================== *)

(** C5.  When [loadJSON] throws (the request fails, the status is not a
    success, or the body is not JSON), [animateLiveSatellites] only logs the
    error: the live array, the feature objects with their geometry and
    properties, the layers and the live layer are what they were. *)
Theorem live_fetch_failure_keeps_state (net : Network) (s : State) (e : JsError) :
  loadJSON net live_url = Throw e ->
  let s' := snd (animateLiveSatellites net s) in
  s' = with_console (console s ++ [LogWarn "[LIVE SATS] fetch failed:" e]) s /\
  liveSatFeatures s' = liveSatFeatures s /\
  heap s' = heap s /\
  layers s' = layers s /\
  liveSatLayer s' = liveSatLayer s /\
  dom s' = dom s.
Proof.
  intros H. unfold animateLiveSatellites, try_catch, bind, lift. rewrite H.
  cbv zeta. repeat split.
Qed.

(** C5, on a sample: the feed cannot be reached from the page as the script
    leaves it. *)
Lemma live_fetch_failure_keeps_state_sample :
  let s := startup no_panels in
  let s' := snd (animateLiveSatellites offline s) in
  heap s' = heap s /\ layers s' = layers s /\
  liveSatFeatures s' = [] /\ liveSatLayer s' = None.
Proof.
  destruct (live_fetch_failure_keeps_state offline (startup no_panels) NetworkError eq_refl)
    as (_ & H1 & H2 & H3 & H4 & _).
  cbv zeta. rewrite H1, H2, H3, H4. repeat split.
Defined.

Lemma with_heap_id s : with_heap (heap s) s = s.
Proof. destruct s; reflexivity. Qed.

Lemma Number_JNum x : Number (JNum x) = Ok (JNum x).
Proof. reflexivity. Qed.

Lemma Number_inv v w : Number v = Ok w -> exists x, w = JNum x.
Proof.
  unfold Number. destruct (ToNumber v); simpl; [|discriminate].
  intros [= <-]. eauto.
Qed.

(** One turn of the updater's loop writes at most the feature of its index:
    the state differs in the heap only, the heap keeps its size, and every
    other cell keeps its content. *)
Lemma moveLiveSatellite_frame sat i s :
  exists h,
    snd (moveLiveSatellite sat i s) = with_heap h s /\
    length h = length (heap s) /\
    forall r, liveSatFeatures s !! i <> Some r -> h !! r = heap s !! r.
Proof.
  unfold moveLiveSatellite, bind, gets, lift, update_feature, modify. simpl.
  destruct (liveSatFeatures s !! i) as [r|] eqn:Hi; simpl;
    [|exists (heap s); rewrite with_heap_id; auto].
  destruct (get_coalesce sat _) as [lonv|]; simpl;
    [|exists (heap s); rewrite with_heap_id; auto].
  destruct (Number lonv) as [lon|] eqn:Hlon; simpl;
    [|exists (heap s); rewrite with_heap_id; auto].
  destruct (get_coalesce sat _) as [latv|]; simpl;
    [|exists (heap s); rewrite with_heap_id; auto].
  destruct (Number latv) as [lat|] eqn:Hlat; simpl;
    [|exists (heap s); rewrite with_heap_id; auto].
  apply Number_inv in Hlon as [x ->]. apply Number_inv in Hlat as [y ->]. simpl.
  eexists. split; [reflexivity|]. split.
  - now rewrite !length_alter.
  - intros r' Hr'. assert (r <> r') by congruence.
    now rewrite !list_lookup_alter_ne.
Qed.

Lemma forEach_frame items : forall i s,
  exists h,
    snd (forEach moveLiveSatellite items i s) = with_heap h s /\
    length h = length (heap s) /\
    forall r, (forall j, j < length items -> liveSatFeatures s !! (i + j) <> Some r) ->
              h !! r = heap s !! r.
Proof.
  induction items as [|sat items IH]; intros i s; simpl.
  - exists (heap s). rewrite with_heap_id. auto.
  - unfold bind.
    destruct (moveLiveSatellite_frame sat i s) as (h1 & Hs1 & Hlen1 & Hframe1).
    destruct (moveLiveSatellite sat i s) as [[[]|e] s1]; simpl in Hs1; subst s1.
    + destruct (IH (S i) (with_heap h1 s)) as (h2 & Hs2 & Hlen2 & Hframe2).
      exists h2. split; [exact Hs2|]. split; [simpl in Hlen2; congruence|].
      intros r Hr. simpl in Hframe2. rewrite Hframe2.
      * apply Hframe1. specialize (Hr 0). rewrite Nat.add_0_r in Hr. apply Hr. lia.
      * intros j Hj. specialize (Hr (S j)).
        replace (i + S j) with (S i + j) in Hr by lia. apply Hr. lia.
    + exists h1. split; [reflexivity|]. split; [exact Hlen1|].
      intros r Hr. apply Hframe1. specialize (Hr 0).
      rewrite Nat.add_0_r in Hr. apply Hr. lia.
Qed.

Lemma alter_twice {A} (f g : A -> A) (l : list A) : forall i,
  alter g i (alter f i l) = alter (fun x => g (f x)) i l.
Proof.
  induction l as [|a l IH]; intros [|i]; simpl; try reflexivity.
  f_equal. apply IH.
Qed.

(** For an entry with numeric coordinates the turn does not throw, and moves
    the feature of its index. *)
Lemma moveLiveSatellite_numeric sat i s x y :
  liveCoords sat = Some (x, y) ->
  moveLiveSatellite sat i s =
  (Ok tt, match liveSatFeatures s !! i with
          | Some r => with_heap (alter (moved sat x y) r (heap s)) s
          | None => s
          end).
Proof.
  unfold liveCoords, moveLiveSatellite, bind, gets, lift, update_feature, modify.
  intros H. simpl.
  destruct (liveSatFeatures s !! i) as [r|]; [|reflexivity].
  destruct (get_coalesce sat ["longitude"; "lon"; "lng"]) as [[]|]; try discriminate.
  destruct (get_coalesce sat ["latitude"; "lat"]) as [[]|]; try discriminate.
  injection H as -> ->. simpl.
  rewrite alter_twice. reflexivity.
Qed.

Lemma forEach_numeric items : forall i s,
  Forall (fun sat => is_Some (liveCoords sat)) items ->
  NoDup (liveSatFeatures s) ->
  exists h,
    forEach moveLiveSatellite items i s = (Ok tt, with_heap h s) /\
    length h = length (heap s) /\
    (forall r, (forall j, j < length items -> liveSatFeatures s !! (i + j) <> Some r) ->
               h !! r = heap s !! r) /\
    (forall j sat x y r,
       items !! j = Some sat -> liveCoords sat = Some (x, y) ->
       liveSatFeatures s !! (i + j) = Some r ->
       h !! r = moved sat x y <$> heap s !! r).
Proof.
  induction items as [|sat items IH]; intros i s Hnum Hnd; simpl.
  - exists (heap s). rewrite with_heap_id. repeat split; auto.
    intros j ? ? ? ? Hj. destruct j; discriminate.
  - apply Forall_cons in Hnum as [[[x y] Hxy] Hnum].
    unfold bind. rewrite (moveLiveSatellite_numeric sat i s x y Hxy).
    set (s1 := match liveSatFeatures s !! i with
               | Some r => with_heap (alter (moved sat x y) r (heap s)) s
               | None => s
               end).
    assert (liveSatFeatures s1 = liveSatFeatures s) as Hlive
      by (unfold s1; destruct (liveSatFeatures s !! i); reflexivity).
    assert (length (heap s1) = length (heap s)) as Hlen1
      by (unfold s1; destruct (liveSatFeatures s !! i); simpl;
          [apply length_alter|reflexivity]).
    assert (forall r, liveSatFeatures s !! i <> Some r -> heap s1 !! r = heap s !! r)
      as Hother.
    { intros r Hr. unfold s1. destruct (liveSatFeatures s !! i) as [r0|]; [|reflexivity].
      simpl. apply list_lookup_alter_ne. congruence. }
    assert (forall r, liveSatFeatures s !! i = Some r ->
                      heap s1 !! r = moved sat x y <$> heap s !! r) as Hself.
    { intros r Hr. unfold s1. rewrite Hr. simpl. apply list_lookup_alter_eq. }
    destruct (IH (S i) s1 Hnum) as (h & Hrun & Hlen & Hframe & Hmoved).
    { now rewrite Hlive. }
    exists h. split.
    { rewrite Hrun. f_equal. unfold s1.
      destruct (liveSatFeatures s !! i); reflexivity. }
    split; [congruence|]. split.
    + intros r Hr. rewrite Hframe.
      * apply Hother. specialize (Hr 0). rewrite Nat.add_0_r in Hr. apply Hr. lia.
      * intros j Hj. rewrite Hlive. specialize (Hr (S j)).
        replace (i + S j) with (S i + j) in Hr by lia. apply Hr. lia.
    + intros j sat' x' y' r Hj Hxy' Hr. destruct j as [|j]; simpl in Hj.
      * injection Hj as <-. rewrite Hxy in Hxy'. injection Hxy' as <- <-.
        rewrite Nat.add_0_r in Hr. rewrite Hframe; [now apply Hself|].
        intros j Hj Hr'. rewrite Hlive in Hr'.
        pose proof (NoDup_lookup _ _ _ _ Hnd Hr Hr'). lia.
      * replace (i + S j) with (S i + j) in Hr by lia.
        rewrite (Hmoved j sat' x' y' r Hj Hxy') by now rewrite Hlive.
        f_equal. apply Hother. intros Hr'.
        pose proof (NoDup_lookup _ _ _ _ Hnd Hr Hr'). lia.
Qed.

Lemma alloc_all_spec fs : forall s,
  alloc_all fs s =
  (Ok (seq (length (heap s)) (length fs)), with_heap (heap s ++ fs) s).
Proof.
  induction fs as [|f fs IH]; intros s; simpl.
  - unfold ret. now rewrite app_nil_r, with_heap_id.
  - unfold bind, alloc, ret. rewrite IH. simpl.
    rewrite length_app. simpl. rewrite Nat.add_1_r, <- app_assoc. reflexivity.
Qed.

Lemma mapM_length {A B} (f : A -> Result B) (l : list A) : forall bs,
  mapM f l = Ok bs -> length bs = length l.
Proof.
  induction l as [|a l IH]; simpl; intros bs.
  - now intros [= <-].
  - destruct (f a); simpl; [|discriminate].
    destruct (mapM f l); simpl; [|discriminate].
    intros [= <-]. simpl. f_equal. now apply IH.
Qed.

(** The first load makes a marker for an entry with numeric coordinates, at
    the projection of these coordinates. *)
Lemma liveMarker_numeric sat x y :
  liveCoords sat = Some (x, y) ->
  exists f, liveMarker sat = Ok (Some f) /\ geometry f = Point (fromLonLat x y).
Proof.
  unfold liveCoords, liveMarker.
  destruct sat as [| | | | | |fs]; try discriminate. simpl.
  destruct (_ ??? (_ ??? _)) as [| | |x'| | |]; try discriminate.
  destruct (lookup_field "latitude" fs ??? _) as [| | |y'| | |]; try discriminate.
  intros [= -> ->]. simpl. eexists. split; reflexivity.
Qed.

Lemma first_load_markers d :
  Forall (fun sat => is_Some (liveCoords sat)) d ->
  exists fs, rbind (mapM liveMarker d) (fun made => Ok (filter_Boolean made)) = Ok fs /\
             length fs = length d.
Proof.
  induction 1 as [|sat d [[x y] Hxy] _ (fs & Hfs & Hlen)]; simpl.
  - exists []. split; reflexivity.
  - destruct (liveMarker_numeric sat x y Hxy) as (f & -> & _). simpl.
    destruct (mapM liveMarker d) as [made|]; simpl in *; [|discriminate].
    injection Hfs as <-. exists (f :: filter_Boolean made). split; [reflexivity|].
    simpl. now rewrite Hlen.
Qed.

(** What the first answer of the feed leaves, for an array of entries with
    numeric coordinates. *)
Lemma first_load_state net s d :
  liveSatLayer s = None ->
  loadJSON net live_url = Ok (JArr d) ->
  Forall (fun sat => is_Some (liveCoords sat)) d ->
  exists fs,
    length fs = length d /\
    snd (animateLiveSatellites net s) =
    with_liveSatLayer (Some (next_uid s))
      (with_next_uid (S (next_uid s))
         (with_layers
            (layers s ++ [VectorLayer (next_uid s) (seq (length (heap s)) (length fs)) true])
            (with_liveSatFeatures (seq (length (heap s)) (length fs))
               (with_heap (heap s ++ fs) s)))).
Proof.
  intros Hlayer Hload Hnum.
  destruct (first_load_markers d Hnum) as (fs & Hfs & Hlen).
  exists fs. split; [exact Hlen|].
  unfold animateLiveSatellites, try_catch, bind, lift, gets. rewrite Hload. simpl.
  rewrite Hlayer. unfold array_map. simpl.
  destruct (mapM liveMarker d) as [made|]; simpl in Hfs; [|discriminate].
  injection Hfs as <-. rewrite alloc_all_spec. reflexivity.
Qed.

(** A later answer leaves the live array, the layers and the number of
    feature objects as they are, and writes only features whose index the
    answer has. *)
Lemma later_load_frame net s :
  is_Some (liveSatLayer s) ->
  let s' := snd (animateLiveSatellites net s) in
  liveSatFeatures s' = liveSatFeatures s /\
  length (heap s') = length (heap s) /\
  layers s' = layers s /\
  liveSatLayer s' = liveSatLayer s /\
  forall data, loadJSON net live_url = Ok (JArr data) ->
    forall r, (forall j, j < length data -> liveSatFeatures s !! j <> Some r) ->
              heap s' !! r = heap s !! r.
Proof.
  intros [u Hu]. unfold animateLiveSatellites, try_catch, bind, lift, gets.
  destruct (loadJSON net live_url) as [data|e]; simpl;
    [|repeat split; intros ? [=]].
  destruct (truthy data) eqn:Ht; simpl; [|repeat split; intros; reflexivity].
  rewrite Hu.
  destruct data as [| | | | |items|]; simpl;
    try (repeat split; first [assumption | intros ? [=]]).
  destruct (forEach_frame items 0 s) as (h & Hs' & Hlen & Hframe).
  destruct (forEach moveLiveSatellite items 0 s) as [[[]|e] s']; simpl in *; subst s';
    simpl; (repeat split; first [assumption | intros ? [= <-]; exact Hframe]).
Qed.

(** C3.  Two consecutive answers of the live feed, arrays of the same length
    whose entries have numeric coordinates: the first builds one live feature
    per entry, the second leaves the live array as it is and moves each
    feature to the coordinates of the entry at its index.  And for any answer
    after the first: the live array does not change (no feature is added for
    an index beyond it, none is removed), no feature object is created, the
    layers stay, and a live feature whose index the answer does not have
    keeps its geometry and properties. *)
Theorem live_update_moves_markers :
  (forall (s0 : State) (net1 net2 : Network) (d1 d2 : list JsVal),
     liveSatLayer s0 = None ->
     loadJSON net1 live_url = Ok (JArr d1) ->
     loadJSON net2 live_url = Ok (JArr d2) ->
     Forall (fun sat => is_Some (liveCoords sat)) d1 ->
     Forall (fun sat => is_Some (liveCoords sat)) d2 ->
     length d1 = length d2 ->
     let s1 := snd (animateLiveSatellites net1 s0) in
     let s2 := snd (animateLiveSatellites net2 s1) in
     length (liveSatFeatures s1) = length d1 /\
     liveSatFeatures s2 = liveSatFeatures s1 /\
     layers s2 = layers s1 /\
     (exists u, liveSatLayer s1 = Some u /\
                In (VectorLayer u (liveSatFeatures s1) true) (layers s1)) /\
     forall i sat x y,
       d2 !! i = Some sat -> liveCoords sat = Some (x, y) ->
       exists r f,
         liveSatFeatures s2 !! i = Some r /\
         heap s1 !! r = Some f /\
         heap s2 !! r = Some (moved sat x y f) /\
         geometry (moved sat x y f) = Point (fromLonLat x y)) /\
  (forall (s : State) (net : Network),
     is_Some (liveSatLayer s) ->
     NoDup (liveSatFeatures s) ->
     let s' := snd (animateLiveSatellites net s) in
     liveSatFeatures s' = liveSatFeatures s /\
     length (heap s') = length (heap s) /\
     layers s' = layers s /\
     forall data, loadJSON net live_url = Ok (JArr data) ->
       forall j r, length data <= j -> liveSatFeatures s !! j = Some r ->
                   heap s' !! r = heap s !! r).
Proof.
  split.
  - intros s0 net1 net2 d1 d2 Hfirst Hload1 Hload2 Hnum1 Hnum2 Hlen s1 s2.
    destruct (first_load_state net1 s0 d1 Hfirst Hload1 Hnum1) as (fs & Hfs & Hs1).
    fold s1 in Hs1.
    assert (liveSatFeatures s1 = seq (length (heap s0)) (length fs)) as Hlive
      by (rewrite Hs1; reflexivity).
    assert (heap s1 = heap s0 ++ fs) as Hheap by (rewrite Hs1; reflexivity).
    assert (liveSatLayer s1 = Some (next_uid s0)) as Hlayer by (rewrite Hs1; reflexivity).
    assert (NoDup (liveSatFeatures s1)) as Hnd by (rewrite Hlive; apply NoDup_seq).
    destruct (forEach_numeric d2 0 s1 Hnum2 Hnd) as (h & Hrun & Hlenh & _ & Hmoved).
    assert (s2 = with_heap h s1) as Hs2.
    { unfold s2, animateLiveSatellites, try_catch, bind, lift, gets.
      rewrite Hload2. simpl. rewrite Hlayer. simpl. rewrite Hrun. reflexivity. }
    split; [rewrite Hlive, length_seq; congruence|].
    split; [rewrite Hs2; reflexivity|].
    split; [rewrite Hs2; reflexivity|].
    split.
    { exists (next_uid s0). split; [exact Hlayer|].
      rewrite Hlive, Hs1. simpl. apply in_or_app. right. left. reflexivity. }
    intros i sat x y Hi Hxy.
    assert (i < length fs) as Hlt.
    { apply lookup_lt_Some in Hi. lia. }
    exists (length (heap s0) + i).
    assert (is_Some (fs !! i)) as [f Hf] by now apply lookup_lt_is_Some.
    exists f.
    assert (liveSatFeatures s1 !! i = Some (length (heap s0) + i)) as Hr
      by (rewrite Hlive; now apply lookup_seq_lt).
    assert (heap s1 !! (length (heap s0) + i) = Some f) as Hcell
      by (rewrite Hheap, lookup_app_r, Nat.add_comm, Nat.add_sub by lia; exact Hf).
    split; [rewrite Hs2; exact Hr|]. split; [exact Hcell|].
    split; [|reflexivity].
    rewrite Hs2. simpl. rewrite (Hmoved i sat x y _ Hi Hxy Hr), Hcell. reflexivity.
  - intros s net Hlayer Hnd s'.
    destruct (later_load_frame net s Hlayer) as (H1 & H2 & H3 & _ & H5).
    fold s' in H1, H2, H3, H5. repeat split; try assumption.
    intros data Hload j r Hj Hr. apply (H5 data Hload).
    intros j' Hj' Hr'. pose proof (NoDup_lookup _ _ _ _ Hnd Hr Hr'). lia.
Qed.

(** C3, on a sample: the page as the script leaves it, then two answers with
    one entry each. *)
Lemma live_update_moves_markers_sample :
  let s1 := snd (animateLiveSatellites (answering (live_A (JNum 10))) (startup no_panels)) in
  let s2 := snd (animateLiveSatellites (answering (live_A (JNum 11))) s1) in
  liveSatFeatures s2 = liveSatFeatures s1 /\
  exists r f,
    liveSatFeatures s2 !! 0 = Some r /\
    heap s2 !! r = Some f /\
    geometry f = Point (fromLonLat 20 11).
Proof.
  destruct (proj1 live_update_moves_markers (startup no_panels)
              (answering (live_A (JNum 10))) (answering (live_A (JNum 11)))
              [JObj [("name", JStr "A"); ("lat", JNum 10%float); ("lon", JNum 20%float)]]
              [JObj [("name", JStr "A"); ("lat", JNum 11%float); ("lon", JNum 20%float)]])
    as (_ & H2 & _ & _ & H5); try reflexivity.
  - repeat constructor. simpl. eauto.
  - repeat constructor. simpl. eauto.
  - cbv zeta. split; [exact H2|].
    destruct (H5 0 _ 20%float 11%float eq_refl eq_refl) as (r & f & Hr & _ & Hf & Hg).
    exists r, (moved (JObj [("name", JStr "A"); ("lat", JNum 11%float); ("lon", JNum 20%float)])
                 20%float 11%float f).
    repeat split; assumption.
Defined.

(** The guard on the new coordinates never skips: a turn that ends normally
    on an existing feature has written its geometry, [Number] having made
    numbers of whatever the entry holds. *)
Lemma moveLiveSatellite_always_moves sat i s r s' :
  liveSatFeatures s !! i = Some r ->
  moveLiveSatellite sat i s = (Ok tt, s') ->
  exists x y, s' = with_heap (alter (moved sat x y) r (heap s)) s.
Proof.
  unfold moveLiveSatellite, bind, gets, lift, update_feature, modify. simpl.
  intros ->.
  destruct (get_coalesce sat _) as [lonv|]; simpl; [|discriminate].
  destruct (Number lonv) as [lon|] eqn:Hlon; simpl; [|discriminate].
  destruct (get_coalesce sat _) as [latv|]; simpl; [|discriminate].
  destruct (Number latv) as [lat|] eqn:Hlat; simpl; [|discriminate].
  apply Number_inv in Hlon as [x ->]. apply Number_inv in Hlat as [y ->]. simpl.
  intros [= <-]. exists x, y. rewrite alter_twice. reflexivity.
Qed.

(** C2, on the code.  After a first answer [[{name:"A", lat:10, lon:20}]] the
    live marker is at the projection of (20, 10).  The next answer
    [[{name:"A", lat:"bad", lon:20}]] has a latitude that is not a number;
    the updater does not skip the geometry: it moves the marker to the
    projection of (20, NaN), and replaces the raw payload. *)
Theorem live_update_bad_latitude :
  let bad := JObj [("name", JStr "A"); ("lat", JStr "bad"); ("lon", JNum 20%float)] in
  let s1 := snd (animateLiveSatellites (answering (live_A (JNum 10%float)))
                   (startup no_panels)) in
  let s2 := snd (animateLiveSatellites (answering (JArr [bad])) s1) in
  liveSatFeatures s1 = [1] /\
  liveSatFeatures s2 = [1] /\
  geometry <$> heap s1 !! 1 = Some (Point (fromLonLat 20 10)) /\
  liveCoords bad = None /\
  geometry <$> heap s2 !! 1 = Some (Point (fromLonLat 20 nan)) /\
  (fun f => getProperty f "raw") <$> heap s2 !! 1 = Some bad.
Proof. vm_compute. repeat split. Qed.

(** *** The live markers stay distinct objects *)

Lemma live_frame_heap L n s h :
  n <= length h -> live_frame L n s -> live_frame L n (with_heap h s).
Proof. intros Hh [HL _]. split; [exact HL|exact Hh]. Qed.

Ltac frame_leaf :=
  first
    [ apply preserves_modify; intros ? ?;
      first [ assumption
            | apply live_frame_heap; [rewrite length_alter|assumption];
              match goal with H : live_frame _ _ _ |- _ => apply H end ]
    | intros ? ?;
      first [ assumption
            | apply live_frame_heap; [rewrite length_app|assumption];
              match goal with H : live_frame _ _ _ |- _ => destruct H; lia end ] ].

Lemma live_markers_distinct_frame s s' :
  live_markers_distinct s ->
  live_frame (liveSatFeatures s) (length (heap s)) s' ->
  live_markers_distinct s'.
Proof.
  intros [Hnd Hin] [HL Hn]. split; rewrite HL; [exact Hnd|].
  eapply Forall_impl; [exact Hin|]. simpl. intros r Hr. lia.
Qed.

Lemma animateLiveSatellites_distinct net s :
  live_markers_distinct s -> live_markers_distinct (snd (animateLiveSatellites net s)).
Proof.
  intros Hs. destruct (liveSatLayer s) as [u|] eqn:Hlayer.
  - destruct (later_load_frame net s) as (H1 & H2 & _); [rewrite Hlayer; eauto|].
    apply (live_markers_distinct_frame s); [exact Hs|]. split; [exact H1|lia].
  - unfold animateLiveSatellites, try_catch, bind, lift, gets.
    destruct (loadJSON net live_url) as [data|e]; simpl; [|exact Hs].
    destruct (truthy data); simpl; [|exact Hs].
    rewrite Hlayer.
    destruct (array_map liveMarker data) as [made|e]; simpl; [|exact Hs].
    rewrite alloc_all_spec. simpl. split; simpl.
    + apply NoDup_seq.
    + apply Forall_forall. intros r [Hr1 Hr2]%elem_of_seq.
      rewrite length_app. lia.
Qed.

Section ReachableLive.

Variable Number_toString : float -> string.
Variable JSON_stringify : JsVal -> string.
Variable JSON_stringify_properties : Geometry -> list (string * JsVal) -> string.

Local Abbreviation handler :=
  (handler Number_toString JSON_stringify JSON_stringify_properties).
Local Abbreviation reachable :=
  (reachable Number_toString JSON_stringify JSON_stringify_properties).

Lemma handler_live_frame e L n :
  (forall net, e <> LiveTick net) -> preserves (live_frame L n) (handler e).
Proof.
  intros Hne. destruct e as [net fits|net|value|d checked| |answer|hit];
    unfold handler; simpl.
  - preserve_handler; frame_leaf.
  - now destruct (Hne net).
  - preserve_handler; frame_leaf.
  - preserve_handler; frame_leaf.
  - preserve_handler; frame_leaf.
  - preserve_handler; frame_leaf.
  - preserve_handler; frame_leaf.
Qed.

Lemma handler_live_markers_distinct e s :
  live_markers_distinct s -> live_markers_distinct (snd (handler e s)).
Proof.
  intros Hs.
  assert ((exists net, e = LiveTick net) \/ forall net, e <> LiveTick net) as [[net ->]|Hne]
    by (destruct e; eauto; right; discriminate).
  - exact (animateLiveSatellites_distinct net s Hs).
  - apply (live_markers_distinct_frame s); [exact Hs|].
    apply (handler_live_frame e _ _ Hne s). split; [reflexivity|lia].
Qed.

(** X4.  In every state the page can reach, the live array holds distinct
    references to existing feature objects. *)
Lemma reachable_live_markers_distinct page s :
  reachable page s -> live_markers_distinct s.
Proof.
  induction 1 as [|s e _ IH].
  - split; [constructor|constructor].
  - apply handler_live_markers_distinct, IH.
Qed.

End ReachableLive.

(* ================================================================== *)
(** ** Further properties of the feature factory *)
(* ================================================================== *)

Lemma get_Ok_field s k v : get s k = Ok v -> v = field s k.
Proof. destruct s; simpl; intros [= <-]; reflexivity. Qed.

Lemma get_Ok_total s k v k' : get s k = Ok v -> get s k' = Ok (field s k').
Proof. destruct s; simpl; intros [=]; reflexivity. Qed.

Lemma Number_Ok v w : Number v = Ok w -> w = JNum (ToNumber_total v).
Proof.
  unfold Number, ToNumber. destruct (toString_throws v); simpl; [discriminate|].
  now intros [= <-].
Qed.

Lemma stationFeature_Ok_inv (s : JsVal) (r : option Feature) :
  stationFeature s = Ok r ->
  exists f,
    r = Some f /\
    geometry f = Point (fromLonLat (stationLon s) (stationLat s)) /\
    getProperty f "type" = JStr "station" /\
    getProperty f "raw" = s.
Proof.
  unfold stationFeature, get_coalesce, get_or. simpl.
  destruct (get s "lon") as [lon|] eqn:Hlon; simpl; [|discriminate].
  pose proof (get_Ok_field _ _ _ Hlon) as ->.
  rewrite !(get_Ok_total s "lon" _ _ Hlon). simpl.
  destruct (Number (field s "lon" ??? field s "lng")) as [x|] eqn:Hx; simpl; [|discriminate].
  destruct (Number (field s "lat")) as [y|] eqn:Hy; simpl; [|discriminate].
  apply Number_Ok in Hx as ->. apply Number_Ok in Hy as ->. simpl.
  intros [= <-]. eexists. repeat split.
Qed.

(** X1.  Whenever the station callback returns, it returns a marker, never
    [null]: the marker stands at the projection of [Number(s.lon ?? s.lng)]
    and [Number(s.lat)], whatever these are ([NaN] for a missing or
    non-numeric field), has type [station] and keeps the record as [raw]. *)
Theorem stationFeature_always_marker (s : JsVal) (r : option Feature) :
  stationFeature s = Ok r ->
  exists f,
    r = Some f /\
    geometry f = Point (fromLonLat (stationLon s) (stationLat s)) /\
    getProperty f "type" = JStr "station" /\
    getProperty f "raw" = s.
Proof. apply stationFeature_Ok_inv. Qed.

(** X1, on the record [{name:"X", lat:10, lon:20}]. *)
Lemma stationFeature_always_marker_sample :
  exists f, stationFeature record_X = Ok (Some f) /\
            geometry f = Point (fromLonLat 20 10).
Proof.
  destruct (stationFeature record_X) as [r|] eqn:E; [|discriminate].
  destruct (stationFeature_always_marker record_X r E) as (f & -> & Hg & _).
  exists f. split; [reflexivity|]. rewrite Hg. reflexivity.
Defined.

(* ================================================================== *)
(** ** Further properties of the page's handlers *)
(* ================================================================== *)

Lemma sample_run_reachable :
  reachable silent_Number_toString silent_JSON_stringify silent_JSON_stringify_properties
    three_panels sample_run.
Proof. unfold sample_run. repeat constructor. Qed.

Lemma sample_run_reachable_by :
  reachable_by silent_Number_toString silent_JSON_stringify
    silent_JSON_stringify_properties own_value three_panels sample_run.
Proof.
  unfold sample_run. repeat (apply reach_by_step; [|reflexivity]). apply reach_by_startup.
Qed.

(** X3, on the sample run. *)
Lemma reachable_base_at_bottom_sample :
  layers sample_run = [TileLayer dark; VectorLayer 0 [0] true; VectorLayer 1 [1] true] /\
  base_at_bottom sample_run = true.
Proof.
  split; [reflexivity|].
  exact (reachable_base_at_bottom _ _ _ _ _ sample_run_reachable_by).
Defined.

(** X4, on the sample run. *)
Lemma reachable_live_markers_distinct_sample :
  liveSatFeatures sample_run = [1] /\ live_markers_distinct sample_run.
Proof.
  split; [reflexivity|].
  exact (reachable_live_markers_distinct _ _ _ _ _ sample_run_reachable).
Defined.

(** How [initMapLayers] ends, and what it has written by then. *)
Lemma initMapLayers_outcome (net : Network) (fits : bool) (s : State) :
  exists s',
    initMapLayers net fits s = (Ok tt, s') /\
    ((exists a b c,
        console s' = console s ++ [LogLayersLoaded a b c] /\
        toggleListeners s' =
          toggleListeners s ++ List.filter (has_box (dom s)) [Stations; Satellites; Orbits]) \/
     (exists e,
        console s' = console s ++ [LogError "[ERROR] initMapLayers:" e] /\
        toggleListeners s' = toggleListeners s)).
Proof.
  unfold initMapLayers, addToggleListener, try_catch, bind, lift, gets, console_push,
    modify. cbv zeta.
  destruct (get _ "stations") as [stations|]; simpl;
    [|eexists; split; [reflexivity|right; eexists; split; reflexivity]].
  destruct (array_map stationFeature _) as [stationMade|]; simpl;
    [|eexists; split; [reflexivity|right; eexists; split; reflexivity]].
  rewrite alloc_all_spec. simpl.
  destruct (array_map satFeature _) as [satMade|]; simpl;
    [|eexists; split; [reflexivity|right; eexists; split; reflexivity]].
  rewrite alloc_all_spec. simpl.
  destruct (array_map orbitFeature _) as [orbitMade|]; simpl;
    [|eexists; split; [reflexivity|right; eexists; split; reflexivity]].
  rewrite alloc_all_spec. simpl.
  assert (forall l : list nat,
            match l with
            | [] => Ok tt
            | _ :: _ => if fits then Ok tt else Throw AssertionError
            end = Ok tt \/
            match l with
            | [] => Ok tt
            | _ :: _ => if fits then Ok tt else Throw AssertionError
            end = Throw AssertionError) as Hfit
    by (intros [|? ?]; [now left|destruct fits; [now left|now right]]).
  match goal with
  | |- context [match ?l with [] => Ok tt | _ :: _ => _ end] =>
      destruct (Hfit l) as [-> | ->]
  end; simpl.
  - unfold ret.
    destruct (toggle_stations (dom s)) eqn:B1; simpl; rewrite ?B1;
      destruct (toggle_satellites (dom s)) eqn:B2; simpl; rewrite ?B2;
      destruct (toggle_orbits (dom s)) eqn:B3; simpl; rewrite ?B1, ?B2, ?B3;
      (eexists; split; [reflexivity|left; do 3 eexists; split; simpl;
                                     [reflexivity|rewrite <- ?app_assoc, ?app_nil_r; reflexivity]]).
  - eexists; split; [reflexivity|right; eexists; split; reflexivity].
Qed.

Lemma try_catch_console (body : M unit) (entry : JsError -> LogEntry) (s : State) :
  preserves (fun s' => console s' = console s) body ->
  exists s',
    try_catch body (fun err => console_push (entry err)) s = (Ok tt, s') /\
    (console s' = console s \/ exists e, console s' = console s ++ [entry e]).
Proof.
  intros Hb. specialize (Hb s eq_refl). unfold try_catch.
  destruct (body s) as [[[]|e] s1]; simpl in *.
  - eexists. split; [reflexivity|now left].
  - eexists. split; [reflexivity|]. right. exists e. simpl. now rewrite Hb.
Qed.

Lemma animateLiveSatellites_outcome (net : Network) (s : State) :
  exists s',
    animateLiveSatellites net s = (Ok tt, s') /\
    (console s' = console s \/
     exists e, console s' = console s ++ [LogWarn "[LIVE SATS] fetch failed:" e]).
Proof.
  unfold animateLiveSatellites. apply try_catch_console.
  preserve_handler;
    first [ apply preserves_modify; intros ? ?; assumption | intros ? ?; assumption ].
Qed.

Lemma triggerNDVIGeneration_outcome (answer : FetchOutcome) (s : State) :
  exists s',
    triggerNDVIGeneration answer s = (Ok tt, s') /\
    match ndvi_url_of answer with
    | Some _ =>
        console s' = console s ++ [LogInfo "[NDVI] Refreshing..."; LogInfo "[NDVI] Layer added"]
    | None =>
        exists e,
          console s' = console s ++ [LogInfo "[NDVI] Refreshing..."; LogError "[NDVI] failed:" e]
    end.
Proof.
  unfold triggerNDVIGeneration, triggerNDVIGeneration_request,
    triggerNDVIGeneration_answer, ndvi_url_of, try_catch, bind, lift, console_push,
    modify, gets.
  destruct answer as [|ok status [data|]]; simpl;
    try (eexists; split; [reflexivity|eexists; simpl; rewrite <- app_assoc; reflexivity]).
  destruct data as [| | | | | |fs]; simpl;
    try (eexists; split; [reflexivity|eexists; simpl; rewrite <- app_assoc; reflexivity]);
    try destruct (truthy (lookup_field "error" fs)); simpl;
    try destruct (toString_throws _); simpl;
    try (eexists; split; [reflexivity|eexists; simpl; rewrite <- app_assoc; reflexivity]);
    destruct (ndviLayer s); simpl;
    (eexists; split; [reflexivity|simpl; rewrite <- app_assoc; reflexivity]).
Qed.

(** X5.  The three handlers that wait for the network never let an exception
    out, and each says on the console how it ended.  [initMapLayers] writes
    one line: the summary, and then the listeners of the check boxes the page
    has were added, or the error it caught, and then none was.
    [animateLiveSatellites] writes nothing, or the warning with the error it
    caught.  A call of [triggerNDVIGeneration] writes its first line and then
    [Layer added] when it accepted the answer, the error it caught when it
    did not. *)
Theorem network_handlers_catch_and_log (net : Network) (fits : bool)
    (answer : FetchOutcome) (s : State) :
  (exists s',
     initMapLayers net fits s = (Ok tt, s') /\
     ((exists a b c,
         console s' = console s ++ [LogLayersLoaded a b c] /\
         toggleListeners s' =
           toggleListeners s ++ List.filter (has_box (dom s)) [Stations; Satellites; Orbits]) \/
      (exists e,
         console s' = console s ++ [LogError "[ERROR] initMapLayers:" e] /\
         toggleListeners s' = toggleListeners s))) /\
  (exists s',
     animateLiveSatellites net s = (Ok tt, s') /\
     (console s' = console s \/
      exists e, console s' = console s ++ [LogWarn "[LIVE SATS] fetch failed:" e])) /\
  (exists s',
     triggerNDVIGeneration answer s = (Ok tt, s') /\
     match ndvi_url_of answer with
     | Some _ =>
         console s' =
           console s ++ [LogInfo "[NDVI] Refreshing..."; LogInfo "[NDVI] Layer added"]
     | None =>
         exists e,
           console s' =
             console s ++ [LogInfo "[NDVI] Refreshing..."; LogError "[NDVI] failed:" e]
     end).
Proof.
  split; [apply initMapLayers_outcome|].
  split; [apply animateLiveSatellites_outcome|apply triggerNDVIGeneration_outcome].
Qed.

Section ClickFrame.

Variable Number_toString : float -> string.
Variable JSON_stringify : JsVal -> string.
Variable JSON_stringify_properties : Geometry -> list (string * JsVal) -> string.

Local Abbreviation click :=
  (singleclick Number_toString JSON_stringify JSON_stringify_properties).
Local Abbreviation handler :=
  (handler Number_toString JSON_stringify JSON_stringify_properties).
Local Abbreviation reachable :=
  (reachable Number_toString JSON_stringify JSON_stringify_properties).

Lemma showPanel_frame p html s :
  snd (showPanel p html s) = with_dom (dom (snd (showPanel p html s))) s /\
  forall q, present (snd (showPanel p html s)) q = present s q.
Proof.
  unfold showPanel, bind, gets, modify, lift, present. simpl.
  destruct (getElementById (dom s) p) as [el|] eqn:Hp; simpl.
  - destruct html as [h|e]; simpl; (split; [reflexivity|]); intros q;
      destruct p, q, (dom s) as [[] [] []]; simpl in *; try discriminate; reflexivity.
  - split; [now destruct s|reflexivity].
Qed.

Lemma hidden_present s q : present (with_dom (hidden (dom s)) s) q = present s q.
Proof. unfold present. simpl. rewrite hidden_element. now destruct (getElementById _ _). Qed.

(** X6.  A click on the map writes the three panels and nothing else: the
    features, the layers, the live array, the console are what they were,
    whatever was clicked and even when a panel writer throws; and no panel
    element appears or disappears. *)
Theorem click_writes_only_panels (hit : option Feature) (s : State) :
  snd (click hit s) = with_dom (dom (snd (click hit s))) s /\
  forall q, present (snd (click hit s)) q = present s q.
Proof.
  destruct hit as [f|].
  - destruct (click_on_feature Number_toString JSON_stringify
                JSON_stringify_properties f s) as (p & html & ->).
    destruct (showPanel_frame p html (with_dom (hidden (dom s)) s)) as [H1 H2].
    split; [rewrite H1 at 1; reflexivity|].
    intros q. rewrite H2. apply hidden_present.
  - replace (click None s) with (Ok tt, with_dom (hidden (dom s)) s) by reflexivity.
    split; [reflexivity|]. intros q. apply hidden_present.
Qed.

Lemma startup_no_panel_visible page : visible_count (startup page) = 0.
Proof. destruct page as [[[]|] [[]|] [[]|]]; reflexivity. Qed.

Lemma handler_one_panel e :
  preserves (fun s => visible_count s <= 1) (handler e).
Proof.
  destruct e as [net fits|net|value|d checked| |answer|hit];
    try (unfold handler; simpl; preserve_handler;
         first [ apply preserves_modify; intros ? ?; assumption
               | intros ? ?; assumption ]).
  intros s _. simpl. destruct hit as [f|].
  - destruct (click_on_feature Number_toString JSON_stringify
                JSON_stringify_properties f s) as (p & html & ->).
    apply showPanel_count.
  - replace (click None s) with (Ok tt, with_dom (hidden (dom s)) s) by reflexivity.
    unfold visible_count. cbn [snd]. rewrite !visible_hidden. simpl. lia.
Qed.

(** X7.  In every state the page can reach at most one of the three detail
    panels is visible: the script hides them when it starts, only the click
    handler writes them, and it hides all three before it shows one. *)
Theorem reachable_one_panel (page : Dom) (s : State) :
  reachable page s -> visible_count s <= 1.
Proof.
  induction 1 as [|s e _ IH].
  - rewrite startup_no_panel_visible. lia.
  - apply (handler_one_panel e s IH).
Qed.

End ClickFrame.

(** X7, on the sample run. *)
Lemma reachable_one_panel_sample : visible_count sample_run <= 1.
Proof.
  exact (reachable_one_panel _ _ _ _ _ sample_run_reachable).
Defined.

(* ================================================================== *)
(** ** Further properties of [escapeHtml] *)
(* ================================================================== *)

Lemma string_app_assoc (a b c : string) : (a +:+ b) +:+ c = a +:+ (b +:+ c).
Proof.
  unfold String.append.
  induction a as [|x a IH]; simpl; [reflexivity|]. now rewrite IH.
Qed.

Lemma string_app_cons (c : ascii) (a b : string) :
  String c a +:+ b = String c (a +:+ b).
Proof. reflexivity. Qed.

(** X8.  [escapeHtml] works character by character: the escape of a
    concatenation is the concatenation of the escapes, so text assembled from
    parts and then escaped is the same as the escaped parts joined. *)
Theorem escapeHtml_string_app (a b : string) :
  escapeHtml_string (a +:+ b) = escapeHtml_string a +:+ escapeHtml_string b.
Proof.
  induction a as [|c a IH]; [reflexivity|].
  rewrite string_app_cons, !escapeHtml_string_cons, IH.
  now rewrite string_app_assoc.
Qed.

Lemma escape_char_cases (c : ascii) :
  (c = "&"%char /\ escape_char c = "&amp;") \/
  (c = "<"%char /\ escape_char c = "&lt;") \/
  (c = ">"%char /\ escape_char c = "&gt;") \/
  (c <> "&"%char /\ c <> "<"%char /\ c <> ">"%char /\
   escape_char c = String c EmptyString).
Proof.
  unfold escape_char.
  destruct (Ascii.eqb c "&") eqn:E1; [apply Ascii.eqb_eq in E1; auto|].
  destruct (Ascii.eqb c "<") eqn:E2; [apply Ascii.eqb_eq in E2; auto|].
  destruct (Ascii.eqb c ">") eqn:E3; [apply Ascii.eqb_eq in E3; auto 6|].
  apply Ascii.eqb_neq in E1, E2, E3. auto 10.
Qed.

Lemma escapeHtml_string_inj (a : string) : forall b,
  escapeHtml_string a = escapeHtml_string b -> a = b.
Proof.
  induction a as [|c a IH]; intros [|d b].
  - reflexivity.
  - rewrite escapeHtml_string_cons.
    destruct (escape_char_cases d) as [[_ ->]|[[_ ->]|[[_ ->]|(_ & _ & _ & ->)]]];
      discriminate.
  - rewrite escapeHtml_string_cons.
    destruct (escape_char_cases c) as [[_ ->]|[[_ ->]|[[_ ->]|(_ & _ & _ & ->)]]];
      discriminate.
  - rewrite !escapeHtml_string_cons.
    destruct (escape_char_cases c) as [[-> ->]|[[-> ->]|[[-> ->]|(C1 & C2 & C3 & ->)]]];
      destruct (escape_char_cases d) as [[-> ->]|[[-> ->]|[[-> ->]|(D1 & D2 & D3 & ->)]]];
      unfold String.append; simpl; intros H;
      try discriminate H;
      try (injection H as H; f_equal; now apply IH);
      try (injection H as H0 H; congruence);
      try (injection H as H0 H; subst; f_equal; now apply IH).
Qed.

(** X9.  [escapeHtml] loses nothing: two strings have the same escaped text
    exactly when they are the same string. *)
Theorem escapeHtml_string_injective (a b : string) :
  escapeHtml_string a = escapeHtml_string b <-> a = b.
Proof.
  split; [apply escapeHtml_string_inj|now intros ->].
Qed.

Lemma escapeHtml_string_length (s : string) :
  String.length s <= String.length (escapeHtml_string s) /\
  (has_special s = true -> String.length s < String.length (escapeHtml_string s)).
Proof.
  induction s as [|c s [IH1 IH2]]; [split; [reflexivity|discriminate]|].
  rewrite escapeHtml_string_cons. simpl has_special.
  destruct (escape_char_cases c) as [[-> ->]|[[-> ->]|[[-> ->]|(C1 & C2 & C3 & ->)]]];
    unfold String.append; simpl; try (split; intros; lia).
  apply Ascii.eqb_neq in C1, C2, C3. rewrite C1, C2, C3. simpl.
  split; [lia|]. intros H. specialize (IH2 H). lia.
Qed.

(** X10.  [escapeHtml] returns its argument unchanged exactly when the
    string has none of the characters [&], [<], [>]; otherwise the result is
    strictly longer. *)
Theorem escapeHtml_string_fixed_point (s : string) :
  (escapeHtml_string s = s <-> has_special s = false) /\
  String.length s <= String.length (escapeHtml_string s).
Proof.
  split; [|apply escapeHtml_string_length]. split.
  - intros H. destruct (has_special s) eqn:E; [|reflexivity].
    apply (proj2 (escapeHtml_string_length s)) in E. rewrite H in E. lia.
  - induction s as [|c s IH]; [reflexivity|].
    simpl. intros H. rewrite escapeHtml_string_cons.
    apply orb_false_iff in H as [H Hs]. apply orb_false_iff in H as [H H3].
    apply orb_false_iff in H as [H1 H2].
    unfold escape_char. rewrite H1, H2, H3. simpl. now rewrite IH.
Qed.

(* ================================================================== *)
(** ** Further properties of the loaders *)
(* ================================================================== *)

(** X11.  [initMapLayers] adds its layers all together or not at all: either
    the layer stack, the three layer variables and the layer counter are
    untouched (a document held something the callbacks throw on), or three
    vector layers were pushed on top of the stack in the order orbits,
    stations, satellites, and the three variables name them.  The layers that
    were there stay below, in their order. *)
Theorem initMapLayers_three_layers_or_none (net : Network) (fits : bool) (s : State) :
  let s' := snd (initMapLayers net fits s) in
  let u := next_uid s in
  (layers s' = layers s /\ next_uid s' = u /\
   orbitLayer s' = orbitLayer s /\ stationLayer s' = stationLayer s /\
   satelliteLayer s' = satelliteLayer s) \/
  (exists o st sa,
     layers s' = layers s ++ [VectorLayer u o true; VectorLayer (S u) st true;
                              VectorLayer (S (S u)) sa true] /\
     next_uid s' = S (S (S u)) /\
     orbitLayer s' = Some u /\ stationLayer s' = Some (S u) /\
     satelliteLayer s' = Some (S (S u))).
Proof.
  unfold initMapLayers, addToggleListener, try_catch, bind, lift, gets, console_push,
    modify, ret. cbv zeta.
  destruct (get _ "stations") as [stations|]; simpl; [|left; repeat split].
  destruct (array_map stationFeature _) as [stationMade|]; simpl; [|left; repeat split].
  rewrite alloc_all_spec. simpl.
  destruct (array_map satFeature _) as [satMade|]; simpl; [|left; repeat split].
  rewrite alloc_all_spec. simpl.
  destruct (array_map orbitFeature _) as [orbitMade|]; simpl; [|left; repeat split].
  rewrite alloc_all_spec. simpl.
  right.
  match goal with
  | |- context [match ?l with [] => Ok tt | _ :: _ => _ end] => destruct l
  end; [|destruct fits]; simpl;
    repeat match goal with
           | |- context [if ?b then _ else _] => destruct b; simpl
           end;
    (do 3 eexists; split; [rewrite <- !app_assoc; reflexivity|repeat split]).
Qed.

Lemma loadJSON_with_empty_fallbacks net url :
  loadJSON (with_empty_fallbacks net) url =
  match loadJSON net url with
  | Ok v => Ok v
  | Throw _ => Ok (if String.eqb url "data/satnogs_results.json"
                   then JObj [("stations", JArr [])]
                   else JArr [])
  end.
Proof.
  unfold with_empty_fallbacks, loadJSON.
  destruct (net url) as [|ok status body] eqn:E; [reflexivity|].
  destruct ok; simpl; [|reflexivity].
  destruct body; reflexivity.
Qed.

(** X12.  The three documents fail independently: a document that cannot be
    fetched or parsed counts as the empty document of its kind, and the other
    two are used as they arrived.  [initMapLayers] does on a network what it
    does on the same network with every failure replaced by an empty
    document. *)
Theorem initMapLayers_failure_is_empty (net : Network) (fits : bool) (s : State) :
  initMapLayers net fits s = initMapLayers (with_empty_fallbacks net) fits s.
Proof.
  unfold initMapLayers. rewrite !loadJSON_with_empty_fallbacks. simpl.
  destruct (loadJSON net "data/satnogs_results.json");
    destruct (loadJSON net "data/tle_visible.json");
    destruct (loadJSON net "data/tle_orbits.json"); reflexivity.
Qed.

Lemma mapM_liveMarker_all d made :
  mapM liveMarker d = Ok made ->
  exists fs, made = map Some fs /\ length fs = length d /\
    forall i sat f, d !! i = Some sat -> fs !! i = Some f ->
      getProperty f "raw" = sat /\ getProperty f "type" = JStr "satellite" /\
      exists x y, geometry f = Point (fromLonLat x y).
Proof.
  revert made. induction d as [|sat d IH]; simpl; intros made.
  - intros [= <-]. exists []. split; [reflexivity|]. split; [reflexivity|].
    intros i ? ? Hi. destruct i; discriminate.
  - destruct (liveMarker sat) as [m|] eqn:Hm; simpl; [|discriminate].
    destruct (mapM liveMarker d) as [rest|]; simpl; [|discriminate].
    intros [= <-]. destruct (IH rest eq_refl) as (fs & -> & Hlen & Hfs).
    revert Hm. unfold liveMarker, get_coalesce. simpl.
    destruct (get sat "longitude") as [v0|] eqn:H0; simpl; [|discriminate].
    rewrite !(get_Ok_total sat "longitude" _ _ H0). simpl.
    match goal with
    | |- context [rbind (Number ?v) _] =>
        destruct (Number v) as [lon|] eqn:Hlon; simpl; [|discriminate]
    end.
    apply Number_inv in Hlon as [x ->].
    match goal with
    | |- context [rbind (Number ?v) _] =>
        destruct (Number v) as [lat|] eqn:Hlat; simpl; [|discriminate]
    end.
    apply Number_inv in Hlat as [y ->]. simpl.
    intros [= <-]. eexists (_ :: fs). split; [reflexivity|]. split; [simpl; lia|].
    intros [|i] sat' f Hi Hf; simpl in Hi, Hf.
    + injection Hi as <-. injection Hf as <-. repeat split. eauto.
    + eapply Hfs; eassumption.
Qed.

Lemma filter_Boolean_Some fs : filter_Boolean (map Some fs) = fs.
Proof. unfold filter_Boolean. induction fs; simpl; [reflexivity|]. now f_equal. Qed.

(** X13.  The first answer of the live feed that is an array either builds
    the live layer with exactly one live feature per entry, in the order of
    the answer, each a satellite marker that keeps its entry as [raw] (so the
    later answers match features and entries by index), or it changes
    nothing but the console (an entry was [null], or held a coordinate that
    cannot be converted). *)
Theorem first_load_one_feature_per_entry (net : Network) (s : State) (d : list JsVal) :
  liveSatLayer s = None ->
  loadJSON net live_url = Ok (JArr d) ->
  let s' := snd (animateLiveSatellites net s) in
  (exists e, s' = with_console (console s ++ [LogWarn "[LIVE SATS] fetch failed:" e]) s) \/
  (liveSatLayer s' = Some (next_uid s) /\
   length (liveSatFeatures s') = length d /\
   In (VectorLayer (next_uid s) (liveSatFeatures s') true) (layers s') /\
   forall i sat, d !! i = Some sat ->
     exists r f, liveSatFeatures s' !! i = Some r /\ heap s' !! r = Some f /\
                 getProperty f "raw" = sat /\ getProperty f "type" = JStr "satellite").
Proof.
  intros Hlayer Hload.
  unfold animateLiveSatellites, try_catch, bind, lift, gets. rewrite Hload. simpl.
  rewrite Hlayer. unfold array_map. simpl.
  destruct (mapM liveMarker d) as [made|e] eqn:Hmade; simpl; [|left; eauto].
  destruct (mapM_liveMarker_all d made Hmade) as (fs & -> & Hlen & Hfs).
  rewrite alloc_all_spec, filter_Boolean_Some. simpl. right.
  split; [reflexivity|]. split; [rewrite length_seq; exact Hlen|].
  split; [apply in_or_app; right; left; reflexivity|].
  intros i sat Hi.
  assert (i < length fs) as Hlt by (apply lookup_lt_Some in Hi; lia).
  assert (is_Some (fs !! i)) as [f Hf] by now apply lookup_lt_is_Some.
  exists (length (heap s) + i), f.
  split; [now apply lookup_seq_lt|].
  split; [rewrite lookup_app_r, Nat.add_comm, Nat.add_sub by lia; exact Hf|].
  destruct (Hfs i sat f Hi Hf) as (H1 & H2 & _). split; assumption.
Qed.

(** X13, on the page as the script leaves it and an answer with one entry. *)
Lemma first_load_one_feature_per_entry_sample :
  let s' := snd (animateLiveSatellites (answering (live_A (JNum 10))) (startup no_panels)) in
  liveSatLayer s' = Some 1 /\ length (liveSatFeatures s') = 1.
Proof.
  destruct (first_load_one_feature_per_entry (answering (live_A (JNum 10)))
              (startup no_panels) _ eq_refl eq_refl) as [[e He]|(H1 & H2 & _)].
  - vm_compute in He. discriminate He.
  - cbv zeta. split; [exact H1|exact H2].
Defined.

(* ================================================================== *)
(** ** Further properties of the detail panels *)
(* ================================================================== *)

Lemma mapM_get_index_null (i : nat) (track : list JsVal) :
  existsb nullish track = true ->
  exists e, mapM (fun pt => get_index pt i) track = Throw e.
Proof.
  induction track as [|pt track IH]; simpl; [discriminate|].
  destruct (nullish pt) eqn:Hpt; simpl.
  - intros _. destruct pt; try discriminate; simpl; eauto.
  - intros H. destruct (IH H) as [e ->].
    destruct (get_index pt i); simpl; eauto.
Qed.

Section OrbitPanel.

Variable Number_toString : float -> string.
Variable JSON_stringify : JsVal -> string.

(** X14.  The orbit panel cannot be written for a track that holds a [null]
    point: the bounding box reads [pt[0]] of every point, which throws on
    [null], although [createLine] skips such a point when it draws the line.
    The panel is then shown with the content it had before. *)
Theorem orbit_panel_null_point (props : list (string * JsVal)) (s : State) :
  existsb nullish (trackOf (lookup_field "raw" props ||| JObj []) props) = true ->
  (exists e, orbitHtml Number_toString JSON_stringify props = Throw e) /\
  getElementById (dom (snd (showOrbitInfo Number_toString JSON_stringify props s))) OrbitInfo =
    option_map (fun el => mkElement "block" (innerHTML el))
      (getElementById (dom s) OrbitInfo).
Proof.
  intros Hnull.
  assert (exists e, orbitHtml Number_toString JSON_stringify props = Throw e) as [e He].
  { unfold orbitHtml.
    destruct (trackOf _ props) as [|pt track] eqn:Ht; [discriminate|].
    change (Nat.ltb 0 (length (pt :: track))) with true. cbv iota.
    destruct (mapM_get_index_null 0 (pt :: track) Hnull) as [e ->]. simpl. eauto. }
  split; [eauto|].
  unfold showOrbitInfo, showPanel, bind, gets, modify, lift. rewrite He.
  destruct (getElementById (dom s) OrbitInfo) as [el|] eqn:Hel;
    cbn -[set_display getElementById].
  - rewrite getElementById_set_display_eq, Hel. reflexivity.
  - exact Hel.
Qed.

End OrbitPanel.

(** X14, on an orbit record with a [null] point: the line is drawn through
    the two other points, and a click on it shows the orbit panel with its
    old content. *)
Lemma orbit_panel_null_point_sample :
  exists f,
    orbitFeature orbit_with_null_point = Ok (Some f) /\
    geometry f = LineString [fromLonLat 20 10; fromLonLat 21 11] /\
    getElementById
      (dom (snd (showOrbitInfo silent_Number_toString silent_JSON_stringify
                   (properties f) (startup three_panels)))) OrbitInfo =
    Some (mkElement "block" []).
Proof.
  destruct (orbitFeature orbit_with_null_point) as [[f|]|] eqn:E; try discriminate.
  exists f. split; [reflexivity|].
  vm_compute in E. injection E as <-. split; [reflexivity|].
  destruct (orbit_panel_null_point silent_Number_toString silent_JSON_stringify
              (properties {| geometry := LineString [fromLonLat 20 10; fromLonLat 21 11];
                             properties :=
                               [("type", JStr "orbit"); ("name", JStr "ISS");
                                ("period_min", JNull); ("raw", orbit_with_null_point)];
                             style := Some (lineStyle "orange") |})
              (startup three_panels) eq_refl) as [_ H].
  exact H.
Defined.

Lemma satFeature_type s f : satFeature s = Ok (Some f) -> getProperty f "type" = JStr "satellite".
Proof.
  unfold satFeature, get_coalesce, get_or. simpl.
  destruct (get s "longitude_deg") as [v0|] eqn:H0; simpl; [|discriminate].
  rewrite !(get_Ok_total s "longitude_deg" _ _ H0). simpl.
  match goal with
  | |- context [rbind (Number ?v) _] =>
      destruct (Number v) as [lon|] eqn:Hlon; simpl; [|discriminate]
  end.
  apply Number_inv in Hlon as [x ->].
  match goal with
  | |- context [rbind (Number ?v) _] =>
      destruct (Number v) as [lat|] eqn:Hlat; simpl; [|discriminate]
  end.
  apply Number_inv in Hlat as [y ->]. simpl.
  now intros [= <-].
Qed.

Lemma liveMarker_type s f : liveMarker s = Ok (Some f) -> getProperty f "type" = JStr "satellite".
Proof.
  intros H.
  destruct (mapM_liveMarker_all [s] [Some f]) as (fs & Hfs & _ & Hall).
  { simpl. now rewrite H. }
  destruct fs as [|f' [|? ?]]; try discriminate. injection Hfs as <-.
  now destruct (Hall 0 s f eq_refl eq_refl) as (_ & Ht & _).
Qed.

Lemma orbitFeature_type o f : orbitFeature o = Ok (Some f) -> getProperty f "type" = JStr "orbit".
Proof.
  unfold orbitFeature, get_coalesce, get_or, createLine. simpl.
  destruct (get o "track") as [v0|] eqn:H0; simpl; [|discriminate].
  rewrite !(get_Ok_total o "track" _ _ H0). simpl.
  destruct (iterate _) as [pts|]; simpl; [|discriminate].
  destruct (fold_left createLine_visit pts []); [discriminate|].
  now intros [= <-].
Qed.

Lemma featureType_of_type f t :
  getProperty f "type" = JStr t -> t <> "" -> featureType f = JStr t.
Proof.
  intros H Ht. unfold featureType, or_else. rewrite H. simpl.
  destruct (String.eqb t "") eqn:E; [apply String.eqb_eq in E; contradiction|reflexivity].
Qed.

Section ClickPanels.

Variable Number_toString : float -> string.
Variable JSON_stringify : JsVal -> string.
Variable JSON_stringify_properties : Geometry -> list (string * JsVal) -> string.

Local Abbreviation click :=
  (singleclick Number_toString JSON_stringify JSON_stringify_properties).

Lemma click_panel_of_type f t s :
  featureType f = JStr t ->
  exists html,
    click (Some f) s =
    showPanel (if String.eqb t "satellite" then SatelliteInfo
               else if String.eqb t "station" || String.eqb t "ground_station"
                    then GroundStationInfo
               else if String.eqb t "orbit" then OrbitInfo
               else SatelliteInfo) html (with_dom (hidden (dom s)) s).
Proof.
  intros Ht. unfold singleclick, bind. rewrite clearViewerPanels_hidden, Ht.
  unfold showSatelliteInfo, showStationInfo, showOrbitInfo. simpl.
  destruct (String.eqb t "satellite"); [eauto|].
  destruct (String.eqb t "station" || String.eqb t "ground_station"); [eauto|].
  destruct (String.eqb t "orbit"); [eauto|].
  destruct (String.eqb t "observer"); eauto.
Qed.

(** X15.  A click on a marker opens the panel of the dataset the marker came
    from, and only that panel: the station panel for a marker made from a
    station record, the satellite panel for a marker made from a visible or
    live satellite record and for the observer's marker, the orbit panel for
    a line made from an orbit record. *)
Theorem click_opens_panel_of_dataset (rec : JsVal) (f : Feature) (s : State) :
  (stationFeature rec = Ok (Some f) ->
   shows_only GroundStationInfo s (snd (click (Some f) s))) /\
  (satFeature rec = Ok (Some f) \/ liveMarker rec = Ok (Some f) \/
   observerFeature = Some f ->
   shows_only SatelliteInfo s (snd (click (Some f) s))) /\
  (orbitFeature rec = Ok (Some f) ->
   shows_only OrbitInfo s (snd (click (Some f) s))).
Proof.
  assert (forall t, getProperty f "type" = JStr t -> t <> "" ->
            exists html,
              click (Some f) s =
              showPanel (if String.eqb t "satellite" then SatelliteInfo
                         else if String.eqb t "station" || String.eqb t "ground_station"
                              then GroundStationInfo
                         else if String.eqb t "orbit" then OrbitInfo
                         else SatelliteInfo) html (with_dom (hidden (dom s)) s)) as Hclick.
  { intros t Ht Hne. apply click_panel_of_type. now apply featureType_of_type. }
  split; [|split].
  - intros H. destruct (stationFeature_Ok_inv rec _ H) as (f' & [= <-] & _ & Ht & _).
    destruct (Hclick "station" Ht) as [html ->]; [discriminate|].
    intros q. apply showPanel_visible.
  - intros [H|[H|H]].
    + destruct (Hclick "satellite" (satFeature_type _ _ H)) as [html ->]; [discriminate|].
      intros q. apply showPanel_visible.
    + destruct (Hclick "satellite" (liveMarker_type _ _ H)) as [html ->]; [discriminate|].
      intros q. apply showPanel_visible.
    + injection H as <-.
      destruct (Hclick "observer" eq_refl) as [html ->]; [discriminate|].
      intros q. apply showPanel_visible.
  - intros H.
    destruct (Hclick "orbit" (orbitFeature_type _ _ H)) as [html ->]; [discriminate|].
    intros q. apply showPanel_visible.
Qed.

End ClickPanels.

(** X15, on the line of an orbit record and a page with the three panels. *)
Lemma click_opens_panel_of_dataset_sample :
  exists f,
    orbitFeature orbit_with_null_point = Ok (Some f) /\
    let s' := snd (singleclick silent_Number_toString silent_JSON_stringify
                     silent_JSON_stringify_properties (Some f) (startup three_panels)) in
    visible s' OrbitInfo = true /\ visible s' SatelliteInfo = false /\
    visible s' GroundStationInfo = false.
Proof.
  destruct (orbitFeature orbit_with_null_point) as [[f|]|] eqn:E; try discriminate.
  exists f. split; [reflexivity|].
  destruct (click_opens_panel_of_dataset silent_Number_toString silent_JSON_stringify
              silent_JSON_stringify_properties orbit_with_null_point f
              (startup three_panels)) as (_ & _ & H).
  specialize (H E). cbv zeta. rewrite !H. repeat split.
Defined.

(* ================================================================== *)
(** ** Property bags: [set], [setProperties], [Object.assign] *)
(* ================================================================== *)

Lemma lookup_set_field k v bag k' :
  lookup_field k' (set_field k v bag) =
  if String.eqb k' k then v else lookup_field k' bag.
Proof.
  induction bag as [|[k0 v0] bag IH]; simpl.
  - reflexivity.
  - destruct (String.eqb k k0) eqn:E; simpl.
    + apply String.eqb_eq in E as <-. now destruct (String.eqb k' k).
    + rewrite IH. destruct (String.eqb k' k0) eqn:E0; [|reflexivity].
      apply String.eqb_eq in E0 as ->.
      rewrite String.eqb_sym in E. now rewrite E.
Qed.

Lemma lookup_assign k bag : forall values,
  lookup_field k (fold_left (fun acc kv => set_field (fst kv) (snd kv) acc) values bag) =
  lookup_last k values (lookup_field k bag).
Proof.
  intros values. revert bag.
  induction values as [|[k0 v0] values IH]; intros bag; simpl; [reflexivity|].
  now rewrite IH, lookup_set_field.
Qed.

Lemma keys_set_field k v bag :
  map fst (set_field k v bag) =
  if has_field k bag then map fst bag else map fst bag ++ [k].
Proof.
  unfold has_field. induction bag as [|[k0 v0] bag IH]; simpl; [reflexivity|].
  destruct (String.eqb k k0) eqn:E; simpl.
  - apply String.eqb_eq in E as ->. reflexivity.
  - rewrite IH. now destruct (existsb _ bag).
Qed.

Lemma has_field_set_field k' k v bag :
  has_field k' (set_field k v bag) = String.eqb k' k || has_field k' bag.
Proof.
  unfold has_field. induction bag as [|[k0 v0] bag IH]; simpl.
  - reflexivity.
  - destruct (String.eqb k k0) eqn:E; simpl.
    + apply String.eqb_eq in E as <-. now destruct (String.eqb k' k).
    + rewrite IH. destruct (String.eqb k' k), (String.eqb k' k0); reflexivity.
Qed.

Lemma has_field_assign k values : forall bag,
  has_field k (assign bag values) = has_field k values || has_field k bag.
Proof.
  unfold assign. induction values as [|[k0 v0] values IH]; intros bag; simpl.
  - reflexivity.
  - rewrite IH, has_field_set_field.
    change (has_field k ((k0, v0) :: values))
      with (String.eqb k k0 || has_field k values).
    destruct (String.eqb k k0), (has_field k values), (has_field k bag); reflexivity.
Qed.

Lemma has_field_In k bag : has_field k bag = true <-> In k (map fst bag).
Proof.
  unfold has_field. rewrite existsb_exists, in_map_iff. split.
  - intros ([k0 v0] & Hin & E). apply String.eqb_eq in E. subst. exists (k0, v0). auto.
  - intros ([k0 v0] & E & Hin). simpl in E. subst. exists (k, v0).
    split; [exact Hin|apply String.eqb_refl].
Qed.

Lemma distinct_keys_set_field k v bag :
  distinct_keys bag -> distinct_keys (set_field k v bag).
Proof.
  unfold distinct_keys. intros H. rewrite keys_set_field.
  destruct (has_field k bag) eqn:E; [exact H|].
  apply NoDup_app. split; [exact H|]. split; [|apply NoDup_singleton].
  intros x Hx Hk. apply list_elem_of_In in Hx. apply list_elem_of_In in Hk.
  destruct Hk as [<-|[]].
  apply has_field_In in Hx. congruence.
Qed.

Lemma distinct_keys_assign values : forall bag,
  distinct_keys bag -> distinct_keys (assign bag values).
Proof.
  unfold assign. induction values as [|[k v] values IH]; intros bag H; simpl; [exact H|].
  apply IH, distinct_keys_set_field, H.
Qed.

Lemma lookup_last_distinct k values d :
  distinct_keys values ->
  lookup_last k values d = if has_field k values then lookup_field k values else d.
Proof.
  unfold distinct_keys. revert d.
  induction values as [|[k0 v0] values IH]; intros d H; simpl; [reflexivity|].
  apply NoDup_cons in H as [Hk0 H]. rewrite IH by exact H.
  unfold has_field. simpl.
  destruct (String.eqb k k0) eqn:E; simpl; [|reflexivity].
  apply String.eqb_eq in E as ->.
  destruct (existsb _ values) eqn:Ex; [|reflexivity].
  exfalso. apply Hk0. apply list_elem_of_In. now apply has_field_In.
Qed.

Lemma lookup_field_missing k bag :
  has_field k bag = false -> lookup_field k bag = JUndefined.
Proof.
  unfold has_field. induction bag as [|[k0 v0] bag IH]; simpl; [reflexivity|].
  destruct (String.eqb k k0); simpl; [discriminate|exact IH].
Qed.

(** A copy of a bag with distinct keys answers every key as the bag does. *)
Lemma lookup_assign_copy k bag :
  distinct_keys bag -> lookup_field k (assign [] bag) = lookup_field k bag.
Proof.
  intros H. unfold assign. rewrite lookup_assign, lookup_last_distinct by exact H.
  simpl. destruct (has_field k bag) eqn:E; [reflexivity|].
  symmetry. now apply lookup_field_missing.
Qed.

(** What [moved] does to a feature whose property bag has distinct keys. *)
Lemma moved_properties (sat : JsVal) (x y : float) (f : Feature) :
  distinct_keys (properties f) ->
  geometry (moved sat x y f) = Point (fromLonLat x y) /\
  getProperty (moved sat x y f) "raw" = sat /\
  (forall k, k <> "raw" -> getProperty (moved sat x y f) k = getProperty f k) /\
  (forall c, geometry f = Point c -> featureType (moved sat x y f) = featureType f) /\
  distinct_keys (properties (moved sat x y f)).
Proof.
  intros H.
  assert (forall k, getProperty (moved sat x y f) k =
                    if String.eqb k "raw" then sat else getProperty f k) as Hget.
  { intros k. unfold getProperty, moved. simpl. unfold assign at 1.
    rewrite lookup_assign.
    assert (distinct_keys (assign (assign [] (properties f)) [("raw", sat)])) as Hd
      by (apply distinct_keys_assign, distinct_keys_assign; constructor).
    rewrite lookup_last_distinct by exact Hd.
    change (assign (assign [] (properties f)) [("raw", sat)])
      with (set_field "raw" sat (assign [] (properties f))).
    rewrite has_field_set_field, lookup_set_field, has_field_assign.
    rewrite lookup_assign_copy by exact H.
    destruct (String.eqb k "raw"); simpl; [reflexivity|].
    now destruct (has_field k (properties f)). }
  split; [reflexivity|]. split; [apply Hget|]. split.
  - intros k Hk. rewrite Hget.
    destruct (String.eqb k "raw") eqn:E; [apply String.eqb_eq in E; contradiction|reflexivity].
  - split.
    + intros c Hc. unfold featureType. rewrite !Hget, Hc. reflexivity.
    + unfold moved. simpl. apply distinct_keys_assign, H.
Qed.

Lemma createMarker_distinct_keys lon lat color label props f :
  createMarker lon lat color label props = Some f -> distinct_keys (properties f).
Proof.
  unfold createMarker. destruct lon; try discriminate. destruct lat; try discriminate.
  intros [= <-]. simpl. apply distinct_keys_assign.
  unfold distinct_keys. simpl. apply NoDup_singleton.
Qed.

(** X16.  One turn of the live updater's loop, for an entry with numeric
    coordinates and an existing live feature whose property bag has distinct
    keys (as every bag the script builds has): the turn ends normally, the
    feature then stands at the projection of the new coordinates, its [raw] is
    the new entry, and every other property ([type], [name], [id]) keeps its
    value, so a marker is still a satellite for the click handler; the bag's
    keys stay distinct.  No other feature and nothing else of the state is
    written. *)
Theorem live_update_keeps_other_properties (sat : JsVal) (i r : nat) (x y : float)
    (f : Feature) (s : State) :
  liveSatFeatures s !! i = Some r ->
  heap s !! r = Some f ->
  distinct_keys (properties f) ->
  liveCoords sat = Some (x, y) ->
  exists s' f',
    moveLiveSatellite sat i s = (Ok tt, s') /\
    heap s' !! r = Some f' /\
    geometry f' = Point (fromLonLat x y) /\
    getProperty f' "raw" = sat /\
    (forall k, k <> "raw" -> getProperty f' k = getProperty f k) /\
    (forall c, geometry f = Point c -> featureType f' = featureType f) /\
    distinct_keys (properties f') /\
    s' = with_heap (heap s') s /\
    (forall r', r' <> r -> heap s' !! r' = heap s !! r').
Proof.
  intros Hi Hr Hd Hc.
  destruct (moved_properties sat x y f Hd) as (H1 & H2 & H3 & H4 & H5).
  exists (with_heap (alter (moved sat x y) r (heap s)) s), (moved sat x y f).
  split; [rewrite (moveLiveSatellite_numeric sat i s x y Hc), Hi; reflexivity|].
  split; [simpl; now rewrite list_lookup_alter_eq, Hr|].
  split; [exact H1|]. split; [exact H2|]. split; [exact H3|]. split; [exact H4|].
  split; [exact H5|]. split; [reflexivity|].
  intros r' Hne. simpl. now rewrite list_lookup_alter_ne by congruence.
Qed.

(** X16, on the page after the feed's first answer [[{name:"A", lat:10,
    lon:20}]]: the turn for the entry [{name:"A", lat:11, lon:21}] moves the
    live marker, which is still a satellite. *)
Lemma live_update_keeps_other_properties_sample :
  let s1 := snd (animateLiveSatellites (answering (live_A (JNum 10))) (startup no_panels)) in
  let entry := JObj [("name", JStr "A"); ("lat", JNum 11); ("lon", JNum 21)] in
  liveSatFeatures s1 = [1] /\
  exists s' f',
    moveLiveSatellite entry 0 s1 = (Ok tt, s') /\
    heap s' !! 1 = Some f' /\
    geometry f' = Point (fromLonLat 21 11) /\
    getProperty f' "raw" = entry /\
    getProperty f' "type" = JStr "satellite".
Proof.
  cbv zeta.
  assert (liveSatFeatures
            (snd (animateLiveSatellites (answering (live_A (JNum 10))) (startup no_panels)))
          = [1]) as HL by (vm_compute; reflexivity).
  split; [exact HL|].
  destruct (heap (snd (animateLiveSatellites (answering (live_A (JNum 10)))
                         (startup no_panels))) !! 1) as [f|] eqn:E;
    [|vm_compute in E; discriminate].
  assert (getProperty f "type" = JStr "satellite" /\ distinct_keys (properties f))
    as [Ht Hd].
  { vm_compute in E. injection E as <-. split; [reflexivity|].
    apply NoDup_ListNoDup.
    repeat (constructor;
            [intros H; simpl in H;
             repeat (destruct H as [H|H]; [discriminate H|]); exact H|]).
    constructor. }
  destruct (live_update_keeps_other_properties
              (JObj [("name", JStr "A"); ("lat", JNum 11); ("lon", JNum 21)])
              0 1 21 11 f _ (eq_trans (f_equal (fun l => l !! 0) HL) eq_refl) E Hd eq_refl)
    as (s' & f' & H1 & H2 & H3 & H4 & H5 & _).
  exists s', f'. split; [exact H1|]. split; [exact H2|]. split; [exact H3|].
  split; [exact H4|]. rewrite H5 by discriminate. exact Ht.
Defined.

Lemma numbers_of_skip v vs :
  is_number v = false -> numbers_of (v :: vs) = numbers_of vs.
Proof. destruct v; try discriminate; reflexivity. Qed.

Lemma readLatLon_raw props fs :
  lookup_field "raw" props = JObj fs ->
  readLatLon props =
  (head (numbers_of
           [lookup_field "latitude" fs; lookup_field "latitude_deg" fs;
            lookup_field "lat" fs; lookup_field "lat_deg" fs;
            lookup_field "latitude" props; lookup_field "latitude_deg" props;
            lookup_field "lat" props; lookup_field "lat_deg" props]),
   head (numbers_of
           [lookup_field "longitude" fs; lookup_field "longitude_deg" fs;
            lookup_field "lon" fs; lookup_field "lon_deg" fs;
            lookup_field "lng" fs; lookup_field "lng_deg" fs;
            lookup_field "longitude" props; lookup_field "longitude_deg" props;
            lookup_field "lon" props; lookup_field "lon_deg" props;
            lookup_field "lng" props])).
Proof. intros H. unfold readLatLon. rewrite H. reflexivity. Qed.

(** X17.  For a station record that gives its position as numbers under
    [lat] and [lon], and has no number under [latitude], [latitude_deg],
    [longitude], [longitude_deg] (which the panel would prefer), the station
    panel reads back from the marker the coordinates the marker stands at. *)
Theorem station_panel_reads_marker_position (fs : list (string * JsVal)) (x y : float) :
  lookup_field "lat" fs = JNum y ->
  lookup_field "lon" fs = JNum x ->
  is_number (lookup_field "latitude" fs) = false ->
  is_number (lookup_field "latitude_deg" fs) = false ->
  is_number (lookup_field "longitude" fs) = false ->
  is_number (lookup_field "longitude_deg" fs) = false ->
  exists f,
    stationFeature (JObj fs) = Ok (Some f) /\
    geometry f = Point (fromLonLat x y) /\
    readLatLon (properties f) = (Some y, Some x).
Proof.
  intros Hlat Hlon H1 H2 H3 H4.
  unfold stationFeature, get_coalesce, get_or. simpl. rewrite Hlat, Hlon. simpl.
  eexists. split; [reflexivity|]. split; [reflexivity|].
  erewrite (readLatLon_raw _ fs) by reflexivity.
  rewrite (numbers_of_skip _ _ H1), (numbers_of_skip _ _ H2), Hlat.
  rewrite (numbers_of_skip _ _ H3), (numbers_of_skip _ _ H4), Hlon. reflexivity.
Qed.

(** X17, on the record [{name:"X", lat:10, lon:20}]. *)
Lemma station_panel_reads_marker_position_sample :
  exists f,
    stationFeature record_X = Ok (Some f) /\
    readLatLon (properties f) = (Some 10%float, Some 20%float).
Proof.
  destruct (station_panel_reads_marker_position
              [("name", JStr "X"); ("lat", JNum 10); ("lon", JNum 20)] 20 10
              eq_refl eq_refl eq_refl eq_refl eq_refl eq_refl) as (f & H1 & _ & H3).
  exists f. split; [exact H1|exact H3].
Defined.

(* ================================================================== *)
(** ** The layer stack: identities, the NDVI overlay, the check boxes *)
(* ================================================================== *)

Lemma image_uids_layer_uids ls u : In u (image_uids ls) -> In u (layer_uids ls).
Proof.
  unfold image_uids, layer_uids.
  induction ls as [|[b|v src vis|v url|nm] ls IH]; simpl; auto.
  intros [->|H]; auto.
Qed.

Lemma filter_no_image ls :
  image_uids ls = [] -> List.filter (fun l => negb (is_image l)) ls = ls.
Proof.
  unfold image_uids.
  induction ls as [|[b|v src vis|v url|nm] ls IH]; simpl; intros H;
    try discriminate; try (f_equal; auto).
Qed.

Lemma remove_image_layer ls u :
  NoDup (layer_uids ls) -> image_uids ls = [u] ->
  collection_remove (has_uid u) ls = List.filter (fun l => negb (is_image l)) ls.
Proof.
  induction ls as [|[b|v src vis|v url|nm] ls IH]; simpl; intros Hnd Himg.
  - discriminate.
  - f_equal. now apply IH.
  - unfold layer_uids in Hnd. simpl in Hnd. apply NoDup_cons in Hnd as [Hv Hnd].
    destruct (Nat.eqb u v) eqn:E.
    + apply Nat.eqb_eq in E as ->. exfalso. apply Hv, list_elem_of_In.
      apply image_uids_layer_uids. unfold image_uids in *. simpl in Himg.
      rewrite Himg. now left.
    + f_equal. now apply IH.
  - unfold image_uids in Himg. simpl in Himg. injection Himg as -> Himg.
    rewrite Nat.eqb_refl. symmetry. now apply filter_no_image.
  - f_equal. now apply IH.
Qed.

Lemma layer_uids_filter_In (P : Layer -> bool) ls u :
  In u (layer_uids (List.filter P ls)) -> In u (layer_uids ls).
Proof.
  unfold layer_uids. induction ls as [|l ls IH]; simpl; [auto|].
  destruct (P l); simpl; destruct (layer_uid l); simpl; intuition.
Qed.

Lemma layer_uids_filter_NoDup (P : Layer -> bool) ls :
  NoDup (layer_uids ls) -> NoDup (layer_uids (List.filter P ls)).
Proof.
  induction ls as [|l ls IH]; simpl; [auto|]. unfold layer_uids in *. simpl.
  destruct (layer_uid l) as [u|] eqn:E; simpl.
  - intros [Hu Hnd]%NoDup_cons. destruct (P l); simpl; [|auto].
    rewrite E. apply NoDup_cons. split; [|auto].
    intros Hin. apply Hu. apply list_elem_of_In. apply list_elem_of_In in Hin.
    now apply (layer_uids_filter_In P).
  - intros Hnd. destruct (P l); simpl; [rewrite E|]; auto.
Qed.

Lemma image_uids_filter ls :
  image_uids (List.filter (fun l => negb (is_image l)) ls) = [].
Proof.
  unfold image_uids. induction ls as [|[b|v src vis|v url|nm] ls IH]; simpl; auto.
Qed.

Lemma layer_uids_app a b : layer_uids (a ++ b) = layer_uids a ++ layer_uids b.
Proof. unfold layer_uids. apply omap_app. Qed.

Lemma image_uids_app a b : image_uids (a ++ b) = image_uids a ++ image_uids b.
Proof. unfold image_uids. apply omap_app. Qed.

Lemma uids_remove_base c ls :
  layer_uids (collection_remove (is_base c) ls) = layer_uids ls /\
  image_uids (collection_remove (is_base c) ls) = image_uids ls.
Proof.
  unfold layer_uids, image_uids.
  induction ls as [|l ls [IH1 IH2]]; simpl; auto.
  destruct (is_base c l) eqn:E.
  - destruct c, l; try discriminate; simpl; auto.
  - destruct l; simpl; (split; first [assumption | f_equal; assumption]).
Qed.

Lemma uids_setVisible u b ls :
  layer_uids (map (setVisible u b) ls) = layer_uids ls /\
  image_uids (map (setVisible u b) ls) = image_uids ls.
Proof.
  unfold layer_uids, image_uids.
  induction ls as [|[c|v src vis|v url|nm] ls [IH1 IH2]]; simpl; auto.
  - destruct (Nat.eqb u v); simpl; (split; [f_equal; exact IH1|exact IH2]).
  - split; f_equal; assumption.
Qed.

Lemma layers_wf_push s l u :
  layer_uid l = Some u -> is_image l = false -> u = next_uid s ->
  layers_wf s ->
  layers_wf (with_next_uid (S u) (with_layers (layers s ++ [l]) s)).
Proof.
  intros Hl Hi -> (Hnd & Hlt & Himg). unfold layers_wf. simpl.
  rewrite layer_uids_app, image_uids_app. unfold layer_uids at 2 4, image_uids at 2.
  simpl. rewrite Hl. simpl. split; [|split].
  - apply NoDup_app. split; [exact Hnd|]. split; [|apply NoDup_singleton].
    intros x Hx Hx'. apply list_elem_of_In in Hx'. destruct Hx' as [<-|[]].
    rewrite Forall_forall in Hlt. specialize (Hlt _ Hx). lia.
  - apply Forall_app. split; [|repeat constructor; lia].
    eapply Forall_impl; [exact Hlt|]. simpl. intros. lia.
  - destruct l; try discriminate; simpl; now rewrite app_nil_r.
Qed.

(** What the NDVI handler leaves. *)
Lemma triggerNDVIGeneration_answer_result answer s :
  let s' := snd (triggerNDVIGeneration_answer answer s) in
  match ndvi_url_of answer with
  | Some url =>
      layers s' =
        match ndviLayer s with
        | Some u => collection_remove (has_uid u) (layers s)
        | None => layers s
        end ++ [ImageLayer (next_uid s) url] /\
      ndviLayer s' = Some (next_uid s) /\ next_uid s' = S (next_uid s)
  | None =>
      layers s' = layers s /\ ndviLayer s' = ndviLayer s /\ next_uid s' = next_uid s
  end.
Proof.
  unfold triggerNDVIGeneration_answer, ndvi_url_of, try_catch, bind, lift,
    console_push, modify, gets.
  destruct answer as [|ok status [data|]]; simpl; [repeat split| |repeat split].
  destruct data as [| | | | | |fs]; simpl; try (repeat split; fail);
    try destruct (truthy (lookup_field "error" fs)); simpl;
    try destruct (toString_throws _); simpl;
    destruct (ndviLayer s); simpl; repeat split.
Qed.

Lemma ndvi_layers_replaced s :
  layers_wf s ->
  match ndviLayer s with
  | Some u => collection_remove (has_uid u) (layers s)
  | None => layers s
  end = List.filter (fun l => negb (is_image l)) (layers s).
Proof.
  intros (Hnd & _ & Himg). destruct (ndviLayer s) as [u|].
  - now apply remove_image_layer.
  - symmetry. now apply filter_no_image.
Qed.

Lemma triggerNDVIGeneration_answer_wf answer s :
  layers_wf s -> layers_wf (snd (triggerNDVIGeneration_answer answer s)).
Proof.
  intros Hwf. pose proof (triggerNDVIGeneration_answer_result answer s) as H.
  pose proof (ndvi_layers_replaced s Hwf) as Hrep.
  destruct Hwf as (Hnd & Hlt & Himg). cbv zeta in H.
  unfold layers_wf.
  destruct (ndvi_url_of answer) as [url|].
  - destruct H as (-> & -> & ->). rewrite Hrep.
    rewrite layer_uids_app, image_uids_app, image_uids_filter.
    unfold layer_uids at 2 4. simpl. split; [|split; [|reflexivity]].
    + apply NoDup_app. split; [now apply layer_uids_filter_NoDup|].
      split; [|apply NoDup_singleton].
      intros x Hx Hx'. apply list_elem_of_In in Hx'. destruct Hx' as [<-|[]].
      apply list_elem_of_In, layer_uids_filter_In in Hx.
      rewrite Forall_forall in Hlt. apply list_elem_of_In in Hx.
      specialize (Hlt _ Hx). lia.
    + apply Forall_app. split; [|repeat constructor; lia].
      apply Forall_forall. intros x Hx.
      apply list_elem_of_In, layer_uids_filter_In, list_elem_of_In in Hx.
      rewrite Forall_forall in Hlt. specialize (Hlt _ Hx). lia.
  - destruct H as (-> & -> & ->). auto.
Qed.

(** A whole call: the first line of the log, then the answer. *)
Lemma triggerNDVIGeneration_result answer s :
  let s' := snd (triggerNDVIGeneration answer s) in
  match ndvi_url_of answer with
  | Some url =>
      layers s' =
        match ndviLayer s with
        | Some u => collection_remove (has_uid u) (layers s)
        | None => layers s
        end ++ [ImageLayer (next_uid s) url] /\
      ndviLayer s' = Some (next_uid s) /\ next_uid s' = S (next_uid s)
  | None =>
      layers s' = layers s /\ ndviLayer s' = ndviLayer s /\ next_uid s' = next_uid s
  end.
Proof.
  exact (triggerNDVIGeneration_answer_result answer
           (with_console (console s ++ [LogInfo "[NDVI] Refreshing..."]) s)).
Qed.

Lemma triggerNDVIGeneration_wf answer s :
  layers_wf s -> layers_wf (snd (triggerNDVIGeneration answer s)).
Proof.
  intros Hwf.
  exact (triggerNDVIGeneration_answer_wf answer
           (with_console (console s ++ [LogInfo "[NDVI] Refreshing..."]) s) Hwf).
Qed.

(** X18.  Refreshing the NDVI overlay never stacks overlays.  In a state
    whose layers are distinct objects with at most the one image layer
    [window.ndviLayer] names (every reachable state is one), an answer the
    handler accepts leaves exactly one image layer, the new one, on top of
    the stack, the other layers staying in their order; an answer it does
    not accept (the request failed, the body is not JSON or is [null], or it
    has a truthy [error]) leaves the stack as it is. *)
Theorem ndvi_refresh_replaces_overlay (answer : FetchOutcome) (s : State) :
  layers_wf s ->
  let s' := snd (triggerNDVIGeneration answer s) in
  match ndvi_url_of answer with
  | Some url =>
      layers s' = List.filter (fun l => negb (is_image l)) (layers s)
                  ++ [ImageLayer (next_uid s) url] /\
      image_uids (layers s') = [next_uid s] /\
      ndviLayer s' = Some (next_uid s)
  | None => layers s' = layers s /\ ndviLayer s' = ndviLayer s
  end.
Proof.
  intros Hwf. pose proof (triggerNDVIGeneration_result answer s) as H.
  pose proof (ndvi_layers_replaced s Hwf) as Hrep. cbv zeta in *.
  destruct (ndvi_url_of answer) as [url|].
  - destruct H as (H1 & H2 & _). rewrite Hrep in H1. rewrite H1.
    split; [reflexivity|]. split; [|exact H2].
    rewrite image_uids_app, image_uids_filter. reflexivity.
  - destruct H as (H1 & H2 & _). auto.
Qed.

Ltac wf_leaf :=
  first
    [ apply preserves_modify; intros ? ?;
      first [ assumption
            | match goal with
              | H : layers_wf ?s |- layers_wf (with_layers (map (setVisible ?u ?b) _) ?s) =>
                  destruct H as (? & ? & ?); unfold layers_wf; simpl;
                  destruct (uids_setVisible u b (layers s)) as [-> ->]; auto
              end ]
    | intros ? ?;
      first [ assumption
            | apply layers_wf_push; [reflexivity|reflexivity|reflexivity|assumption] ] ].

Lemma layers_wf_remove_base v s :
  layers_wf s -> layers_wf (with_layers (collection_remove (is_base v) (layers s)) s).
Proof.
  intros (Hnd & Hlt & Himg). unfold layers_wf. simpl.
  destruct (uids_remove_base v (layers s)) as [-> ->]. auto.
Qed.

Lemma layers_wf_insert_base l s :
  is_overlay l = false -> layers_wf s -> layers_wf (with_layers (l :: layers s) s).
Proof.
  intros Hl Hwf. destruct l; try discriminate; exact Hwf.
Qed.

Lemma basemapChange_wf value : preserves layers_wf (basemapChange value).
Proof.
  preserve_handler;
    first [ apply preserves_modify; intros ? ?;
            first [ assumption
                  | apply layers_wf_remove_base; assumption
                  | apply layers_wf_insert_base; [reflexivity|assumption] ]
          | intros ? ?; assumption ].
Qed.

Section ReachableLayers.

Variable Number_toString : float -> string.
Variable JSON_stringify : JsVal -> string.
Variable JSON_stringify_properties : Geometry -> list (string * JsVal) -> string.

Local Abbreviation handler :=
  (handler Number_toString JSON_stringify JSON_stringify_properties).
Local Abbreviation reachable :=
  (reachable Number_toString JSON_stringify JSON_stringify_properties).

Lemma handler_layers_wf e : preserves layers_wf (handler e).
Proof.
  destruct e as [net fits|net|value|d checked| |answer|hit]; unfold handler; simpl.
  - preserve_handler; wf_leaf.
  - preserve_handler; wf_leaf.
  - apply basemapChange_wf.
  - preserve_handler; wf_leaf.
  - preserve_handler; wf_leaf.
  - intros s. apply triggerNDVIGeneration_answer_wf.
  - preserve_handler; wf_leaf.
Qed.

(** X19.  In every state the page can reach, the vector and image layers of
    the map are distinct objects, and the map holds at most one image layer:
    the one [window.ndviLayer] names. *)
Theorem reachable_layers_wf (page : Dom) (s : State) :
  reachable page s -> layers_wf s.
Proof.
  induction 1 as [|s e _ IH].
  - unfold layers_wf. simpl. split; [|split; [|reflexivity]].
    + apply NoDup_singleton.
    + repeat constructor.
  - apply (handler_layers_wf e s IH).
Qed.

End ReachableLayers.

(** X19, on the sample run. *)
Lemma reachable_layers_wf_sample :
  layer_uids (layers sample_run) = [0; 1] /\ layers_wf sample_run.
Proof.
  split; [reflexivity|].
  exact (reachable_layers_wf _ _ _ _ _ sample_run_reachable).
Defined.

Lemma sample_run_layers_wf : layers_wf sample_run.
Proof.
  unfold layers_wf. change (layer_uids (layers sample_run)) with [0; 1].
  split; [|split; [|reflexivity]].
  - apply NoDup_ListNoDup. repeat (constructor; [simpl; lia|]). constructor.
  - change (next_uid sample_run) with 2. repeat constructor.
Qed.

(** X18, on the sample run: two answers in a row leave one overlay. *)
Lemma ndvi_refresh_replaces_overlay_sample :
  let first := Response true 200 (Some (JObj [("ndvi_url", JStr "a.png")])) in
  let second := Response true 200 (Some (JObj [("ndvi_url", JStr "b.png")])) in
  let s1 := snd (triggerNDVIGeneration first sample_run) in
  let s2 := snd (triggerNDVIGeneration second s1) in
  layers s2 = [TileLayer dark; VectorLayer 0 [0] true; VectorLayer 1 [1] true;
               ImageLayer 3 (JStr "b.png")].
Proof.
  cbv zeta.
  pose proof (triggerNDVIGeneration_wf
                (Response true 200 (Some (JObj [("ndvi_url", JStr "a.png")]))) sample_run
                sample_run_layers_wf) as Hwf.
  destruct (ndvi_refresh_replaces_overlay
              (Response true 200 (Some (JObj [("ndvi_url", JStr "b.png")]))) _ Hwf)
    as (H & _).
  rewrite H. reflexivity.
Defined.

Lemma lookup_map {A B} (f : A -> B) (l : list A) : forall i,
  map f l !! i = option_map f (l !! i).
Proof.
  induction l as [|a l IH]; intros [|i]; simpl; auto.
Qed.

Lemma same_uid_same_index ls : forall i j a b u,
  NoDup (layer_uids ls) ->
  ls !! i = Some a -> ls !! j = Some b ->
  layer_uid a = Some u -> layer_uid b = Some u -> i = j.
Proof.
  unfold layer_uids.
  induction ls as [|l ls IH]; intros i j a b u Hnd Hi Hj Ha Hb; [destruct i; discriminate|].
  assert (forall k c, ls !! k = Some c -> layer_uid c = Some u -> In u (omap layer_uid ls))
    as Hin.
  { clear. induction ls as [|l ls IH]; intros [|k] c Hk Hc; simpl in *; try discriminate.
    - injection Hk as ->. rewrite Hc. now left.
    - destruct (layer_uid l); [right|]; eapply IH; eassumption. }
  simpl in Hnd.
  destruct i as [|i], j as [|j]; simpl in Hi, Hj.
  - reflexivity.
  - injection Hi as ->. rewrite Ha in Hnd. apply NoDup_cons in Hnd as [Hu _].
    exfalso. apply Hu, list_elem_of_In. eapply Hin; eassumption.
  - injection Hj as ->. rewrite Hb in Hnd. apply NoDup_cons in Hnd as [Hu _].
    exfalso. apply Hu, list_elem_of_In. eapply Hin; eassumption.
  - f_equal. eapply IH; try eassumption.
    destruct (layer_uid l); [now apply NoDup_cons in Hnd as [_ Hnd]|exact Hnd].
Qed.

Lemma setVisible_twice u b l : setVisible u b (setVisible u b l) = setVisible u b l.
Proof.
  destruct l as [| u' src v| |]; simpl; try reflexivity.
  destruct (Nat.eqb u u') eqn:E; simpl; now rewrite E.
Qed.

(** The listeners of a box all do the same: after the first the others change
    nothing. *)
Lemma dispatchChange_result (d : Dataset) (checked : bool) (u : nat) (ls : list Dataset) :
  forall s, datasetLayer d s = Some u ->
  dispatchChange ls d checked s =
  (Ok tt, if existsb (fun d' => Dataset_eqb d' d) ls
          then with_layers (map (setVisible u checked) (layers s)) s
          else s).
Proof.
  induction ls as [|d' ls IH]; intros s Hu; [reflexivity|].
  simpl. unfold bind. destruct (Dataset_eqb d' d); simpl.
  - unfold try_catch, onToggle, bind, gets, modify. rewrite Hu. simpl.
    rewrite IH by (destruct d; exact Hu). simpl.
    rewrite map_map.
    rewrite (map_ext _ (setVisible u checked)) by (intros l; apply setVisible_twice).
    now destruct (existsb _ ls).
  - unfold ret. now rewrite IH.
Qed.

(** X20.  A check box changes the visibility of its dataset's layer and
    nothing else, and only when its listener was added.  In a state whose
    layers are distinct objects and where the dataset's variable names the
    vector layer at index [i], a change of the box ends normally and leaves
    that layer visible exactly when the box is checked (its source unchanged)
    if [initMapLayers] got as far as adding the listener, and as it was if it
    did not; every other layer and the rest of the state are untouched. *)
Theorem toggle_changes_one_layer (d : Dataset) (checked : bool) (s : State)
    (u i : nat) (src : list nat) (v : bool) :
  layers_wf s ->
  datasetLayer d s = Some u ->
  layers s !! i = Some (VectorLayer u src v) ->
  let s' := snd (toggleLayer d checked s) in
  fst (toggleLayer d checked s) = Ok tt /\
  s' = with_layers (layers s') s /\
  layers s' !! i = Some (VectorLayer u src (if listens d s then checked else v)) /\
  (forall j, j <> i -> layers s' !! j = layers s !! j).
Proof.
  intros (Hnd & _ & _) Hu Hi. cbv zeta.
  unfold toggleLayer, bind, gets. simpl.
  rewrite (dispatchChange_result d checked u _ s Hu). unfold listens.
  destruct (existsb _ (toggleListeners s)); simpl.
  - split; [reflexivity|]. split; [reflexivity|]. split.
    + rewrite lookup_map, Hi. simpl. now rewrite Nat.eqb_refl.
    + intros j Hj. rewrite lookup_map.
      destruct (layers s !! j) as [l|] eqn:El; simpl; [|reflexivity].
      f_equal. destruct l as [| u' src' v'| |]; simpl; try reflexivity.
      destruct (Nat.eqb u u') eqn:E; [|reflexivity].
      apply Nat.eqb_eq in E as <-. exfalso. apply Hj.
      exact (same_uid_same_index (layers s) j i _ _ u Hnd El Hi eq_refl eq_refl).
  - split; [reflexivity|]. split; [now destruct s|]. split; [exact Hi|reflexivity].
Qed.

(** X20, on a page with the three check boxes.  Once the three documents have
    failed to load, the listeners are there and the stations box hides the
    (empty) stations layer.  When the stations document has arrived and the
    view refused to fit its extent, no listener was added and the box leaves
    the layer visible. *)
Lemma toggle_changes_one_layer_sample :
  let s := snd (initMapLayers offline true (startup full_page)) in
  let t := snd (initMapLayers stations_only false (startup full_page)) in
  (layers s !! 3 = Some (VectorLayer 2 [] true) /\
   layers (snd (toggleLayer Stations false s)) !! 3 = Some (VectorLayer 2 [] false)) /\
  (layers t !! 3 = Some (VectorLayer 2 [1] true) /\
   layers (snd (toggleLayer Stations false t)) !! 3 = Some (VectorLayer 2 [1] true)).
Proof.
  assert (forall s : State,
            layer_uids (layers s) = [0; 1; 2; 3] -> next_uid s = 4 -> ndviLayer s = None ->
            image_uids (layers s) = [] -> layers_wf s) as Hwf.
  { intros s Hl Hn Hv Hi. unfold layers_wf. rewrite Hl, Hn, Hv, Hi.
    split; [|split; [|reflexivity]].
    - apply NoDup_ListNoDup. repeat (constructor; [simpl; lia|]). constructor.
    - repeat constructor. }
  cbv zeta. split.
  - assert (layers (snd (initMapLayers offline true (startup full_page))) !! 3 =
            Some (VectorLayer 2 [] true)) as H3 by (vm_compute; reflexivity).
    destruct (toggle_changes_one_layer Stations false
                (snd (initMapLayers offline true (startup full_page))) 2 3 [] true)
      as (_ & _ & H & _);
      [apply Hwf; vm_compute; reflexivity|vm_compute; reflexivity|exact H3|].
    split; [exact H3|]. rewrite H. vm_compute. reflexivity.
  - assert (layers (snd (initMapLayers stations_only false (startup full_page))) !! 3 =
            Some (VectorLayer 2 [1] true)) as H3 by (vm_compute; reflexivity).
    destruct (toggle_changes_one_layer Stations false
                (snd (initMapLayers stations_only false (startup full_page))) 2 3 [1] true)
      as (_ & _ & H & _);
      [apply Hwf; vm_compute; reflexivity|vm_compute; reflexivity|exact H3|].
    split; [exact H3|]. rewrite H. vm_compute. reflexivity.
Defined.

(* ================================================================== *)
(** ** The basemap switcher on the values of the table *)
(* ================================================================== *)

(** X24.  The selector's change handler, for a value that is a key of the
    table or names nothing at all (not a member the table inherits from
    [Object.prototype]), in a state where the current base layer is the
    bottom layer and the only tile layer: the handler ends normally, removes
    that one layer and inserts the tile layer of the chosen basemap ([osm]
    for a value that is no key) at index 0; the layers above are the same, in
    the same order, the stack has as many layers as before, and the new base
    layer is again the bottom and only tile layer. *)
Theorem basemap_change_keeps_overlays (value : string) (s : State) :
  inherited value = false ->
  base_at_bottom s = true ->
  let s' := snd (basemapChange value s) in
  fst (basemapChange value s) = Ok tt /\
  (exists b, currentBaseLayer s = Tile b /\ layers s = TileLayer b :: overlays s) /\
  layers s' = TileLayer (chosen value) :: overlays s /\
  currentBaseLayer s' = Tile (chosen value) /\
  overlays s' = overlays s /\
  length (layers s') = length (layers s) /\
  base_at_bottom s' = true.
Proof.
  intros Hv H. destruct (base_at_bottom_inv s H) as (b & rest & Hc & Hl & Hrest).
  assert (overlays s = rest) as Hov.
  { unfold overlays. rewrite Hl. simpl. now apply filter_overlays. }
  destruct (basemapChange_layers value s b rest Hv Hc Hl) as (Hok & Hl' & Hc').
  cbv zeta. rewrite Hov.
  split; [exact Hok|]. split; [exists b; split; [exact Hc|exact Hl]|].
  split; [exact Hl'|]. split; [exact Hc'|].
  split; [unfold overlays; rewrite Hl'; simpl; now apply filter_overlays|].
  split; [now rewrite Hl', Hl|].
  now apply basemapChange_base_at_bottom.
Qed.

(** X24, on a sample: choosing [sat], then a value that is no key, on the
    page as the script leaves it. *)
Lemma basemap_change_keeps_overlays_sample :
  let s := startup no_panels in
  let s' := snd (basemapChange "sat" s) in
  let s'' := snd (basemapChange "terrain" s') in
  layers s = [TileLayer osm; VectorLayer 0 [0] true] /\
  layers s' = [TileLayer sat; VectorLayer 0 [0] true] /\
  layers s'' = [TileLayer osm; VectorLayer 0 [0] true].
Proof.
  destruct (basemap_change_keeps_overlays "sat" (startup no_panels) eq_refl eq_refl)
    as (_ & _ & H1 & _ & _ & _ & Hb).
  destruct (basemap_change_keeps_overlays "terrain"
              (snd (basemapChange "sat" (startup no_panels))) eq_refl Hb)
    as (_ & _ & H2 & _).
  cbv zeta. split; [reflexivity|]. split; [rewrite H1; reflexivity|].
  rewrite H2. reflexivity.
Defined.

(* ================================================================== *)
(** ** The sidebar toggle *)
(* ================================================================== *)

Section SidebarToggle.

Import Sidebar.

Local Abbreviation byId := Sidebar.getElementById.

Lemma find_index_Some {A} (p : A -> bool) (l : list A) : forall i,
  find_index p l = Some i -> exists a, l !! i = Some a /\ p a = true.
Proof.
  induction l as [|a l IH]; simpl; intros i; [discriminate|].
  destruct (p a) eqn:E.
  - intros [= <-]. eauto.
  - destruct (find_index p l) as [j|]; simpl; [|discriminate].
    intros [= <-]. destruct (IH j eq_refl) as (b & Hb & Hp). eauto.
Qed.

Lemma find_index_alter {A} (p : A -> bool) (f : A -> A) (l : list A) :
  (forall a, p (f a) = p a) -> forall i, find_index p (alter f i l) = find_index p l.
Proof.
  intros Hf. induction l as [|a l IH]; intros [|i]; try reflexivity.
  - simpl. now rewrite Hf.
  - change (alter f (S i) (a :: l)) with (a :: alter f i l). simpl. now rewrite IH.
Qed.

Lemma ids_alter (f : Node -> Node) (doc : Document) :
  (forall n, node_id (f n) = node_id n) ->
  forall i, map node_id (alter f i doc) = map node_id doc.
Proof.
  intros Hf. induction doc as [|a doc IH]; intros [|i]; try reflexivity.
  - simpl. now rewrite Hf.
  - change (alter f (S i) (a :: doc)) with (a :: alter f i doc). simpl. now rewrite IH.
Qed.

Lemma has_class_toggle c n :
  has_class c (toggle_class c n) = negb (has_class c n).
Proof.
  unfold toggle_class, has_class. simpl.
  destruct (existsb (String.eqb c) (classList n)) eqn:E; simpl.
  - clear E. induction (classList n) as [|x l IH]; simpl; [reflexivity|].
    destruct (String.eqb c x) eqn:Ex; simpl; [exact IH|]. now rewrite Ex.
  - rewrite existsb_app. simpl. rewrite String.eqb_refl. apply orb_true_r.
Qed.

Lemma get_set_property k' k v st :
  get_property k' (set_property k v st) =
  if String.eqb k' k then Some v else get_property k' st.
Proof.
  induction st as [|[k0 v0] st IH]; simpl.
  - reflexivity.
  - destruct (String.eqb k k0) eqn:E; simpl.
    + apply String.eqb_eq in E as <-. now destruct (String.eqb k' k).
    + rewrite IH. destruct (String.eqb k' k0) eqn:E0; [|reflexivity].
      apply String.eqb_eq in E0 as ->. rewrite String.eqb_sym in E. now rewrite E.
Qed.

Lemma style_of_setProperty k' k v n :
  style_of k' (setProperty k v n) =
  if String.eqb k' k then Some v else style_of k' n.
Proof. apply get_set_property. Qed.

Lemma node_at_alter_eq (P Q : Node -> Prop) f k doc :
  node_at Q k doc -> (forall n, Q n -> P (f n)) -> node_at P k (alter f k doc).
Proof.
  intros (n & Hn & HQ) Hf. exists (f n). split; [|auto].
  now rewrite list_lookup_alter_eq, Hn.
Qed.

Lemma node_at_alter (P : Node -> Prop) f i k doc :
  node_at P k doc -> (forall n, P n -> P (f n)) -> node_at P k (alter f i doc).
Proof.
  intros H Hf. destruct (decide (i = k)) as [->|Hne].
  - eapply node_at_alter_eq; eassumption.
  - destruct H as (n & Hn & HP). exists n. split; [|exact HP].
    now rewrite list_lookup_alter_ne.
Qed.

Lemma node_at_restyle (P : Node -> Prop) name value k doc :
  node_at P k doc -> (forall n, P n -> P (setProperty name value n)) ->
  node_at P k (restyle_collapsed name value doc).
Proof.
  intros H Hf. unfold restyle_collapsed.
  destruct (querySelector _ doc); [now apply node_at_alter|exact H].
Qed.

Lemma ids_restyle name value doc :
  map node_id (restyle_collapsed name value doc) = map node_id doc.
Proof.
  unfold restyle_collapsed. destruct (querySelector _ doc); [|reflexivity].
  now apply ids_alter.
Qed.

Lemma byId_alter id f i doc :
  (forall n, node_id (f n) = node_id n) -> byId id (alter f i doc) = byId id doc.
Proof.
  intros Hf. apply find_index_alter. intros a. now rewrite Hf.
Qed.

Lemma byId_same_ids id doc doc' :
  map node_id doc' = map node_id doc -> byId id doc' = byId id doc.
Proof.
  unfold Sidebar.getElementById. revert doc'.
  induction doc as [|a doc IH]; intros [|a' doc']; simpl; try discriminate; [reflexivity|].
  intros [= H1 H2]. rewrite H1. destruct (String.eqb (node_id a) id); [reflexivity|].
  now rewrite (IH doc').
Qed.

(** What a click does on a page that has the button, the sidebar and the
    map. *)
Lemma onToggleClick_effect (doc : Document) (b sb m : nat) (n0 : Node) :
  byId "toggle-sidebar" doc = Some b ->
  byId "viewer-sidebar" doc = Some sb ->
  byId "map" doc = Some m ->
  doc !! sb = Some n0 ->
  let c := negb (has_class "collapsed" n0) in
  exists doc',
    onToggleClick doc = (Ok tt, doc') /\
    map node_id doc' = map node_id doc /\
    node_at (fun n => has_class "collapsed" n = c /\
                      style_of "z-index" n = Some (zIndex c) /\
                      style_of "transform" n = Some (transform c)) sb doc' /\
    node_at (fun n => style_of "width" n = Some (width c) /\
                      style_of "transition" n = Some "width 0.3s ease") m doc' /\
    node_at (fun n => node_innerHTML n = glyph c) b doc'.
Proof.
  intros Hb Hsb Hm Hn0 c.
  destruct (find_index_Some _ _ _ Hb) as (nb & Hnb & _).
  destruct (find_index_Some _ _ _ Hm) as (nm & Hnm & _).
  unfold onToggleClick. rewrite Hb, Hsb. cbv zeta.
  rewrite list_lookup_alter_eq, Hn0. cbn [fmap option_fmap option_map].
  rewrite has_class_toggle. fold c.
  rewrite !byId_alter by reflexivity. rewrite Hm.
  rewrite !byId_alter by reflexivity. rewrite Hm.
  eexists. split; [reflexivity|]. split; [|split; [|split]].
  - rewrite !ids_restyle. now rewrite !ids_alter by reflexivity.
  - apply node_at_restyle; [apply node_at_restyle|]; cycle 1.
    { intros n (H1 & H2 & H3). rewrite !style_of_setProperty. simpl. auto. }
    { intros n (H1 & H2 & H3). rewrite !style_of_setProperty. simpl. auto. }
    apply node_at_alter; [apply node_at_alter|]; cycle 1.
    { intros n (H1 & H2 & H3). rewrite !style_of_setProperty. simpl. auto. }
    { intros n (H1 & H2 & H3). rewrite !style_of_setProperty. simpl. auto. }
    apply (node_at_alter_eq _ (fun n => has_class "collapsed" n = c /\
                                        style_of "z-index" n = Some (zIndex c))).
    + apply (node_at_alter_eq _ (fun n => has_class "collapsed" n = c)).
      * apply node_at_alter; [|auto].
        exists (toggle_class "collapsed" n0). split.
        -- now rewrite list_lookup_alter_eq, Hn0.
        -- apply has_class_toggle.
      * intros n H. rewrite style_of_setProperty. simpl. auto.
    + intros n (H1 & H2). rewrite !style_of_setProperty. simpl. auto.
  - apply node_at_restyle; [apply node_at_restyle|]; cycle 1.
    { intros n (H1 & H2). rewrite !style_of_setProperty. simpl. auto. }
    { intros n (H1 & H2). rewrite !style_of_setProperty. simpl. auto. }
    apply (node_at_alter_eq _ (fun n => style_of "width" n = Some (width c))).
    + apply (node_at_alter_eq _ (fun _ => True)).
      * repeat (apply node_at_alter; [|auto]). exists nm. auto.
      * intros n _. rewrite style_of_setProperty. reflexivity.
    + intros n H. rewrite !style_of_setProperty. simpl. auto.
  - do 6 (first [apply node_at_restyle | apply node_at_alter]; [|solve [auto]]).
    apply (node_at_alter_eq _ (fun _ => True)); [|reflexivity].
    apply node_at_alter; [|auto]. exists nb. auto.
Qed.

Lemma onToggleClick_settled (doc : Document) (b sb m : nat) (n0 : Node) :
  byId "toggle-sidebar" doc = Some b ->
  byId "viewer-sidebar" doc = Some sb ->
  byId "map" doc = Some m ->
  doc !! sb = Some n0 ->
  exists doc',
    onToggleClick doc = (Ok tt, doc') /\
    map node_id doc' = map node_id doc /\
    settled (negb (has_class "collapsed" n0)) b sb m doc'.
Proof.
  intros Hb Hsb Hm Hn0.
  destruct (onToggleClick_effect doc b sb m n0 Hb Hsb Hm Hn0) as (doc' & H1 & H2 & H3).
  exists doc'. split; [exact H1|]. split; [exact H2|exact H3].
Qed.

(** X21. A click on the sidebar button, on a page that has the button, the
    sidebar and the map, ends normally, keeps every element's id, and leaves
    the page settled on the flipped flag: the sidebar's [collapsed] class is
    flipped, its z-index and transform, the map's width and transition and the
    button's glyph are those of the new flag. *)
Theorem sidebar_click_flips_and_settles (doc : Document) (b sb m : nat) (n0 : Node) :
  byId "toggle-sidebar" doc = Some b ->
  byId "viewer-sidebar" doc = Some sb ->
  byId "map" doc = Some m ->
  doc !! sb = Some n0 ->
  exists doc',
    onToggleClick doc = (Ok tt, doc') /\
    map node_id doc' = map node_id doc /\
    settled (negb (has_class "collapsed" n0)) b sb m doc'.
Proof. apply onToggleClick_settled. Qed.

Lemma sidebar_click_flips_and_settles_sample :
  exists doc',
    onToggleClick sample_page = (Ok tt, doc') /\
    map node_id doc' = map node_id sample_page /\
    settled true 0 1 2 doc'.
Proof.
  apply (sidebar_click_flips_and_settles sample_page 0 1 2
           (mkNode "viewer-sidebar" ["viewer-sidebar"] [] "")); reflexivity.
Defined.

(** X22. Two clicks in a row bring the sidebar back to the flag it had: both
    end normally, and the page is then settled on the original value of the
    [collapsed] class, whatever the styles and the glyph were before. *)
Theorem sidebar_two_clicks_restore (doc : Document) (b sb m : nat) (n0 : Node) :
  byId "toggle-sidebar" doc = Some b ->
  byId "viewer-sidebar" doc = Some sb ->
  byId "map" doc = Some m ->
  doc !! sb = Some n0 ->
  exists doc1 doc2,
    onToggleClick doc = (Ok tt, doc1) /\
    onToggleClick doc1 = (Ok tt, doc2) /\
    map node_id doc2 = map node_id doc /\
    settled (has_class "collapsed" n0) b sb m doc2.
Proof.
  intros Hb Hsb Hm Hn0.
  destruct (onToggleClick_settled doc b sb m n0 Hb Hsb Hm Hn0)
    as (doc1 & H1 & Hids & ((n1 & Hn1 & Hc & _) & _)).
  destruct (onToggleClick_settled doc1 b sb m n1) as (doc2 & H2 & Hids2 & Hs);
    try (rewrite (byId_same_ids _ doc doc1 Hids); assumption); [exact Hn1|].
  exists doc1, doc2. split; [exact H1|]. split; [exact H2|]. split.
  - now rewrite Hids2.
  - rewrite Hc, negb_involutive in Hs. exact Hs.
Qed.

Lemma sidebar_two_clicks_restore_sample :
  exists doc1 doc2,
    onToggleClick sample_page = (Ok tt, doc1) /\
    onToggleClick doc1 = (Ok tt, doc2) /\
    map node_id doc2 = map node_id sample_page /\
    settled false 0 1 2 doc2.
Proof.
  apply (sidebar_two_clicks_restore sample_page 0 1 2
           (mkNode "viewer-sidebar" ["viewer-sidebar"] [] "")); reflexivity.
Defined.

(** X23. On a page that has the button and the sidebar but no element with
    the id [map], a click throws a TypeError, and by then the sidebar's
    [collapsed] class is already flipped and the button already shows the new
    glyph. *)
Theorem sidebar_click_without_map (doc : Document) (b sb : nat) (n0 : Node) :
  byId "toggle-sidebar" doc = Some b ->
  byId "viewer-sidebar" doc = Some sb ->
  byId "map" doc = None ->
  doc !! sb = Some n0 ->
  let c := negb (has_class "collapsed" n0) in
  exists msg doc',
    onToggleClick doc = (Throw (TypeError msg), doc') /\
    node_at (fun n => has_class "collapsed" n = c) sb doc' /\
    node_at (fun n => node_innerHTML n = glyph c) b doc'.
Proof.
  intros Hb Hsb Hm Hn0 c.
  destruct (find_index_Some _ _ _ Hb) as (nb & Hnb & _).
  unfold onToggleClick. rewrite Hb, Hsb. cbv zeta.
  rewrite list_lookup_alter_eq, Hn0. cbn [fmap option_fmap option_map].
  rewrite has_class_toggle. fold c.
  rewrite !byId_alter by reflexivity. rewrite Hm.
  eexists _, _. split; [reflexivity|]. split.
  - do 3 (apply node_at_alter; [|solve [auto]]).
    exists (toggle_class "collapsed" n0). split.
    + now rewrite list_lookup_alter_eq, Hn0.
    + apply has_class_toggle.
  - do 2 (apply node_at_alter; [|solve [auto]]).
    apply (node_at_alter_eq _ (fun _ => True)); [|reflexivity].
    apply node_at_alter; [|auto]. exists nb. auto.
Qed.

Lemma sidebar_click_without_map_sample :
  exists msg doc',
    onToggleClick page_without_map = (Throw (TypeError msg), doc') /\
    node_at (fun n => has_class "collapsed" n = true) 1 doc' /\
    node_at (fun n => node_innerHTML n = glyph true) 0 doc'.
Proof.
  apply (sidebar_click_without_map page_without_map 0 1
           (mkNode "viewer-sidebar" ["viewer-sidebar"] [] "")); reflexivity.
Defined.

End SidebarToggle.
